(** * Touch UI: gesture classification, canvas, widgets and hand-off screens

    A shallow embedding of [touch_ui.py] (the kiosk UI) and of the gesture
    loop of [touch_uxplay_wrapper.py].

    Conventions of the embedding:
    - Python [int] is [Z]; Python [float] values (time stamps, the result of
      the true division [/]) are exact rationals [Q], so rounding of IEEE
      doubles is not modelled;
    - the gesture names passed to callbacks are the Python strings of the
      source (['tap'], ['double_tap'], ...);
    - a raised exception is an explicit [Raise] outcome;
    - calls whose effect lies outside the program (terminal writes, process
      signals, widget callbacks, clock readings) are recorded in traces or
      taken as arguments. *)

From Stdlib Require Import ZArith QArith Qround List String Ascii Bool Lia.
From Stdlib Require Import Lqa.
From Stdlib Require Import DecimalString.
From stdpp Require Import base list.
Import ListNotations.

Local Open Scope Z_scope.

(** ** Python arithmetic used by the source *)

Module Py.

(** Exceptions the modelled code can raise. *)
Inductive exn := ZeroDivisionError | IndexError | TypeError.

Inductive outcome (A : Type) :=
| Return (a : A)
| Raise (e : exn).
Arguments Return {A} a.
Arguments Raise {A} e.

Definition bind {A B} (m : outcome A) (k : A -> outcome B) : outcome B :=
  match m with
  | Return a => k a
  | Raise e => Raise e
  end.

(** [a < b] and [a > b] on floats. *)
Definition Qltb (a b : Q) : bool := negb (Qle_bool b a).
Definition Qgtb (a b : Q) : bool := Qltb b a.

(** [int(q)]: truncation toward zero. *)
Definition int (q : Q) : Z :=
  if Qle_bool 0 q then Qfloor q else Qceiling q.

(** [a / b] on two ints: true division, or [ZeroDivisionError]. *)
Definition truediv (a b : Z) : outcome Q :=
  if b =? 0 then Raise ZeroDivisionError
  else Return (inject_Z a / inject_Z b)%Q.

(** [max(a, b)] and [min(a, b)] on numbers. *)
Definition Qmax (a b : Q) : Q := if Qltb a b then b else a.
Definition Qmin (a b : Q) : Q := if Qltb b a then b else a.

(** [range(lo, hi)]. *)
Definition range (lo hi : Z) : list Z :=
  map (fun k => lo + Z.of_nat k) (seq 0 (Z.to_nat (hi - lo))).

(** [str(n)] for an int. *)
Definition str (n : Z) : string := NilZero.string_of_int (Z.to_int n).

End Py.

(** ** TouchHandler: the gesture classifier of [touch_ui.py] *)

Module TouchHandler.
Import Py.

(** evdev event codes ([evdev.ecodes], from the Linux input headers). *)
Definition EV_SYN : Z := 0.
Definition EV_KEY : Z := 1.
Definition EV_ABS : Z := 3.
Definition ABS_X : Z := 0.
Definition ABS_Y : Z := 1.
Definition ABS_MT_POSITION_X : Z := 53.
Definition ABS_MT_POSITION_Y : Z := 54.
Definition ABS_MT_TRACKING_ID : Z := 57.
Definition BTN_TOUCH : Z := 330.

Record input_event := { ev_type : Z; ev_code : Z; ev_value : Z }.

(** [self.touch_callback(gesture, x, y)]. *)
Definition emission : Type := string * Z * Z.

(** The loop's locals ([x], [y], [touching], [swipe_start]) and the
    attributes of [self] it reads and writes. *)
Record state := {
  x : option Z;
  y : option Z;
  touching : bool;
  swipe_start : option (Z * Z * Q);
  running : bool;
  touch_callback : bool;
  current_touch : option (Z * Z);
  last_tap_time : Q;
  tap_count : Z
}.

(** State at the head of [_touch_loop] once [start(callback)] has run. *)
Definition init : state :=
  {| x := None; y := None; touching := false; swipe_start := None;
     running := true; touch_callback := true; current_touch := None;
     last_tap_time := 0%Q; tap_count := 0 |}.

Definition set_x (s : state) (v : option Z) : state :=
  {| x := v; y := y s; touching := touching s; swipe_start := swipe_start s;
     running := running s; touch_callback := touch_callback s;
     current_touch := current_touch s;
     last_tap_time := last_tap_time s; tap_count := tap_count s |}.
Definition set_y (s : state) (v : option Z) : state :=
  {| x := x s; y := v; touching := touching s; swipe_start := swipe_start s;
     running := running s; touch_callback := touch_callback s;
     current_touch := current_touch s;
     last_tap_time := last_tap_time s; tap_count := tap_count s |}.
Definition set_touching (s : state) (v : bool) : state :=
  {| x := x s; y := y s; touching := v; swipe_start := swipe_start s;
     running := running s; touch_callback := touch_callback s;
     current_touch := current_touch s;
     last_tap_time := last_tap_time s; tap_count := tap_count s |}.
Definition set_swipe_start (s : state) (v : option (Z * Z * Q)) : state :=
  {| x := x s; y := y s; touching := touching s; swipe_start := v;
     running := running s; touch_callback := touch_callback s;
     current_touch := current_touch s;
     last_tap_time := last_tap_time s; tap_count := tap_count s |}.
Definition set_current_touch (s : state) (v : option (Z * Z)) : state :=
  {| x := x s; y := y s; touching := touching s; swipe_start := swipe_start s;
     running := running s; touch_callback := touch_callback s;
     current_touch := v;
     last_tap_time := last_tap_time s; tap_count := tap_count s |}.
Definition set_last_tap_time (s : state) (v : Q) : state :=
  {| x := x s; y := y s; touching := touching s; swipe_start := swipe_start s;
     running := running s; touch_callback := touch_callback s;
     current_touch := current_touch s;
     last_tap_time := v; tap_count := tap_count s |}.
Definition set_tap_count (s : state) (v : Z) : state :=
  {| x := x s; y := y s; touching := touching s; swipe_start := swipe_start s;
     running := running s; touch_callback := touch_callback s;
     current_touch := current_touch s;
     last_tap_time := last_tap_time s; tap_count := v |}.

(** Fixed max coordinates for the 800x480 display. *)
Definition max_x : Z := 800.
Definition max_y : Z := 480.

(** The swipe name chosen from the deltas (lines 126-129). *)
Definition swipe_gesture (dx dy : Z) : string :=
  if Z.abs dx >? Z.abs dy
  then (if dx >? 0 then "swipe_right" else "swipe_left")%string
  else (if dy >? 0 then "swipe_down" else "swipe_up")%string.

(** [abs(dx) > max_x * 0.1 or abs(dy) > max_y * 0.1]. *)
Definition moved_far (dx dy : Z) : bool :=
  Qgtb (inject_Z (Z.abs dx)) (inject_Z max_x * (1 # 10))
  || Qgtb (inject_Z (Z.abs dy)) (inject_Z max_y * (1 # 10)).

(** Lines 108-134: the body run at a tracking-id release once the
    callback, [x] and [y] are known to be set and [swipe_start] holds
    [(sx, sy, st)].  [t1] is the clock read for [dt] (line 111), [t2] the
    one read for [current_time] (line 114). *)
Definition classify (s : state) (px py : Z) (sx sy : Z) (st : Q)
    (t1 t2 : Q) : state * list emission :=
  let dx := px - sx in
  let dy := py - sy in
  let dt := (t1 - st)%Q in
  let current_time := t2 in
  if Qltb dt (2 # 10) then
    let '(s1, out1) :=
      if Qltb (current_time - last_tap_time s) (5 # 10) then
        let s' := set_tap_count s (tap_count s + 1) in
        if tap_count s' >=? 2
        then (set_tap_count s' 0, [("double_tap"%string, px, py)])
        else (s', [])
      else (set_tap_count s 1, []) in
    let s2 := set_last_tap_time s1 current_time in
    if moved_far dx dy
    then (s2, out1 ++ [(swipe_gesture dx dy, px, py)])
    else (s2, out1 ++ [("tap"%string, px, py)])
  else (s, [("release"%string, px, py)]).

(** One iteration of the [for event in self.device.read_loop()] body
    (after the [running] test).  [t1] and [t2] are the values returned
    by the first and second [time.time()] call made while the event is
    handled, if any. *)
Definition handle_event (s : state) (e : input_event) (t1 t2 : Q)
    : state * list emission :=
  if ev_type e =? EV_ABS then
    if (ev_code e =? ABS_MT_POSITION_X) || (ev_code e =? ABS_X) then
      (set_x s (Some (ev_value e)), [])
    else if (ev_code e =? ABS_MT_POSITION_Y) || (ev_code e =? ABS_Y) then
      (set_y s (Some (ev_value e)), [])
    else if ev_code e =? ABS_MT_TRACKING_ID then
      if ev_value e >=? 0 then
        let s := set_touching s true in
        match x s, y s with
        | Some px, Some py => (set_swipe_start s (Some (px, py, t1)), [])
        | _, _ => (s, [])
        end
      else
        let s := set_touching s false in
        match touch_callback s, x s, y s with
        | true, Some px, Some py =>
            let '(s', out) :=
              match swipe_start s with
              | Some (sx, sy, st) => classify s px py sx sy st t1 t2
              | None => (s, [])
              end in
            (set_swipe_start s' None, out)
        | _, _, _ => (s, [])
        end
    else (s, [])
  else if ev_type e =? EV_KEY then
    if ev_code e =? BTN_TOUCH then
      if ev_value e =? 1 then
        let s := set_touching s true in
        match x s, y s with
        | Some px, Some py =>
            let s := set_swipe_start s (Some (px, py, t1)) in
            if touch_callback s
            then (s, [("press"%string, px, py)])
            else (s, [])
        | _, _ => (s, [])
        end
      else
        let s := set_touching s false in
        match touch_callback s, x s, y s with
        | true, Some px, Some py => (s, [("release"%string, px, py)])
        | _, _, _ => (s, [])
        end
    else (s, [])
  else if ev_type e =? EV_SYN then
    match touching s, x s, y s with
    | true, Some px, Some py => (set_current_touch s (Some (px, py)), [])
    | _, _, _ => (s, [])
    end
  else (s, []).

(** The gesture names [handle_event] can pass to the callback. *)
Definition gesture_names : list string :=
  ["press"; "release"; "tap"; "double_tap";
   "swipe_left"; "swipe_right"; "swipe_up"; "swipe_down"]%string.

(** An event as the loop sees it: the device event and the clock
    readings taken while it is handled. *)
Record timed_event := { ev : input_event; clock1 : Q; clock2 : Q }.

(** [_touch_loop]: the events are handled in order while [running] holds;
    the result is the final state and one emission list per event. *)
Fixpoint _touch_loop (s : state) (evs : list timed_event)
    : state * list (list emission) :=
  match evs with
  | [] => (s, [])
  | te :: rest =>
      if running s then
        let '(s', out) := handle_event s (ev te) (clock1 te) (clock2 te) in
        let '(s'', outs) := _touch_loop s' rest in
        (s'', out :: outs)
      else (s, [])
  end.

(** Event constructors used in examples. *)
Definition abs_x (v : Z) : input_event :=
  {| ev_type := EV_ABS; ev_code := ABS_MT_POSITION_X; ev_value := v |}.
Definition abs_y (v : Z) : input_event :=
  {| ev_type := EV_ABS; ev_code := ABS_MT_POSITION_Y; ev_value := v |}.
Definition tracking (v : Z) : input_event :=
  {| ev_type := EV_ABS; ev_code := ABS_MT_TRACKING_ID; ev_value := v |}.
Definition btn_touch (v : Z) : input_event :=
  {| ev_type := EV_KEY; ev_code := BTN_TOUCH; ev_value := v |}.
Definition at_time (e : input_event) (t : Q) : timed_event :=
  {| ev := e; clock1 := t; clock2 := t |}.

(** Example inputs: a finger resting at (100, 100), and a contact
    reported through the tracking id from time [t0] to time [t1]. *)
Definition positioned : list timed_event :=
  [at_time (abs_x 100) 1000; at_time (abs_y 100) 1000].
Definition contact (id : Z) (t0 t1 : Q) : list timed_event :=
  [at_time (tracking id) t0; at_time (tracking (-1)) t1].

(** The state during a contact that started at (100, 100) at time 1000,
    with [n] taps counted, the last one at time [t]. *)
Definition in_contact (n : Z) (t : Q) : state :=
  {| x := Some 100; y := Some 100; touching := true;
     swipe_start := Some (100, 100, 1000%Q);
     running := true; touch_callback := true; current_touch := None;
     last_tap_time := t; tap_count := n |}.

End TouchHandler.

(** ** The gesture loop of [touch_uxplay_wrapper.py] *)

Module UxplayWrapper.
Import Py.
Import TouchHandler (input_event, ev_type, ev_code, ev_value,
  EV_ABS, EV_KEY, ABS_X, ABS_Y, ABS_MT_POSITION_X, ABS_MT_POSITION_Y,
  BTN_TOUCH).

(** The "Gesture state" locals of [main]. *)
Record state := {
  touching : bool;
  start_x : option Z;
  start_y : option Z;
  last_x : option Z;
  last_y : option Z;
  start_time : option Q;
  last_tap_time : Q;
  tap_count : Z
}.

Definition init : state :=
  {| touching := false; start_x := None; start_y := None;
     last_x := None; last_y := None; start_time := None;
     last_tap_time := 0%Q; tap_count := 0 |}.

Definition set_last_x (s : state) (v : option Z) : state :=
  {| touching := touching s; start_x := start_x s; start_y := start_y s;
     last_x := v; last_y := last_y s; start_time := start_time s;
     last_tap_time := last_tap_time s; tap_count := tap_count s |}.
Definition set_last_y (s : state) (v : option Z) : state :=
  {| touching := touching s; start_x := start_x s; start_y := start_y s;
     last_x := last_x s; last_y := v; start_time := start_time s;
     last_tap_time := last_tap_time s; tap_count := tap_count s |}.
Definition set_touching (s : state) (v : bool) : state :=
  {| touching := v; start_x := start_x s; start_y := start_y s;
     last_x := last_x s; last_y := last_y s; start_time := start_time s;
     last_tap_time := last_tap_time s; tap_count := tap_count s |}.
Definition finger_down (s : state) (now : Q) : state :=
  {| touching := true; start_x := last_x s; start_y := last_y s;
     last_x := last_x s; last_y := last_y s; start_time := Some now;
     last_tap_time := last_tap_time s; tap_count := tap_count s |}.
Definition set_last_tap_time (s : state) (v : Q) : state :=
  {| touching := touching s; start_x := start_x s; start_y := start_y s;
     last_x := last_x s; last_y := last_y s; start_time := start_time s;
     last_tap_time := v; tap_count := tap_count s |}.
Definition set_tap_count (s : state) (v : Z) : state :=
  {| touching := touching s; start_x := start_x s; start_y := start_y s;
     last_x := last_x s; last_y := last_y s; start_time := start_time s;
     last_tap_time := last_tap_time s; tap_count := v |}.

(** How an iteration of the [for] loop ends. *)
Inductive control := Continue | Break.

Definition result : Type := state * list string * control.

(** Line 136: the tap counter is cleared after a second without taps. *)
Definition expire_taps (s : state) (current_time : Q) : state :=
  if Qgtb (current_time - last_tap_time s) 1 then set_tap_count s 0 else s.

(** Lines 117-137, with the positions already known to be set. *)
Definition detect (s : state) (sx sy lx ly : Z) (duration current_time : Q)
    : result :=
  let dx := lx - sx in
  let dy := ly - sy in
  if (Z.abs dx <? 30) && (Z.abs dy <? 30) && Qltb duration (3 # 10) then
    if Qltb (current_time - last_tap_time s) (6 # 10) then
      let s := set_tap_count s (tap_count s + 1) in
      if tap_count s >=? 2
      then (s, ["Double tap detected - Exiting UXPlay..."%string], Break)
      else
        let s := set_last_tap_time s current_time in
        (expire_taps s current_time, [], Continue)
    else
      let s := set_tap_count s 1 in
      let s := set_last_tap_time s current_time in
      (expire_taps s current_time, ["Single tap detected"%string], Continue)
  else if Qgtb duration 2 && (Z.abs dx <? 20) && (Z.abs dy <? 20) then
    (s, ["Long press detected - Exiting UXPlay..."%string], Break)
  else (expire_taps s current_time, [], Continue).

(** One iteration of the loop body of [main].  [alive] tells whether
    [uxplay_proc.poll()] returned [None]; [now] is the value of
    [time.time()] if the iteration reads the clock. *)
Definition step (alive : bool) (s : state) (e : input_event) (now : Q)
    : outcome result :=
  if negb alive then Return (s, ["UXPlay process ended."%string], Break)
  else if ev_type e =? EV_ABS then
    if (ev_code e =? ABS_MT_POSITION_X) || (ev_code e =? ABS_X) then
      Return (set_last_x s (Some (ev_value e)), [], Continue)
    else if (ev_code e =? ABS_MT_POSITION_Y) || (ev_code e =? ABS_Y) then
      Return (set_last_y s (Some (ev_value e)), [], Continue)
    else Return (s, [], Continue)
  else if (ev_type e =? EV_KEY) && (ev_code e =? BTN_TOUCH) then
    if ev_value e =? 1 then Return (finger_down s now, [], Continue)
    else if (ev_value e =? 0) && touching s then
      let s := set_touching s false in
      let current_time := now in
      match start_time s with
      | None => Raise TypeError
      | Some st =>
          let duration := (current_time - st)%Q in
          match start_x s, last_x s with
          | Some sx, Some lx =>
              match last_y s, start_y s with
              | Some ly, Some sy =>
                  Return (detect s sx sy lx ly duration current_time)
              | _, _ => Raise TypeError
              end
          | _, _ => Return (s, [], Continue)
          end
      end
    else Return (s, [], Continue)
  else Return (s, [], Continue).

(** The state of a finger held at (100, 100) since time 1000, with [n]
    taps counted, the last one at time [t]. *)
Definition holding (n : Z) (t : Q) : state :=
  {| touching := true; start_x := Some 100; start_y := Some 100;
     last_x := Some 100; last_y := Some 100; start_time := Some 1000%Q;
     last_tap_time := t; tap_count := n |}.

End UxplayWrapper.

(** ** ASCIICanvas: the double-buffered character grid *)

Module ASCIICanvas.
Import Py.

(** A grid cell holds a one-character Python string. *)
Definition cell : Type := string.

Record canvas := {
  width : Z;
  height : Z;
  buffer : list (list cell);
  old_buffer : list (list cell);
  dirty : bool
}.

(** [[[' ' for _ in range(w)] for _ in range(h)]]. *)
Definition blank (w h : Z) : list (list cell) :=
  map (fun _ => map (fun _ => " "%string) (range 0 w)) (range 0 h).

(** [__init__] with both sizes given (the terminal probe and the console
    setup are outside the model). *)
Definition init (w h : Z) : canvas :=
  {| width := w; height := h; buffer := blank w h; old_buffer := blank w h;
     dirty := true |}.

(** Position of index [i] in a Python list of length [n]: negative
    indices count from the end, anything else out of range is an
    [IndexError]. *)
Definition index (n : nat) (i : Z) : outcome nat :=
  if (0 <=? i) && (i <? Z.of_nat n) then Return (Z.to_nat i)
  else if (- Z.of_nat n <=? i) && (i <? 0) then Return (Z.to_nat (Z.of_nat n + i))
  else Raise IndexError.

(** [l[i]]. *)
Definition getitem {A} (l : list A) (i : Z) : outcome A :=
  bind (index (length l) i) (fun k =>
    match l !! k with
    | Some a => Return a
    | None => Raise IndexError
    end).

(** [l[i] = v]. *)
Definition setitem {A} (l : list A) (i : Z) (v : A) : outcome (list A) :=
  bind (index (length l) i) (fun k => Return (<[k := v]> l)).

(** The grid has [height] rows of [width] cells, as [__init__] builds
    it; [old_buffer] has [height] rows too. *)
Definition well_formed (c : canvas) : Prop :=
  length (buffer c) = Z.to_nat (height c)
  /\ length (old_buffer c) = Z.to_nat (height c)
  /\ Forall (fun line => length line = Z.to_nat (width c)) (buffer c).

(** [(row, col)] names a cell of the grid. *)
Definition in_grid (c : canvas) (rc : Z * Z) : Prop :=
  0 <= fst rc < height c /\ 0 <= snd rc < width c.

(** What a drawing primitive has done so far: the canvas and the list of
    cell assignments [self.buffer[row][col] = ...] it executed, oldest
    first, as [(row, col)] index pairs. *)
Definition drawing : Type := canvas * list (Z * Z).

Definition set_buffer (c : canvas) (b : list (list cell)) : canvas :=
  {| width := width c; height := height c; buffer := b;
     old_buffer := old_buffer c; dirty := dirty c |}.
Definition set_old_buffer (c : canvas) (b : list (list cell)) : canvas :=
  {| width := width c; height := height c; buffer := buffer c;
     old_buffer := b; dirty := dirty c |}.
Definition set_dirty (c : canvas) (d : bool) : canvas :=
  {| width := width c; height := height c; buffer := buffer c;
     old_buffer := old_buffer c; dirty := d |}.

(** [self.buffer[row][col] = ch]. *)
Definition store (row col : Z) (ch : cell) (d : drawing) : outcome drawing :=
  let '(c, log) := d in
  bind (getitem (buffer c) row) (fun line =>
  bind (setitem line col ch) (fun line' =>
  bind (setitem (buffer c) row line') (fun b' =>
  Return (set_buffer c b', log ++ [(row, col)])))).

(** [for i in l: body(i)]. *)
Fixpoint for_each (l : list Z) (body : Z -> drawing -> outcome drawing)
    (d : drawing) : outcome drawing :=
  match l with
  | [] => Return d
  | i :: rest => bind (body i d) (for_each rest body)
  end.

(** [if b: body]. *)
Definition when (b : bool) (body : drawing -> outcome drawing)
    (d : drawing) : outcome drawing :=
  if b then body d else Return d.

(** The loop of [draw_text] from character number [i] on. *)
Fixpoint draw_chars (x y : Z) (clip : bool) (i : Z) (text : list cell)
    (d : drawing) : outcome drawing :=
  match text with
  | [] => Return d
  | char :: rest =>
      let px := x + i in
      if px <? 0 then draw_chars x y clip (i + 1) rest d
      else if px >=? width (fst d) then
        if clip then Return d
        else draw_chars x y clip (i + 1) rest d
      else
        bind (store y px char d) (draw_chars x y clip (i + 1) rest)
  end.

Definition mark_dirty (d : drawing) : outcome drawing :=
  Return (set_dirty (fst d) true, snd d).

(** [draw_text(x, y, text, clip)]; [text] is the sequence of its
    characters. *)
Definition draw_text_from (x y : Z) (text : list cell) (clip : bool)
    (d : drawing) : outcome drawing :=
  if (y <? 0) || (y >=? height (fst d)) then Return d
  else bind (draw_chars x y clip 0 text d) mark_dirty.

Definition draw_text (c : canvas) (x y : Z) (text : list cell) (clip : bool)
    : outcome drawing :=
  draw_text_from x y text clip (c, []).

(** The six border characters of a style. *)
Definition box_chars (style : string) : list cell :=
  if String.eqb style "single" then ["┌"; "─"; "┐"; "│"; "└"; "┘"]%string
  else if String.eqb style "double" then ["╔"; "═"; "╗"; "║"; "╚"; "╝"]%string
  else if String.eqb style "round" then ["╭"; "─"; "╮"; "│"; "╰"; "╯"]%string
  else ["+"; "-"; "+"; "|"; "+"; "+"]%string.

(** [chars[k]] stored at [(row, col)]. *)
Definition store_char (chars : list cell) (k : Z) (row col : Z)
    (d : drawing) : outcome drawing :=
  bind (getitem chars k) (fun ch => store row col ch d).

Definition in_width (c : canvas) (col : Z) : bool :=
  (0 <=? col) && (col <? width c).
Definition in_height (c : canvas) (row : Z) : bool :=
  (0 <=? row) && (row <? height c).

(** A horizontal border line on row [row] (top: corners 0 and 2,
    bottom: corners 4 and 5). *)
Definition hline (chars : list cell) (x w row : Z) (left right : Z)
    (d : drawing) : outcome drawing :=
  let c := fst d in
  bind (when (in_width c x) (store_char chars left row x) d) (fun d =>
  bind (for_each (range 1 (w - 1)) (fun i =>
          when (in_width c (x + i)) (store_char chars 1 row (x + i))) d) (fun d =>
  when (in_width c (x + w - 1)) (store_char chars right row (x + w - 1)) d)).

Definition draw_box_from (x y w h : Z) (style : string) (filled : bool)
    (d : drawing) : outcome drawing :=
  let c := fst d in
  let chars := box_chars style in
  bind (when filled
          (for_each (range (Z.max 0 y) (Z.min (y + h) (height c))) (fun row =>
             for_each (range (Z.max 0 x) (Z.min (x + w) (width c))) (fun col =>
               store row col "░"%string))) d) (fun d =>
  bind (when (in_height c y) (hline chars x w y 0 2) d) (fun d =>
  bind (for_each (range 1 (h - 1)) (fun i =>
          when (in_height c (y + i)) (fun d =>
            bind (when (in_width c x) (store_char chars 3 (y + i) x) d) (fun d =>
            when (in_width c (x + w - 1))
              (store_char chars 3 (y + i) (x + w - 1)) d))) d) (fun d =>
  bind (when (in_height c (y + h - 1)) (hline chars x w (y + h - 1) 4 5) d)
  mark_dirty))).

(** [draw_box(x, y, w, h, style, filled)]. *)
Definition draw_box (c : canvas) (x y w h : Z) (style : string)
    (filled : bool) : outcome drawing :=
  draw_box_from x y w h style filled (c, []).

(** Calls made on [sys.stdout]. *)
Inductive term_op :=
| Write (s : string)
| Flush.

Definition ESC : string := String (ascii_of_nat 27) EmptyString.

(** [''.join(l)]. *)
Definition join (l : list string) : string :=
  fold_right String.append EmptyString l.

(** Lines 282-295: the pieces appended to [output]. *)
Fixpoint frame_rows (b : list (list cell)) (rows : list Z)
    : outcome (list string) :=
  match rows with
  | [] => Return []
  | y :: rest =>
      bind (getitem b y) (fun line =>
      bind (frame_rows b rest) (fun out =>
      Return ((ESC ++ "[" ++ str (y + 1) ++ ";1H")%string
                :: (ESC ++ "[K")%string :: join line :: out)))
  end.

Definition frame (c : canvas) : outcome string :=
  bind (frame_rows (buffer c) (range 0 (height c))) (fun out =>
  Return (join ((ESC ++ "[H")%string :: out))).

(** The whole frame, row by row from row number [y]: position the
    cursor, clear the line, emit the row. *)
Fixpoint rows_from (y : Z) (b : list (list cell)) : list string :=
  match b with
  | [] => []
  | line :: rest =>
      (ESC ++ "[" ++ str (y + 1) ++ ";1H")%string
        :: (ESC ++ "[K")%string :: join line :: rows_from (y + 1) rest
  end.

Definition full_frame (b : list (list cell)) : string :=
  join ((ESC ++ "[H")%string :: rows_from 0 b).

(** Lines 302-303: [self.old_buffer[y] = self.buffer[y][:]]. *)
Fixpoint copy_rows (b old : list (list cell)) (rows : list Z)
    : outcome (list (list cell)) :=
  match rows with
  | [] => Return old
  | y :: rest =>
      bind (getitem b y) (fun line =>
      bind (setitem old y line) (fun old' =>
      copy_rows b old' rest))
  end.

(** [render()]: the canvas afterwards and the calls made on the
    terminal.  An [IndexError] while the frame is built comes before any
    write; on a well-formed canvas no step raises. *)
Definition render (c : canvas) : outcome (canvas * list term_op) :=
  if negb (dirty c) then Return (c, [])
  else
    bind (frame c) (fun output =>
    bind (copy_rows (buffer c) (old_buffer c) (range 0 (height c))) (fun old' =>
    Return (set_dirty (set_old_buffer c old') false,
            [Write output; Flush]))).

(** A drawing in progress on canvas [c0] is in order when the canvas kept
    its size and shape and every assignment made so far named a cell of
    the grid. *)
Definition in_order (c0 : canvas) (d : drawing) : Prop :=
  width (fst d) = width c0 /\ height (fst d) = height c0
  /\ well_formed (fst d) /\ Forall (in_grid c0) (snd d).

(** A drawing step is safe when, from a drawing in order, it returns (no
    error is raised) a drawing in order. *)
Definition safe (c0 : canvas) (f : drawing -> outcome drawing) : Prop :=
  forall d, in_order c0 d -> exists d', f d = Return d' /\ in_order c0 d'.

(** A 4 x 3 canvas for examples. *)
Definition small : canvas := init 4 3.

End ASCIICanvas.

(** ** Widgets and screens *)

Module Widgets.
Import Py.

(** A callback is an opaque bound method: the model records that it was
    called, and with which argument. *)
Definition callback : Type := string.

Inductive arg :=
| NoArg
| IntArg (n : Z)
| StrArg (s : string).

(** Terminal size [(cols, rows)] as [_get_terminal_size] reports it. *)
Definition term_size : Type := (Z * Z)%type.

(** Attributes set by [Widget.__init__]. *)
Record Widget := {
  x : Z;
  y : Z;
  width : Z;
  height : Z;
  focused : bool;
  visible : bool
}.

Definition Widget_init (x y width height : Z) : Widget :=
  {| x := x; y := y; width := width; height := height;
     focused := false; visible := true |}.

Definition set_visible (w : Widget) (v : bool) : Widget :=
  {| x := x w; y := y w; width := width w; height := height w;
     focused := focused w; visible := v |}.

(** [int(touch * term_dim / sensor_dim)]. *)
Definition to_term (touch term_dim sensor_dim : Z) : Z :=
  int (inject_Z (touch * term_dim) / inject_Z sensor_dim).

(** [Widget.contains_point]. *)
Definition contains_point (w : Widget) (term : term_size) (tx ty : Z)
    : bool :=
  let '(term_cols, term_rows) := term in
  let term_x := to_term tx term_cols 800 in
  let term_y := to_term ty term_rows 480 in
  ((x w <=? term_x) && (term_x <? x w + width w))
  && ((y w <=? term_y) && (term_y <? y w + height w)).

(** *** Button, VideoButton, MainMenuButton *)

Record Button := {
  b_base : Widget;
  b_text : list string;
  b_callback : option callback;
  b_pressed : bool;
  b_style : string
}.

(** [Button.__init__]; [text] is the sequence of the label's
    characters. *)
Definition Button_init (x y : Z) (text : list string)
    (cb : option callback) (style : string) : Button :=
  {| b_base := Widget_init x y (Z.of_nat (length text) + 4) 3;
     b_text := text; b_callback := cb; b_pressed := false;
     b_style := style |}.

Definition Button_set_pressed (b : Button) (p : bool) : Button :=
  {| b_base := b_base b; b_text := b_text b; b_callback := b_callback b;
     b_pressed := p; b_style := b_style b |}.

Definition is_press (event_type : string) : bool :=
  String.eqb event_type "press".
Definition is_release_or_tap (event_type : string) : bool :=
  String.eqb event_type "release" || String.eqb event_type "tap".
Definition is_press_or_tap (event_type : string) : bool :=
  String.eqb event_type "press" || String.eqb event_type "tap".
Definition is_release (event_type : string) : bool :=
  String.eqb event_type "release".

(** [if was_pressed and self.callback: self.callback(a)]. *)
Definition fire (was_pressed : bool) (cb : option callback) (a : arg)
    : list (callback * arg) :=
  match was_pressed, cb with
  | true, Some f => [(f, a)]
  | _, _ => []
  end.

(** [Button.handle_touch]: the button afterwards, the callbacks called
    and the returned value. *)
Definition Button_handle_touch (b : Button) (event_type : string)
    (tx ty : Z) : Button * list (callback * arg) * bool :=
  if is_press event_type then (Button_set_pressed b true, [], true)
  else if is_release_or_tap event_type then
    let was_pressed := b_pressed b in
    (Button_set_pressed b false, fire was_pressed (b_callback b) NoArg, true)
  else (b, [], false).

Record VideoButton := {
  v_base : Widget;
  v_filename : list string;
  v_filepath : string;
  v_callback : option callback;
  v_pressed : bool
}.

Definition VideoButton_set_pressed (v : VideoButton) (p : bool)
    : VideoButton :=
  {| v_base := v_base v; v_filename := v_filename v;
     v_filepath := v_filepath v; v_callback := v_callback v;
     v_pressed := p |}.

Definition VideoButton_handle_touch (v : VideoButton) (event_type : string)
    (tx ty : Z) : VideoButton * list (callback * arg) * bool :=
  if is_press event_type then (VideoButton_set_pressed v true, [], true)
  else if is_release_or_tap event_type then
    let was_pressed := v_pressed v in
    (VideoButton_set_pressed v false,
     fire was_pressed (v_callback v) (StrArg (v_filepath v)), true)
  else (v, [], false).

Record MainMenuButton := {
  m_base : Widget;
  m_text : list string;
  m_icon : string;
  m_callback : option callback;
  m_pressed : bool
}.

Definition MainMenuButton_set_pressed (m : MainMenuButton) (p : bool)
    : MainMenuButton :=
  {| m_base := m_base m; m_text := m_text m; m_icon := m_icon m;
     m_callback := m_callback m; m_pressed := p |}.

Definition MainMenuButton_handle_touch (m : MainMenuButton)
    (event_type : string) (tx ty : Z)
    : MainMenuButton * list (callback * arg) * bool :=
  if is_press event_type then (MainMenuButton_set_pressed m true, [], true)
  else if is_release_or_tap event_type then
    let was_pressed := m_pressed m in
    (MainMenuButton_set_pressed m false,
     fire was_pressed (m_callback m) NoArg, true)
  else (m, [], false).

(** *** ScrollBar *)

Record ScrollBar := {
  s_base : Widget;
  total_items : Z;
  visible_items : Z;
  scroll_position : Z;
  s_callback : option callback;
  s_dragging : bool
}.

(** [ScrollBar.__init__]. *)
Definition ScrollBar_init (x y height total_items visible_items : Z)
    (cb : option callback) : ScrollBar :=
  let total := Z.max 1 total_items in
  {| s_base := Widget_init x y 3 height;
     total_items := total;
     visible_items := Z.min visible_items total;
     scroll_position := 0;
     s_callback := cb;
     s_dragging := false |}.

Definition set_scroll_position (s : ScrollBar) (p : Z) : ScrollBar :=
  {| s_base := s_base s; total_items := total_items s;
     visible_items := visible_items s; scroll_position := p;
     s_callback := s_callback s; s_dragging := s_dragging s |}.
Definition set_s_dragging (s : ScrollBar) (d : bool) : ScrollBar :=
  {| s_base := s_base s; total_items := total_items s;
     visible_items := visible_items s;
     scroll_position := scroll_position s;
     s_callback := s_callback s; s_dragging := d |}.

(** [if self.callback: self.callback(n)]. *)
Definition notify (cb : option callback) (n : Z) : list (callback * arg) :=
  match cb with
  | Some f => [(f, IntArg n)]
  | None => []
  end.

(** [ScrollBar._update_position]: the scrollbar afterwards, the callbacks
    called, and whether the call returned or raised. *)
Definition _update_position (s : ScrollBar) (term : term_size) (touch_y : Z)
    : ScrollBar * list (callback * arg) * outcome unit :=
  let '(term_cols, term_rows) := term in
  let term_y := to_term touch_y term_rows 480 in
  let relative_y := term_y - y (s_base s) in
  match truediv relative_y (height (s_base s)) with
  | Raise e => (s, [], Raise e)
  | Return q =>
      let normalized := Qmax 0 (Qmin 1 q) in
      let max_scroll := total_items s - visible_items s in
      let s := set_scroll_position s (int (normalized * inject_Z max_scroll)) in
      (s, notify (s_callback s) (scroll_position s), Return tt)
  end.

(** [ScrollBar.set_position]. *)
Definition set_position (s : ScrollBar) (position : Z) : ScrollBar :=
  let max_scroll := total_items s - visible_items s in
  set_scroll_position s (Z.max 0 (Z.min position max_scroll)).

(** [ScrollBar.handle_touch]. *)
Definition ScrollBar_handle_touch (s : ScrollBar) (term : term_size)
    (event_type : string) (tx ty : Z)
    : ScrollBar * list (callback * arg) * outcome bool :=
  if is_press_or_tap event_type then
    let s := set_s_dragging s true in
    let '(s, calls, r) := _update_position s term ty in
    (s, calls, bind r (fun _ => Return true))
  else if is_release event_type then
    (set_s_dragging s false, [], Return true)
  else (s, [], Return false).

(** *** Slider *)

Record Slider := {
  sl_base : Widget;
  min_val : Z;
  max_val : Z;
  value : Z;
  sl_callback : option callback;
  sl_dragging : bool
}.

(** [Slider.__init__]. *)
Definition Slider_init (x y width min_val max_val value : Z)
    (cb : option callback) : Slider :=
  {| sl_base := Widget_init x y width 3;
     min_val := min_val; max_val := max_val; value := value;
     sl_callback := cb; sl_dragging := false |}.

Definition set_value (s : Slider) (v : Z) : Slider :=
  {| sl_base := sl_base s; min_val := min_val s; max_val := max_val s;
     value := v; sl_callback := sl_callback s;
     sl_dragging := sl_dragging s |}.
Definition set_sl_dragging (s : Slider) (d : bool) : Slider :=
  {| sl_base := sl_base s; min_val := min_val s; max_val := max_val s;
     value := value s; sl_callback := sl_callback s; sl_dragging := d |}.

(** [Slider._update_value]. *)
Definition _update_value (s : Slider) (term : term_size) (touch_x : Z)
    : Slider * list (callback * arg) * outcome unit :=
  let '(term_cols, _) := term in
  let term_x := to_term touch_x term_cols 800 in
  let relative_x := term_x - x (sl_base s) - 1 in
  match truediv relative_x (width (sl_base s) - 3) with
  | Raise e => (s, [], Raise e)
  | Return q =>
      let normalized := Qmax 0 (Qmin 1 q) in
      let s := set_value s
        (int (inject_Z (min_val s)
              + normalized * inject_Z (max_val s - min_val s))) in
      (s, notify (sl_callback s) (value s), Return tt)
  end.

(** [Slider.handle_touch]. *)
Definition Slider_handle_touch (s : Slider) (term : term_size)
    (event_type : string) (tx ty : Z)
    : Slider * list (callback * arg) * outcome bool :=
  if is_press_or_tap event_type then
    let s := set_sl_dragging s true in
    let '(s, calls, r) := _update_value s term tx in
    (s, calls, bind r (fun _ => Return true))
  else if is_release event_type then
    (set_sl_dragging s false, [], Return true)
  else (s, [], Return false).

(** *** The widgets a screen holds *)

Inductive widget :=
| AWidget (w : Widget)
| AButton (b : Button)
| AVideoButton (v : VideoButton)
| AMainMenuButton (m : MainMenuButton)
| AScrollBar (s : ScrollBar)
| ASlider (s : Slider).

Definition base (w : widget) : Widget :=
  match w with
  | AWidget w => w
  | AButton b => b_base b
  | AVideoButton v => v_base v
  | AMainMenuButton m => m_base m
  | AScrollBar s => s_base s
  | ASlider s => sl_base s
  end.

(** [widget.handle_touch(event_type, x, y)] by class.  The base class
    returns [None], which the caller only tests for truth: it is
    [false] here. *)
Definition handle_touch (w : widget) (term : term_size)
    (event_type : string) (tx ty : Z)
    : widget * list (callback * arg) * outcome bool :=
  match w with
  | AWidget w => (AWidget w, [], Return false)
  | AButton b =>
      let '(b, calls, r) := Button_handle_touch b event_type tx ty in
      (AButton b, calls, Return r)
  | AVideoButton v =>
      let '(v, calls, r) := VideoButton_handle_touch v event_type tx ty in
      (AVideoButton v, calls, Return r)
  | AMainMenuButton m =>
      let '(m, calls, r) := MainMenuButton_handle_touch m event_type tx ty in
      (AMainMenuButton m, calls, Return r)
  | AScrollBar s =>
      let '(s, calls, r) := ScrollBar_handle_touch s term event_type tx ty in
      (AScrollBar s, calls, r)
  | ASlider s =>
      let '(s, calls, r) := Slider_handle_touch s term event_type tx ty in
      (ASlider s, calls, r)
  end.

(** *** Screen *)

(** What [Screen.handle_touch] does, in order: widget number [i] of
    [self.widgets] is hit-tested, is handed the gesture, or one of its
    callbacks runs. *)
Inductive action :=
| HitTest (i : nat)
| Handle (i : nat)
| Callback (f : callback) (a : arg).

Definition callbacks (calls : list (callback * arg)) : list action :=
  map (fun c => Callback (fst c) (snd c)) calls.

(** The loop [for widget in reversed(self.widgets)] with [k] widgets
    left to visit (numbers [k-1] down to [0]): the widgets afterwards,
    the actions taken and the outcome of the call. *)
Fixpoint visit (k : nat) (widgets : list widget) (term : term_size)
    (event_type : string) (tx ty : Z)
    : list widget * list action * outcome bool :=
  match k with
  | O => (widgets, [], Return false)
  | S i =>
      match widgets !! i with
      | None => (widgets, [], Raise IndexError)
      | Some w =>
          if contains_point (base w) term tx ty then
            let '(w', calls, r) := handle_touch w term event_type tx ty in
            let widgets' := <[i := w']> widgets in
            let done := HitTest i :: Handle i :: callbacks calls in
            match r with
            | Return true => (widgets', done, Return true)
            | Return false =>
                let '(widgets'', rest, r') :=
                  visit i widgets' term event_type tx ty in
                (widgets'', done ++ rest, r')
            | Raise e => (widgets', done, Raise e)
            end
          else
            let '(widgets', rest, r) :=
              visit i widgets term event_type tx ty in
            (widgets', HitTest i :: rest, r)
      end
  end.

(** [Screen.handle_touch]. *)
Definition Screen_handle_touch (widgets : list widget) (term : term_size)
    (event_type : string) (tx ty : Z)
    : list widget * list action * outcome bool :=
  visit (length widgets) widgets term event_type tx ty.






(** Example widgets: a button at cell (38, 11) that is not visible, and
    two overlapping buttons. *)
Definition hidden_button : widget :=
  AButton {| b_base := set_visible (Widget_init 38 11 6 3) false;
             b_text := ["O"; "K"]%string; b_callback := Some "ok"%string;
             b_pressed := false; b_style := "single" |}.




End Widgets.

(** ** Hand-off screens and collaborator processes *)

Module Handoff.








End Handoff.

(** ** The whole gesture loop of [touch_uxplay_wrapper.py] *)

Module UxplayLoop.
Import Py UxplayWrapper.

(** What one iteration of [for event in dev.read_loop()] meets: whether
    the UXPlay process is alive, the event, and the clock. *)
Record tick := {
  alive : bool;
  event : TouchHandler.input_event;
  now : Q
}.

(** The [for] loop of [main] over the events the device delivers: the
    state when the loop ends, everything printed, and whether it ended by
    [break] ([Continue] when the events ran out first). *)
Fixpoint main_loop (s : state) (ticks : list tick) : outcome result :=
  match ticks with
  | [] => Return (s, [], Continue)
  | t :: rest =>
      bind (step (alive t) s (event t) (now t)) (fun r =>
        match r with
        | (s', out, Break) => Return (s', out, Break)
        | (s', out, Continue) =>
            bind (main_loop s' rest) (fun r' =>
              match r' with
              | (s'', out', c) => Return (s'', out ++ out', c)
              end)
        end)
  end.

(** The three messages printed when the loop is left. *)
Definition exit_messages : list string :=
  ["UXPlay process ended."; "Double tap detected - Exiting UXPlay...";
   "Long press detected - Exiting UXPlay..."]%string.

(** What every state the loop continues from satisfies. *)
Definition continuing (s : state) : Prop := 0 <= tap_count s <= 1.

(** Example events: positions, and a finger down at time [t] that is
    lifted 0.1 s later. *)
Definition at_time (e : TouchHandler.input_event) (t : Q) : tick :=
  {| alive := true; event := e; now := t |}.
Definition tap_at (t : Q) : list tick :=
  [at_time (TouchHandler.btn_touch 1) t;
   at_time (TouchHandler.btn_touch 0) (t + (1 # 10))%Q].

End UxplayLoop.

(** ** The gesture loop of [touch_ffplay_wrapper.py] *)

Module FfplayWrapper.
Import Py.
Import TouchHandler (input_event, ev_type, ev_code, ev_value,
  EV_ABS, EV_KEY, ABS_X, ABS_Y, ABS_MT_POSITION_X, ABS_MT_POSITION_Y,
  BTN_TOUCH).

(** The "Gesture state" locals of [main]. *)
Record state := {
  touching : bool;
  start_x : option Z;
  start_y : option Z;
  last_x : option Z;
  last_y : option Z;
  start_time : option Q;
  last_tap_time : Q;
  consecutive_taps : Z
}.

Definition init : state :=
  {| touching := false; start_x := None; start_y := None;
     last_x := None; last_y := None; start_time := None;
     last_tap_time := 0%Q; consecutive_taps := 0 |}.

(** Reset tap count after 1 second of no taps. *)
Definition tap_timeout : Q := 1.

Definition set_last_x (s : state) (v : option Z) : state :=
  {| touching := touching s; start_x := start_x s; start_y := start_y s;
     last_x := v; last_y := last_y s; start_time := start_time s;
     last_tap_time := last_tap_time s;
     consecutive_taps := consecutive_taps s |}.
Definition set_last_y (s : state) (v : option Z) : state :=
  {| touching := touching s; start_x := start_x s; start_y := start_y s;
     last_x := last_x s; last_y := v; start_time := start_time s;
     last_tap_time := last_tap_time s;
     consecutive_taps := consecutive_taps s |}.
Definition set_touching (s : state) (v : bool) : state :=
  {| touching := v; start_x := start_x s; start_y := start_y s;
     last_x := last_x s; last_y := last_y s; start_time := start_time s;
     last_tap_time := last_tap_time s;
     consecutive_taps := consecutive_taps s |}.
Definition finger_down (s : state) (current_time : Q) : state :=
  {| touching := true; start_x := last_x s; start_y := last_y s;
     last_x := last_x s; last_y := last_y s;
     start_time := Some current_time;
     last_tap_time := last_tap_time s;
     consecutive_taps := consecutive_taps s |}.
Definition set_last_tap_time (s : state) (v : Q) : state :=
  {| touching := touching s; start_x := start_x s; start_y := start_y s;
     last_x := last_x s; last_y := last_y s; start_time := start_time s;
     last_tap_time := v; consecutive_taps := consecutive_taps s |}.
Definition set_consecutive_taps (s : state) (v : Z) : state :=
  {| touching := touching s; start_x := start_x s; start_y := start_y s;
     last_x := last_x s; last_y := last_y s; start_time := start_time s;
     last_tap_time := last_tap_time s; consecutive_taps := v |}.

Inductive control := Continue | Break.

Definition result : Type := state * list string * control.

(** Lines 109-111: the tap count is cleared when too much time has passed
    since the last tap. *)
Definition expire_taps (s : state) (current_time : Q) : state :=
  if Qgtb (current_time - last_tap_time s) tap_timeout
  then set_consecutive_taps s 0 else s.

(** [dx] and [dy] of lines 132-133; [start_x] and [last_x] are known to
    be set there. *)
Definition delta (a b : option Z) : Z :=
  match a, b with
  | Some l, Some s => Z.abs (l - s)
  | _, _ => 0
  end.

(** Lines 135-150, the gesture detection. *)
Definition detect (s : state) (dx dy : Z) (duration current_time : Q)
    : result :=
  if (dx <? 30) && (dy <? 30) && Qltb duration (3 # 10) then
    let s := set_consecutive_taps s (consecutive_taps s + 1) in
    let s := set_last_tap_time s current_time in
    let msg := ("Tap " ++ str (consecutive_taps s) ++ "/4")%string in
    if consecutive_taps s >=? 4
    then (s, [msg; "4 taps detected - Exiting FFplay..."%string], Break)
    else (s, [msg], Continue)
  else if Qgtb duration 2 && (dx <? 20) && (dy <? 20) then
    (s, ["Long press detected - Exiting FFplay..."%string], Break)
  else (set_consecutive_taps s 0, [], Continue).

(** One iteration of the loop body of [main].  [alive] tells whether
    [ffplay_proc.poll()] returned [None]; [current_time] is the clock read
    at the head of the iteration. *)
Definition step (alive : bool) (s : state) (e : input_event)
    (current_time : Q) : outcome result :=
  if negb alive then Return (s, ["FFplay process ended."%string], Break)
  else
    let s := expire_taps s current_time in
    if ev_type e =? EV_ABS then
      if (ev_code e =? ABS_MT_POSITION_X) || (ev_code e =? ABS_X) then
        Return (set_last_x s (Some (ev_value e)), [], Continue)
      else if (ev_code e =? ABS_MT_POSITION_Y) || (ev_code e =? ABS_Y) then
        Return (set_last_y s (Some (ev_value e)), [], Continue)
      else Return (s, [], Continue)
    else if (ev_type e =? EV_KEY) && (ev_code e =? BTN_TOUCH) then
      if ev_value e =? 1 then
        Return (finger_down s current_time, [], Continue)
      else if (ev_value e =? 0) && touching s then
        let s := set_touching s false in
        match start_time s with
        | None => Raise TypeError
        | Some st =>
            let duration := (current_time - st)%Q in
            match start_x s, last_x s with
            | Some _, Some _ =>
                let dx := delta (last_x s) (start_x s) in
                let dy := delta (last_y s) (start_y s) in
                Return (detect s dx dy duration current_time)
            | _, _ => Return (s, [], Continue)
            end
        end
      else Return (s, [], Continue)
    else Return (s, [], Continue).

Record tick := {
  alive : bool;
  event : input_event;
  now : Q
}.

(** The [for] loop of [main]. *)
Fixpoint main_loop (s : state) (ticks : list tick) : outcome result :=
  match ticks with
  | [] => Return (s, [], Continue)
  | t :: rest =>
      bind (step (alive t) s (event t) (now t)) (fun r =>
        match r with
        | (s', out, Break) => Return (s', out, Break)
        | (s', out, Continue) =>
            bind (main_loop s' rest) (fun r' =>
              match r' with
              | (s'', out', c) => Return (s'', out ++ out', c)
              end)
        end)
  end.

(** What every state the loop continues from satisfies: at most three
    taps are counted, and a contact in progress has its start time. *)
Definition continuing (s : state) : Prop :=
  0 <= consecutive_taps s <= 3
  /\ (touching s = true -> start_time s <> None).

(** A finger resting at (100, 100), then [n] quick taps in place, one
    every 0.4 s from time 1000 on. *)
Definition tap_at (t : Q) : list tick :=
  [{| alive := true; event := TouchHandler.btn_touch 1; now := t |};
   {| alive := true; event := TouchHandler.btn_touch 0;
      now := (t + (1 # 10))%Q |}].
Definition resting : list tick :=
  [{| alive := true; event := TouchHandler.abs_x 100; now := 999 |};
   {| alive := true; event := TouchHandler.abs_y 100; now := 999 |}].

(** The state of a finger held at (100, 100) since time 1000, with [n]
    taps counted, the last one at time [t]. *)
Definition holding (n : Z) (t : Q) : state :=
  {| touching := true; start_x := Some 100; start_y := Some 100;
     last_x := Some 100; last_y := Some 100; start_time := Some 1000%Q;
     last_tap_time := t; consecutive_taps := n |}.

End FfplayWrapper.

(** ** The gesture loop of [touch_mpv_wrapper4.py] *)

Module MpvWrapper.
Import Py.
Import TouchHandler (input_event, ev_type, ev_code, ev_value,
  EV_ABS, EV_KEY, ABS_X, ABS_Y, ABS_MT_POSITION_X, ABS_MT_POSITION_Y,
  BTN_TOUCH).

(** An element of a command list handed to [mpv_send]. *)
Inductive json :=
| JStr (s : string)
| JInt (n : Z).

(** What the loop does to the outside: a command handed to [mpv_send], the
    line [mpv_send] prints when sending fails (its text depends on the
    error), or a line printed by the loop. *)
Inductive output :=
| Send (cmd : list json)
| IpcError
| Print (s : string).

(** [mpv_send(cmd)]; [sent] is the value it returns. *)
Definition mpv_send (cmd : list json) (sent : bool) : list output :=
  if sent then [Send cmd] else [Send cmd; IpcError].

Record state := {
  touching : bool;
  start_x : option Z;
  start_y : option Z;
  last_x : option Z;
  last_y : option Z;
  start_time : option Q;
  last_volume_time : Q
}.

Definition init : state :=
  {| touching := false; start_x := None; start_y := None;
     last_x := None; last_y := None; start_time := None;
     last_volume_time := 0%Q |}.

Definition set_last_x (s : state) (v : option Z) : state :=
  {| touching := touching s; start_x := start_x s; start_y := start_y s;
     last_x := v; last_y := last_y s; start_time := start_time s;
     last_volume_time := last_volume_time s |}.
Definition set_last_y (s : state) (v : option Z) : state :=
  {| touching := touching s; start_x := start_x s; start_y := start_y s;
     last_x := last_x s; last_y := v; start_time := start_time s;
     last_volume_time := last_volume_time s |}.
Definition set_touching (s : state) (v : bool) : state :=
  {| touching := v; start_x := start_x s; start_y := start_y s;
     last_x := last_x s; last_y := last_y s; start_time := start_time s;
     last_volume_time := last_volume_time s |}.
Definition finger_down (s : state) (t : Q) : state :=
  {| touching := true; start_x := last_x s; start_y := last_y s;
     last_x := last_x s; last_y := last_y s; start_time := Some t;
     last_volume_time := last_volume_time s |}.
Definition set_last_volume_time (s : state) (v : Q) : state :=
  {| touching := touching s; start_x := start_x s; start_y := start_y s;
     last_x := last_x s; last_y := last_y s; start_time := start_time s;
     last_volume_time := v |}.

Inductive control := Continue | Break.

Definition result : Type := state * list output * control.

(** [f"{n:+d}"]. *)
Definition plus_d (n : Z) : string :=
  if n <? 0 then str n else ("+" ++ str n)%string.

(** Lines 129-157: the vertical drag.  [current_time] is the clock read
    on line 131, [sent] what [mpv_send] returns if it is called. *)
Definition volume (s : state) (dy : Z) (current_time : Q) (sent : bool)
    : result :=
  if Qltb (current_time - last_volume_time s) (1 # 10) then (s, [], Continue)
  else
    let min_swipe := 20 in
    if Z.abs dy <? min_swipe then (s, [], Continue)
    else
      let volume_step := 5 in
      let send vol_change :=
        let out := mpv_send [JStr "add"; JStr "volume"; JInt vol_change]
                     sent in
        if sent
        then (set_last_volume_time s current_time,
              out ++ [Print ("Volume: " ++ plus_d vol_change ++ "%")%string],
              Continue)
        else (s, out ++ [Print "Failed to send volume command"%string],
              Continue) in
      if dy <? - min_swipe then send volume_step
      else if dy >? min_swipe then send (- volume_step)
      else (s, [], Continue).

(** Lines 114-157, with the positions known to be set.  [width] is the
    display width found by [get_display_size]. *)
Definition detect (width : Z) (s : state) (dx dy : Z) (duration : Q)
    (current_time : Q) (sent : bool) : outcome result :=
  if (Z.abs dx <? 30) && (Z.abs dy <? 30) && Qltb duration (3 # 10) then
    Return (s, mpv_send [JStr "cycle"; JStr "pause"] sent, Continue)
  else if Qgtb duration 1 && (Z.abs dx <? 20) && (Z.abs dy <? 20) then
    Return (s, mpv_send [JStr "quit"] sent, Break)
  else if Z.abs dx >? Z.abs dy then
    bind (truediv dx width) (fun q =>
      let seek := int (q * 120) in
      if negb (seek =? 0)
      then Return (s, mpv_send [JStr "seek"; JInt seek; JStr "relative"]
                        sent, Continue)
      else Return (s, [], Continue))
  else Return (volume s dy current_time sent).

(** One iteration of the loop body of [main].  [t1] is the first clock
    read of the iteration (line 102 or 107), [t2] the second (line 131);
    [sent] is the value [mpv_send] returns. *)
Definition step (width : Z) (s : state) (e : input_event) (t1 t2 : Q)
    (sent : bool) : outcome result :=
  if ev_type e =? EV_ABS then
    if (ev_code e =? ABS_MT_POSITION_X) || (ev_code e =? ABS_X) then
      Return (set_last_x s (Some (ev_value e)), [], Continue)
    else if (ev_code e =? ABS_MT_POSITION_Y) || (ev_code e =? ABS_Y) then
      Return (set_last_y s (Some (ev_value e)), [], Continue)
    else Return (s, [], Continue)
  else if (ev_type e =? EV_KEY) && (ev_code e =? BTN_TOUCH) then
    if ev_value e =? 1 then Return (finger_down s t1, [], Continue)
    else if (ev_value e =? 0) && touching s then
      let s := set_touching s false in
      match start_time s with
      | None => Raise TypeError
      | Some st =>
          let duration := (t1 - st)%Q in
          match start_x s, last_x s with
          | Some sx, Some lx =>
              match last_y s, start_y s with
              | Some ly, Some sy =>
                  detect width s (lx - sx) (ly - sy) duration t2 sent
              | _, _ => Raise TypeError
              end
          | _, _ => Return (s, [], Continue)
          end
      end
    else Return (s, [], Continue)
  else Return (s, [], Continue).

(** The commands the loop can hand to [mpv_send]. *)
Definition known_command (cmd : list json) : Prop :=
  cmd = [JStr "cycle"; JStr "pause"]
  \/ cmd = [JStr "quit"]
  \/ (exists seek, seek <> 0 /\ cmd = [JStr "seek"; JInt seek; JStr "relative"])
  \/ cmd = [JStr "add"; JStr "volume"; JInt 5]
  \/ cmd = [JStr "add"; JStr "volume"; JInt (-5)].

(** The state at the end of a drag from (100, 100) to [(lx, ly)] that
    started at time 1000, the volume last changed at time [t]. *)
Definition dragging (lx ly : Z) (t : Q) : state :=
  {| touching := true; start_x := Some 100; start_y := Some 100;
     last_x := Some lx; last_y := Some ly; start_time := Some 1000%Q;
     last_volume_time := t |}.

End MpvWrapper.

(** ** More of the canvas *)

Module CanvasMore.
Import Py ASCIICanvas.

(** [clear()]. *)
Definition clear (c : canvas) : outcome drawing :=
  bind (for_each (range 0 (height c)) (fun y =>
          for_each (range 0 (width c)) (fun x => store y x " "%string))
          (c, []))
    mark_dirty.

(** The cell at row [row], column [col] of a grid (both non-negative). *)
Definition cell_at (b : list (list cell)) (row col : Z) : option cell :=
  match b !! Z.to_nat row with
  | Some line => line !! Z.to_nat col
  | None => None
  end.

End CanvasMore.

(** ** More of the widgets *)

Module WidgetsMore.
Import Py Widgets.

(** A run of gestures handed to one button, as [(event_type, x, y)]: the
    button afterwards and the callbacks called, in order. *)
Fixpoint Button_touches (b : Button) (events : list (string * Z * Z))
    : Button * list (callback * arg) :=
  match events with
  | [] => (b, [])
  | (event_type, tx, ty) :: rest =>
      let '(b', calls, _) := Button_handle_touch b event_type tx ty in
      let '(b'', calls') := Button_touches b' rest in
      (b'', calls ++ calls')
  end.

(** A widget whose [handle_touch] cannot divide by zero: a scrollbar of
    non-zero height, a slider whose width is not 3, any button. *)
Definition sound (w : widget) : Prop :=
  match w with
  | AScrollBar s => height (s_base s) <> 0
  | ASlider s => width (sl_base s) - 3 <> 0
  | _ => True
  end.


(** The number of press gestures in a run. *)
Definition presses (events : list (string * Z * Z)) : nat :=
  length (List.filter (fun e => is_press (fst (fst e))) events).

(** [SettingsScreen.update_brightness]: the value computed from the
    slider value, [int(value * 255 / 100)], whose decimal form is written
    to the backlight file (errors of the write are swallowed). *)
Definition brightness (value : Z) : Z :=
  int (inject_Z (value * 255) / inject_Z 100).
Definition update_brightness (value : Z) : string := str (brightness value).

(** The slider of [SettingsScreen.__init__] for a terminal [term_width]
    columns wide. *)
Definition brightness_slider (term_width : Z) : Slider :=
  let slider_width := Z.min 40 (term_width - 30) in
  let slider_x := (term_width - slider_width) / 2 in
  Slider_init slider_x 8 slider_width 0 100 50 (Some "update_brightness"%string).

End WidgetsMore.

(** ** Application: the screen registry and the active screen *)

Module Application.

(** What the application calls on its screens. *)
Inductive call :=
| Exit (name : string)
| Enter (name : string)
| HandleTouch (name : string) (event_type : string) (x y : Z).

(** How a method ends: normally, or with the [KeyError] of a lookup in
    [self.screens]. *)
Inductive result :=
| Done
| KeyError (key : string).

Record app := {
  screens : list string;
  current_screen : option string;
  screen_dirty : bool
}.

(** After [__init__]: the eight screens, none current. *)
Definition init : app :=
  {| screens := ["main"; "settings"; "apps"; "video_player"; "airplay";
                 "camera"; "monitor"; "testing"]%string;
     current_screen := None;
     screen_dirty := true |}.

Definition set_current_screen (a : app) (name : option string) : app :=
  {| screens := screens a; current_screen := name;
     screen_dirty := screen_dirty a |}.
Definition set_screen_dirty (a : app) (d : bool) : app :=
  {| screens := screens a; current_screen := current_screen a;
     screen_dirty := d |}.

(** [key in self.screens]. *)
Definition known (a : app) (key : string) : bool :=
  existsb (String.eqb key) (screens a).

(** [if self.current_screen:]: [None] and the empty string are false. *)
Definition truthy (name : option string) : option string :=
  match name with
  | Some EmptyString => None
  | Some s => Some s
  | None => None
  end.

(** [switch_screen(screen_name)]. *)
Definition switch_screen (a : app) (screen_name : string)
    : app * list call * result :=
  let leave :=
    match truthy (current_screen a) with
    | Some cur => if known a cur then ([Exit cur], Done)
                  else ([], KeyError cur)
    | None => ([], Done)
    end in
  match leave with
  | (calls, KeyError k) => (a, calls, KeyError k)
  | (calls, Done) =>
      let a := set_current_screen a (Some screen_name) in
      if known a screen_name
      then (set_screen_dirty a true, calls ++ [Enter screen_name], Done)
      else (a, calls, KeyError screen_name)
  end.

(** [_handle_touch(event_type, x, y)]. *)
Definition _handle_touch (a : app) (event_type : string) (x y : Z)
    : app * list call * result :=
  match truthy (current_screen a) with
  | Some cur =>
      if known a cur
      then (set_screen_dirty a true, [HandleTouch cur event_type x y], Done)
      else (a, [], KeyError cur)
  | None => (a, [], Done)
  end.

(** What reaches the application, in order. *)
Inductive request :=
| Switch (screen_name : string)
| Touch (event_type : string) (x y : Z).

Definition serve (a : app) (r : request) : app * list call * result :=
  match r with
  | Switch name => switch_screen a name
  | Touch e x y => _handle_touch a e x y
  end.





End Application.

(** ** TestingScreen *)

Module TestingScreen.
Import Py Widgets.

Record screen := {
  widgets : list widget;
  last_touch : option (string * Z * Z);
  touch_history : list string
}.

(** [deque(maxlen=5)]. *)
Definition maxlen : nat := 5.

(** [d.append(x)] on a bounded deque: when it is full the oldest entry is
    dropped. *)
Definition deque_append (d : list string) (x : string) : list string :=
  if (length d <? maxlen)%nat then d ++ [x] else drop 1 d ++ [x].

(** [f"{event_type}: ({x}, {y})"]. *)
Definition describe (event_type : string) (x y : Z) : string :=
  (event_type ++ ": (" ++ str x ++ ", " ++ str y ++ ")")%string.

(** [__init__] for a terminal of the given size: the return button, no
    touch yet. *)
Definition init (term_width term_height : Z) : screen :=
  {| widgets :=
       [AButton (Button_init ((term_width - 15) / 2) (term_height - 3)
                   ["←"; " "; "M"; "a"; "i"; "n"; " "; "M"; "e"; "n"; "u"]%string
                   (Some "return_to_main"%string) "round")];
     last_touch := None;
     touch_history := [] |}.

(** [handle_touch(event_type, x, y)]. *)
Definition handle_touch (s : screen) (term : term_size)
    (event_type : string) (x y : Z)
    : screen * list action * outcome bool :=
  let history := deque_append (touch_history s) (describe event_type x y) in
  let '(widgets', actions, r) :=
    Screen_handle_touch (widgets s) term event_type x y in
  ({| widgets := widgets'; last_touch := Some (event_type, x, y);
      touch_history := history |}, actions, r).

(** A run of gestures; it stops at the first one that raises. *)
Fixpoint handle_touches (s : screen) (term : term_size)
    (events : list (string * Z * Z)) : screen :=
  match events with
  | [] => s
  | (event_type, x, y) :: rest =>
      let '(s', _, r) := handle_touch s term event_type x y in
      match r with
      | Return _ => handle_touches s' term rest
      | Raise _ => s'
      end
  end.

End TestingScreen.

(** ** VideoPlayerScreen *)

Module VideoPlayerScreen.
Import Py Widgets.

(** A file found by [glob]: its path and the characters of
    [os.path.basename(path)] (the file system and [os.path] are outside
    the model). *)
Record video := {
  path : string;
  basename : list string
}.

(** Python's [l[a:b]] with step 1: negative indices count from the end,
    and both are clamped to the list. *)
Definition clamp_index (n i : Z) : Z :=
  if i <? 0 then Z.max 0 (n + i) else Z.min i n.

Definition slice {A : Type} (l : list A) (a b : Z) : list A :=
  let n := Z.of_nat (length l) in
  let a' := clamp_index n a in
  let b' := clamp_index n b in
  take (Z.to_nat (b' - a')) (drop (Z.to_nat a') l).

(** [VideoButton.__init__]: a name longer than [width - 4] is cut
    ([filename[:width-4]]). *)
Definition VideoButton_init (x y width : Z) (filename : list string)
    (filepath : string) (cb : option callback) : VideoButton :=
  {| v_base := Widget_init x y width 3;
     v_filename :=
       if Z.of_nat (length filename) >? width - 4
       then slice filename 0 (width - 4) else filename;
     v_filepath := filepath;
     v_callback := cb;
     v_pressed := false |}.

(** [self.scrollbar.total_items = n]. *)
Definition set_total_items (b : ScrollBar) (n : Z) : ScrollBar :=
  {| s_base := s_base b; total_items := n;
     visible_items := visible_items b;
     scroll_position := scroll_position b;
     s_callback := s_callback b; s_dragging := s_dragging b |}.

(** [self.scrollbar] and one entry of [self.widgets] are the same object:
    [scrollbar] is the position of that object in [widgets].  The terminal
    size is the one [__init__] read; [app.screen_dirty] is an effect. *)
Record screen := {
  video_files : list video;
  scroll_position : Z;
  visible_items : Z;
  term_width : Z;
  term_height : Z;
  list_width : Z;
  list_x : Z;
  list_y : Z;
  widgets : list widget;
  scrollbar : nat
}.

Definition set_video_files (s : screen) (v : list video) : screen :=
  {| video_files := v; scroll_position := scroll_position s;
     visible_items := visible_items s; term_width := term_width s;
     term_height := term_height s; list_width := list_width s;
     list_x := list_x s; list_y := list_y s; widgets := widgets s;
     scrollbar := scrollbar s |}.
Definition set_scroll_position (s : screen) (p : Z) : screen :=
  {| video_files := video_files s; scroll_position := p;
     visible_items := visible_items s; term_width := term_width s;
     term_height := term_height s; list_width := list_width s;
     list_x := list_x s; list_y := list_y s; widgets := widgets s;
     scrollbar := scrollbar s |}.
Definition set_widgets (s : screen) (w : list widget) (i : nat) : screen :=
  {| video_files := video_files s; scroll_position := scroll_position s;
     visible_items := visible_items s; term_width := term_width s;
     term_height := term_height s; list_width := list_width s;
     list_x := list_x s; list_y := list_y s; widgets := w;
     scrollbar := i |}.

(** What the callbacks of this screen do outside of it. *)
Inductive effect :=
| ScreenDirty
| PlayVideo (video_path : string)
| SwitchScreen (screen_name : string).

(** The object [self.scrollbar]. *)
Definition the_scrollbar (s : screen) : option ScrollBar :=
  match widgets s !! scrollbar s with
  | Some (AScrollBar b) => Some b
  | _ => None
  end.

(** A method call or attribute assignment on [self.scrollbar]: the entry
    of [self.widgets] changes with it. *)
Definition on_scrollbar (f : ScrollBar -> ScrollBar) (s : screen) : screen :=
  match the_scrollbar s with
  | Some b => set_widgets s (<[scrollbar s := AScrollBar (f b)]> (widgets s))
                (scrollbar s)
  | None => s
  end.

Definition is_video_button (w : widget) : bool :=
  match w with
  | AVideoButton _ => true
  | _ => false
  end.

Definition other_widget (w : widget) : bool := negb (is_video_button w).

(** [self.widgets = [w for w in self.widgets if not isinstance(w,
    VideoButton)]]: a new list of the same objects. *)
Definition drop_video_buttons (s : screen) : screen :=
  set_widgets s (List.filter other_widget (widgets s))
    (length (List.filter other_widget (take (scrollbar s) (widgets s)))).

(** The label of the return button. *)
Definition apps_menu : list string :=
  ["←"; " "; "A"; "p"; "p"; "s"; " "; "M"; "e"; "n"; "u"]%string.

(** [setup_widgets]. *)
Definition setup_widgets (s : screen) : screen :=
  let return_btn :=
    Button_init ((term_width s - 15) / 2) (term_height s - 3) apps_menu
      (Some "return_to_apps"%string) "round" in
  let bar :=
    ScrollBar_init (list_x s + list_width s + 2) (list_y s)
      (Z.min (visible_items s * 3) (term_height s - 10))
      0 (visible_items s) (Some "on_scroll"%string) in
  set_widgets s [AButton return_btn; AScrollBar bar] 1.

(** [update_video_list]. *)
Definition update_video_list (s : screen) : screen :=
  let s := drop_video_buttons s in
  match video_files s with
  | [] => s
  | _ :: _ =>
      let start_idx := scroll_position s in
      let end_idx :=
        Z.min (start_idx + visible_items s)
          (Z.of_nat (length (video_files s))) in
      let buttons :=
        imap (fun i v =>
                AVideoButton
                  (VideoButton_init (list_x s) (list_y s + Z.of_nat i * 3)
                     (list_width s) (basename v) (path v)
                     (Some "play_video"%string)))
          (slice (video_files s) start_idx end_idx) in
      set_widgets s (widgets s ++ buttons) (scrollbar s)
  end.

(** [load_videos]; [files] is the sorted list of the files found. *)
Definition load_videos (files : list video) (s : screen) : screen :=
  let s := drop_video_buttons s in
  let s := set_video_files s files in
  let s :=
    on_scrollbar (fun b => set_total_items b (Z.of_nat (length files))) s in
  let s := on_scrollbar (fun b => set_position b 0) s in
  let s := set_scroll_position s 0 in
  update_video_list s.

(** [__init__] for a terminal of the given size. *)
Definition init (term_width term_height : Z) (files : list video)
    : screen :=
  let list_width := Z.min 60 (term_width - 10) in
  load_videos files
    (setup_widgets
       {| video_files := []; scroll_position := 0; visible_items := 10;
          term_width := term_width; term_height := term_height;
          list_width := list_width;
          list_x := (term_width - list_width) / 2; list_y := 5;
          widgets := []; scrollbar := 0 |}).

(** [on_scroll(position)]. *)
Definition on_scroll (position : Z) (s : screen) : screen * list effect :=
  let s := set_scroll_position s position in
  let s := update_video_list s in
  (s, [ScreenDirty]).

(** [play_video(video_path)]: the launch of the player (or the error
    message when the wrapper script is missing); every path through it
    ends with [app.screen_dirty = True]. *)
Definition play_video (video_path : string) (s : screen)
    : screen * list effect :=
  (s, [PlayVideo video_path; ScreenDirty]).

(** [return_to_apps()]. *)
Definition return_to_apps (s : screen) : screen * list effect :=
  (s, [SwitchScreen "apps"]).

(** A callback of one of this screen's widgets, by the bound method
    it names. *)
Definition run_callback (f : callback) (a : arg) (s : screen)
    : screen * list effect :=
  match a with
  | IntArg position =>
      if String.eqb f "on_scroll" then on_scroll position s else (s, [])
  | StrArg video_path =>
      if String.eqb f "play_video" then play_video video_path s
      else (s, [])
  | NoArg =>
      if String.eqb f "return_to_apps" then return_to_apps s else (s, [])
  end.

(** The callbacks among the actions of [Screen.handle_touch], run in
    order.  Each one is called by a widget's [handle_touch] right before
    it returns [True], which ends the loop over the widgets. *)
Fixpoint run_callbacks (actions : list action) (s : screen)
    : screen * list effect :=
  match actions with
  | [] => (s, [])
  | Callback f a :: rest =>
      let '(s, effects) := run_callback f a s in
      let '(s, effects') := run_callbacks rest s in
      (s, effects ++ effects')
  | _ :: rest => run_callbacks rest s
  end.

(** [handle_touch(event_type, x, y)]; [term] is the terminal size the
    widgets read. *)
Definition handle_touch (s : screen) (term : term_size)
    (event_type : string) (x y : Z)
    : screen * list effect * outcome bool :=
  let n := Z.of_nat (length (video_files s)) in
  if String.eqb event_type "swipe_up" && (scroll_position s >? 0) then
    let s := set_scroll_position s (Z.max 0 (scroll_position s - 1)) in
    let s := on_scrollbar (fun b => set_position b (scroll_position s)) s in
    let s := update_video_list s in
    (s, [ScreenDirty], Return true)
  else if String.eqb event_type "swipe_down"
          && (scroll_position s <? n - visible_items s) then
    let s :=
      set_scroll_position s
        (Z.min (n - visible_items s) (scroll_position s + 1)) in
    let s := on_scrollbar (fun b => set_position b (scroll_position s)) s in
    let s := update_video_list s in
    (s, [ScreenDirty], Return true)
  else
    let '(widgets', actions, r) :=
      Screen_handle_touch (widgets s) term event_type x y in
    let '(s, effects) :=
      run_callbacks actions (set_widgets s widgets' (scrollbar s)) in
    (s, effects, r).

(** One gesture as the screen receives it, with the terminal size at that
    time. *)
Record touch := {
  term : term_size;
  event_type : string;
  tx : Z;
  ty : Z
}.

(** A run of gestures: the screen afterwards and the effects, or the
    first exception. *)
Fixpoint handle_touches (s : screen) (touches : list touch)
    : outcome (screen * list effect) :=
  match touches with
  | [] => Return (s, [])
  | t :: rest =>
      let '(s, effects, r) :=
        handle_touch s (term t) (event_type t) (tx t) (ty t) in
      bind r (fun _ =>
        bind (handle_touches s rest) (fun '(s, effects') =>
          Return (s, effects ++ effects')))
  end.









End VideoPlayerScreen.

(** ** Drawing the widgets *)

Module Draw.
Import Py ASCIICanvas CanvasMore Widgets.

(** The characters of a text: a byte [10xxxxxx] continues the character
    before it (UTF-8), so that [len] counts characters as Python does. *)
Definition is_continuation (a : ascii) : bool :=
  let n := N_of_ascii a in ((128 <=? n) && (n <? 192))%N.

Definition continued (s : string) : bool :=
  match s with
  | String b _ => is_continuation b
  | EmptyString => false
  end.

Fixpoint chars (s : string) : list cell :=
  match s with
  | EmptyString => []
  | String a rest =>
      match continued rest, chars rest with
      | true, c :: cs => String a c :: cs
      | _, cs => String a EmptyString :: cs
      end
  end.

(** [s.split('\n')]. *)
Fixpoint split_lines (s : string) : list string :=
  match s with
  | EmptyString => [EmptyString]
  | String a rest =>
      if Ascii.eqb a (ascii_of_nat 10) then EmptyString :: split_lines rest
      else match split_lines rest with
           | line :: lines => String a line :: lines
           | [] => [String a EmptyString]
           end
  end.

(** [ch * n] for a one-character string. *)
Definition times (ch : cell) (n : Z) : list cell := repeat ch (Z.to_nat n).

(** [len(text)]. *)
Definition len (text : list cell) : Z := Z.of_nat (length text).

(** [canvas.draw_text(x, y, text)]. *)
Definition text (x y : Z) (t : list cell) : drawing -> outcome drawing :=
  draw_text_from x y t true.

(** [Button.draw]. *)
Definition Button_draw (b : Button) (d : drawing) : outcome drawing :=
  let w := b_base b in
  if negb (visible w) then Return d
  else
    let box_style := if b_pressed b then "double"%string else b_style b in
    bind (draw_box_from (x w) (y w) (Widgets.width w) (Widgets.height w)
            box_style (b_pressed b) d) (fun d =>
    let text_x := x w + (Widgets.width w - len (b_text b)) / 2 in
    text text_x (y w + 1) (b_text b) d).

(** [VideoButton.draw]. *)
Definition VideoButton_draw (v : VideoButton) (d : drawing)
    : outcome drawing :=
  let w := v_base v in
  if negb (visible w) then Return d
  else
    let style := if v_pressed v then "double"%string else "single"%string in
    bind (draw_box_from (x w) (y w) (Widgets.width w) (Widgets.height w)
            style (v_pressed v) d) (fun d =>
    let icon := ["▶"; " "]%string in
    let max_text_len := Widgets.width w - 4 - len icon in
    let display_text :=
      icon ++ VideoPlayerScreen.slice (v_filename v) 0 max_text_len in
    let text_x := x w + 2 in
    text text_x (y w + 1) display_text d).

(** [ScrollBar.draw]. *)
Definition ScrollBar_draw (s : ScrollBar) (d : drawing) : outcome drawing :=
  let w := s_base s in
  if negb (visible w) || (total_items s <=? visible_items s) then Return d
  else
    bind (for_each (range 0 (Widgets.height w)) (fun i =>
            text (x w) (y w + i) ["│"%string]) d) (fun d =>
    bind (truediv (Widgets.height w * visible_items s) (total_items s))
      (fun q =>
    let thumb_height := Z.max 1 (int q) in
    let max_scroll := total_items s - visible_items s in
    bind (if max_scroll >? 0
          then bind (truediv ((Widgets.height w - thumb_height)
                              * scroll_position s) max_scroll)
                 (fun q => Return (int q))
          else Return 0) (fun thumb_pos =>
    for_each (range 0 thumb_height) (fun i =>
      when ((0 <=? y w + thumb_pos + i)
            && (y w + thumb_pos + i <? y w + Widgets.height w))
        (text (x w) (y w + thumb_pos + i) ["█"%string])) d))).

(** The loop [for i, line in enumerate(icon_lines)] of
    [MainMenuButton.draw] from line number [i] on. *)
Fixpoint draw_lines (w : Widget) (i : Z) (lines : list (list cell))
    (d : drawing) : outcome drawing :=
  match lines with
  | [] => Return d
  | line :: rest =>
      let x_pos := x w + (Widgets.width w - len line) / 2 in
      bind (text x_pos (y w + 1 + i) line d) (draw_lines w (i + 1) rest)
  end.

(** [MainMenuButton.draw]. *)
Definition MainMenuButton_draw (m : MainMenuButton) (d : drawing)
    : outcome drawing :=
  let w := m_base m in
  if negb (visible w) then Return d
  else
    let style := if m_pressed m then "double"%string else "round"%string in
    bind (draw_box_from (x w) (y w) (Widgets.width w) (Widgets.height w)
            style (m_pressed m) d) (fun d =>
    let icon_lines := map chars (split_lines (m_icon m)) in
    bind (draw_lines w 0 icon_lines d) (fun d =>
    let text_x := x w + (Widgets.width w - len (m_text m)) / 2 in
    text text_x (y w + Widgets.height w - 2) (m_text m) d)).

(** [Slider.draw]. *)
Definition Slider_draw (s : Slider) (d : drawing) : outcome drawing :=
  let w := sl_base s in
  if negb (visible w) then Return d
  else
    bind (text (x w) (y w + 1)
            (["├"%string] ++ times "─"%string (Widgets.width w - 2)
             ++ ["┤"%string]) d) (fun d =>
    bind (truediv (value s - min_val s) (max_val s - min_val s))
      (fun normalized =>
    let handle_x :=
      x w + 1 + int (inject_Z (Widgets.width w - 3) * normalized) in
    bind (text handle_x (y w + 1) ["●"%string] d) (fun d =>
    let value_text := chars (str (value s)) ++ ["%"%string] in
    text (x w + (Widgets.width w - len value_text) / 2) (y w)
      value_text d))).

(** [widget.draw(canvas)] by class; the base class draws nothing. *)
Definition draw (w : widget) (d : drawing) : outcome drawing :=
  match w with
  | AWidget _ => Return d
  | AButton b => Button_draw b d
  | AVideoButton v => VideoButton_draw v d
  | AMainMenuButton m => MainMenuButton_draw m d
  | AScrollBar s => ScrollBar_draw s d
  | ASlider s => Slider_draw s d
  end.




End Draw.

(** * Properties *)

(** Closed comparisons of numbers, by computation. *)
Ltac by_computation := vm_compute; first [reflexivity | discriminate].

(** ** Facts about the Python arithmetic *)

Module PyFacts.
Import Py.

Lemma Qltb_lt (a b : Q) : Qltb a b = true <-> (a < b)%Q.
Proof.
  unfold Qltb. rewrite negb_true_iff, <- not_true_iff_false, Qle_bool_iff.
  split; [apply Qnot_le_lt | apply Qlt_not_le].
Qed.

Lemma Qltb_ge (a b : Q) : Qltb a b = false <-> (b <= a)%Q.
Proof.
  unfold Qltb. rewrite negb_false_iff. apply Qle_bool_iff.
Qed.

Lemma Qltb_cases (a b : Q) :
  (Qltb a b = true /\ (a < b)%Q) \/ (Qltb a b = false /\ (b <= a)%Q).
Proof.
  destruct (Qltb a b) eqn:E; [left | right]; split; trivial.
  - now apply Qltb_lt.
  - now apply Qltb_ge.
Qed.

(** [int] keeps a number inside integer bounds. *)
Lemma int_between (q : Q) (lo hi : Z) :
  (inject_Z lo <= q)%Q -> (q <= inject_Z hi)%Q -> lo <= int q <= hi.
Proof.
  intros Hlo Hhi. unfold int. destruct (Qle_bool 0 q).
  - split.
    + rewrite <- (Qfloor_Z lo). now apply Qfloor_resp_le.
    + rewrite <- (Qfloor_Z hi). now apply Qfloor_resp_le.
  - split.
    + rewrite <- (Qceiling_Z lo). now apply Qceiling_resp_le.
    + rewrite <- (Qceiling_Z hi). now apply Qceiling_resp_le.
Qed.

(** [max(0, min(1, q))] lies between 0 and 1. *)
Lemma clamp_unit (q : Q) :
  (0 <= Qmax 0 (Qmin 1 q))%Q /\ (Qmax 0 (Qmin 1 q) <= 1)%Q.
Proof.
  unfold Qmax, Qmin.
  destruct (Qltb_cases q 1) as [[-> H1] | [-> H1]];
    destruct (Qltb_cases 0 q) as [[E0 H0] | [E0 H0]];
    rewrite ?E0; try (destruct (Qltb_cases 0 1) as [[-> _] | [-> _]]);
    split; auto using Qlt_le_weak, Qle_refl; try easy.
Qed.

Lemma in_range (lo hi i : Z) : In i (range lo hi) -> lo <= i < hi.
Proof.
  unfold range. rewrite in_map_iff. intros (k & <- & Hk).
  apply in_seq in Hk. lia.
Qed.

End PyFacts.

(** ** The gesture classifier *)

Module TouchHandlerFacts.
Import Py PyFacts TouchHandler.

Lemma moved_far_iff (dx dy : Z) :
  moved_far dx dy = true <-> 80 < Z.abs dx \/ 48 < Z.abs dy.
Proof.
  unfold moved_far, Qgtb. rewrite orb_true_iff, !Qltb_lt.
  unfold Qlt, max_x, max_y; simpl. lia.
Qed.

Lemma moved_far_false (dx dy : Z) :
  Z.abs dx <= 80 -> Z.abs dy <= 48 -> moved_far dx dy = false.
Proof.
  intros Hx Hy. apply not_true_iff_false. rewrite moved_far_iff. lia.
Qed.

Lemma swipe_gesture_name (dx dy : Z) : In (swipe_gesture dx dy) gesture_names.
Proof.
  unfold swipe_gesture, gesture_names.
  destruct (Z.abs dx >? Z.abs dy); [destruct (dx >? 0) | destruct (dy >? 0)];
    simpl; tauto.
Qed.

Lemma classify_names (s : state) (px py sx sy : Z) (st t1 t2 : Q)
    (g : string) (qx qy : Z) :
  In (g, qx, qy) (snd (classify s px py sx sy st t1 t2)) ->
  In g gesture_names.
Proof.
  unfold classify.
  destruct (Qltb (t1 - st) (2 # 10)).
  - destruct (Qltb (t2 - last_tap_time s) (5 # 10));
      [destruct (tap_count (set_tap_count s (tap_count s + 1)) >=? 2) |];
      destruct (moved_far (px - sx) (py - sy)); simpl;
      intros H; repeat (destruct H as [H | H]; [injection H as <- _ _ |]);
      try contradiction;
      try apply swipe_gesture_name; unfold gesture_names; simpl; tauto.
  - simpl. intros [H | []]. injection H as <- _ _.
    unfold gesture_names; simpl; tauto.
Qed.

(** Every gesture the classifier emits carries one of the eight names. *)
Lemma handle_event_names (s : state) (e : input_event) (t1 t2 : Q)
    (g : string) (px py : Z) :
  In (g, px, py) (snd (handle_event s e t1 t2)) -> In g gesture_names.
Proof.
  unfold handle_event.
  cbn [x y touching touch_callback swipe_start set_touching set_swipe_start].
  destruct (touch_callback s), (touching s),
    (x s) as [qx |], (y s) as [qy |];
    repeat match goal with
           | |- context [if ?b then _ else _] => destruct b
           end;
    cbn [snd In]; try contradiction;
    try (intros [H | []]; injection H as <- _ _;
         unfold gesture_names; simpl; tauto);
    (destruct (swipe_start s) as [[[sx sy] st] |]; cbn [snd In];
     [| contradiction]);
    (destruct (classify _ _ _ _ _ _ _ _) as [s' out] eqn:E; cbn [snd];
     intros H;
     apply (classify_names (set_touching s false) qx qy sx sy st t1 t2 g px py);
     now rewrite E).
Qed.

(** The outcome of [classify], case by case. *)
Lemma classify_slow (s : state) (px py sx sy : Z) (st t1 t2 : Q) :
  (2 # 10 <= t1 - st)%Q ->
  classify s px py sx sy st t1 t2 = (s, [("release"%string, px, py)]).
Proof.
  intros H. unfold classify. apply Qltb_ge in H. now rewrite H.
Qed.

Lemma classify_quick (s : state) (px py sx sy : Z) (st t1 t2 : Q) :
  (t1 - st < 2 # 10)%Q ->
  exists pre s',
    classify s px py sx sy st t1 t2 =
      (set_last_tap_time s' t2,
       pre ++ [(if moved_far (px - sx) (py - sy)
                then swipe_gesture (px - sx) (py - sy)
                else "tap"%string, px, py)])
    /\ ((t2 - last_tap_time s < 5 # 10)%Q -> 1 <= tap_count s ->
        pre = [("double_tap"%string, px, py)] /\ tap_count s' = 0)
    /\ ((t2 - last_tap_time s < 5 # 10)%Q -> tap_count s < 1 ->
        pre = [] /\ tap_count s' = tap_count s + 1)
    /\ ((5 # 10 <= t2 - last_tap_time s)%Q ->
        pre = [] /\ tap_count s' = 1)
    /\ (pre = [] \/ pre = [("double_tap"%string, px, py)]).
Proof.
  intros H. unfold classify. apply Qltb_lt in H. rewrite H.
  destruct (Qltb_cases (t2 - last_tap_time s) (5 # 10)) as [[E Hw] | [E Hw]];
    rewrite E.
  - destruct (tap_count (set_tap_count s (tap_count s + 1)) >=? 2) eqn:E2;
      cbn [tap_count set_tap_count] in E2; rewrite Z.geb_leb in E2.
    + apply Z.leb_le in E2.
      exists [("double_tap"%string, px, py)],
        (set_tap_count (set_tap_count s (tap_count s + 1)) 0).
      split; [now destruct (moved_far _ _) |].
      split; [intros _ _; split; reflexivity |].
      split; [intros _ Hc; exfalso; lia |].
      split; [intros Hq; exfalso; exact (Qlt_not_le _ _ Hw Hq) |].
      now right.
    + apply Z.leb_gt in E2.
      exists [], (set_tap_count s (tap_count s + 1)).
      split; [now destruct (moved_far _ _) |].
      split; [intros _ Hc; exfalso; lia |].
      split; [intros _ _; split; reflexivity |].
      split; [intros Hq; exfalso; exact (Qlt_not_le _ _ Hw Hq) |].
      now left.
  - exists [], (set_tap_count s 1).
    split; [now destruct (moved_far _ _) |].
    split; [intros Hq; exfalso; exact (Qlt_not_le _ _ Hq Hw) |].
    split; [intros Hq; exfalso; exact (Qlt_not_le _ _ Hq Hw) |].
    split; [intros _; split; reflexivity |].
    now left.
Qed.

(** A tracking-id release runs the classification branch. *)
Lemma tracking_release (s : state) (v : Z) (t1 t2 : Q) :
  v < 0 ->
  handle_event s (tracking v) t1 t2 =
    match touch_callback s, x s, y s with
    | true, Some px, Some py =>
        let '(s', out) :=
          match swipe_start s with
          | Some (sx, sy, st) =>
              classify (set_touching s false) px py sx sy st t1 t2
          | None => (set_touching s false, [])
          end in
        (set_swipe_start s' None, out)
    | _, _, _ => (set_touching s false, [])
    end.
Proof.
  intros Hv. unfold handle_event, tracking.
  cbn [ev_type ev_code ev_value].
  change (EV_ABS =? EV_ABS) with true.
  change ((ABS_MT_TRACKING_ID =? ABS_MT_POSITION_X)
          || (ABS_MT_TRACKING_ID =? ABS_X)) with false.
  change ((ABS_MT_TRACKING_ID =? ABS_MT_POSITION_Y)
          || (ABS_MT_TRACKING_ID =? ABS_Y)) with false.
  change (ABS_MT_TRACKING_ID =? ABS_MT_TRACKING_ID) with true.
  cbv iota.
  assert (E : (v >=? 0) = false) by (rewrite Z.geb_leb; apply Z.leb_gt; lia).
  rewrite E. reflexivity.
Qed.

(** A [BTN_TOUCH] release reports [release] at the recorded position. *)
Lemma button_release (s : state) (t1 t2 : Q) :
  handle_event s (btn_touch 0) t1 t2 =
    match touch_callback s, x s, y s with
    | true, Some px, Some py =>
        (set_touching s false, [("release"%string, px, py)])
    | _, _, _ => (set_touching s false, [])
    end.
Proof. reflexivity. Qed.

(** C1 (amended).  At a contact-up reported through the tracking id, with
    a callback installed: when a position and the contact start are
    recorded, the classifier emits exactly one gesture among swipe, tap and
    release, which a [double_tap] may precede; the gesture is a swipe or a
    tap when the contact lasted less than 0.2 s (a swipe when it moved by
    more than 80 horizontally or 48 vertically) and [release] otherwise;
    there is no long-press.  A contact-up reported through [BTN_TOUCH]
    emits exactly [release].  When no position was ever recorded, nothing
    is emitted. *)
Theorem contact_up_emits (s : state) (v : Z) (t1 t2 : Q) :
  v < 0 -> touch_callback s = true ->
  match x s, y s with
  | Some px, Some py =>
      match swipe_start s with
      | Some (sx, sy, st) =>
          exists pre g,
            snd (handle_event s (tracking v) t1 t2) = pre ++ [(g, px, py)]
            /\ (pre = [] \/ pre = [("double_tap"%string, px, py)])
            /\ ((t1 - st < 2 # 10)%Q ->
                80 < Z.abs (px - sx) \/ 48 < Z.abs (py - sy) ->
                g = swipe_gesture (px - sx) (py - sy))
            /\ ((t1 - st < 2 # 10)%Q ->
                Z.abs (px - sx) <= 80 -> Z.abs (py - sy) <= 48 ->
                g = "tap"%string)
            /\ ((2 # 10 <= t1 - st)%Q -> g = "release"%string)
      | None => snd (handle_event s (tracking v) t1 t2) = []
      end
      /\ snd (handle_event s (btn_touch 0) t1 t2)
         = [("release"%string, px, py)]
  | _, _ =>
      snd (handle_event s (tracking v) t1 t2) = []
      /\ snd (handle_event s (btn_touch 0) t1 t2) = []
  end.
Proof.
  intros Hv Hcb. rewrite (tracking_release s v t1 t2 Hv), button_release, Hcb.
  destruct (x s) as [px |]; [| now split].
  destruct (y s) as [py |]; [| now split].
  split; [| reflexivity].
  destruct (swipe_start s) as [[[sx sy] st] |]; [| reflexivity].
  destruct (Qlt_le_dec (t1 - st) (2 # 10)) as [Hq | Hq].
  - destruct (classify_quick (set_touching s false) px py sx sy st t1 t2 Hq)
      as (pre & s' & E & _ & _ & _ & Hpre).
    rewrite E. cbn [snd].
    eexists pre, _. split; [reflexivity |]. split; [exact Hpre |].
    split; [| split].
    + intros _ Hfar. apply moved_far_iff in Hfar. now rewrite Hfar.
    + intros _ Hx Hy. now rewrite (moved_far_false _ _ Hx Hy).
    + intros Hs. exfalso. exact (Qlt_not_le _ _ Hq Hs).
  - rewrite (classify_slow _ px py sx sy st t1 t2 Hq). cbn [snd].
    exists [], "release"%string. split; [reflexivity |].
    split; [now left |].
    split; [| split]; try reflexivity;
      intros Hs; exfalso; exact (Qlt_not_le _ _ Hs Hq).
Qed.

Lemma contact_up_emits_witness :
  -1 < 0 /\ touch_callback (in_contact 1 (9999 # 10)) = true
  /\ exists pre g,
       snd (handle_event (in_contact 1 (9999 # 10)) (tracking (-1))
              (10001 # 10) (10001 # 10)) = pre ++ [(g, 100, 100)]
       /\ g = "tap"%string.
Proof.
  split; [lia |]. split; [reflexivity |].
  destruct (contact_up_emits (in_contact 1 (9999 # 10)) (-1)
              (10001 # 10) (10001 # 10)) as [(pre & g & E & _ & _ & Ht & _) _];
    [lia | reflexivity |].
  exists pre, g. split; [exact E |].
  apply Ht; [by_computation | simpl; lia | simpl; lia].
Defined.

(** C1 as stated fails: the contact-up of a second quick contact emits two
    gestures, [double_tap] and then [tap]. *)
Lemma contact_up_two_gestures :
  snd (_touch_loop init
         (positioned ++ contact 1 1000 (10001 # 10)
                     ++ contact 2 (10003 # 10) (10004 # 10)))
  = [[]; []; []; [("tap"%string, 100, 100)]; [];
     [("double_tap"%string, 100, 100); ("tap"%string, 100, 100)]].
Proof. reflexivity. Qed.

(** C2 (amended).  A contact reported through the tracking id that lasted
    less than 0.2 s and moved by at most 80 horizontally and 48 vertically
    (so any contact with |dx| < 30 and |dy| < 30) emits [tap].  When the
    previous quick contact ended less than 0.5 s earlier and one tap was
    already counted, [double_tap] is emitted before that [tap] and the tap
    counter is reset to 0; with no tap counted (as right after a
    double tap) the counter is incremented, and outside the window it is
    set to 1. *)
Theorem quick_contact_taps (s : state) (v px py sx sy : Z) (st t1 t2 : Q) :
  v < 0 -> touch_callback s = true ->
  x s = Some px -> y s = Some py -> swipe_start s = Some (sx, sy, st) ->
  Z.abs (px - sx) <= 80 -> Z.abs (py - sy) <= 48 ->
  (t1 - st < 2 # 10)%Q ->
  let r := handle_event s (tracking v) t1 t2 in
  ((t2 - last_tap_time s < 5 # 10)%Q -> 1 <= tap_count s ->
   snd r = [("double_tap"%string, px, py); ("tap"%string, px, py)]
   /\ tap_count (fst r) = 0)
  /\ ((t2 - last_tap_time s < 5 # 10)%Q -> tap_count s < 1 ->
      snd r = [("tap"%string, px, py)]
      /\ tap_count (fst r) = tap_count s + 1)
  /\ ((5 # 10 <= t2 - last_tap_time s)%Q ->
      snd r = [("tap"%string, px, py)] /\ tap_count (fst r) = 1)
  /\ last_tap_time (fst r) = t2.
Proof.
  intros Hv Hcb Hx Hy Hst Hdx Hdy Hq r. subst r.
  rewrite (tracking_release s v t1 t2 Hv), Hcb, Hx, Hy, Hst.
  destruct (classify_quick (set_touching s false) px py sx sy st t1 t2 Hq)
    as (pre & s' & E & Hdouble & Hfirst & Hlate & _).
  rewrite E, (moved_far_false _ _ Hdx Hdy).
  cbn [fst snd tap_count last_tap_time set_swipe_start set_last_tap_time].
  cbn [last_tap_time tap_count set_touching] in Hdouble, Hfirst, Hlate.
  split; [| split; [| split]]; try reflexivity.
  - intros Hw Hc. destruct (Hdouble Hw Hc) as [-> ->]. now split.
  - intros Hw Hc. destruct (Hfirst Hw Hc) as [-> ->]. now split.
  - intros Hw. destruct (Hlate Hw) as [-> ->]. now split.
Qed.

Lemma quick_contact_taps_witness :
  -1 < 0 /\ touch_callback (in_contact 1 (9999 # 10)) = true
  /\ Z.abs (100 - 100) <= 80 /\ Z.abs (100 - 100) <= 48
  /\ ((10001 # 10) - 1000 < 2 # 10)%Q
  /\ snd (handle_event (in_contact 1 (9999 # 10)) (tracking (-1))
            (10001 # 10) (10001 # 10))
     = [("double_tap"%string, 100, 100); ("tap"%string, 100, 100)].
Proof.
  split; [lia |]. split; [reflexivity |]. split; [simpl; lia |].
  split; [simpl; lia |]. split; [by_computation |].
  assert (Hv : -1 < 0) by lia.
  assert (Hx : Z.abs (100 - 100) <= 80) by (simpl; lia).
  assert (Hy : Z.abs (100 - 100) <= 48) by (simpl; lia).
  assert (Hq : ((10001 # 10) - 1000 < 2 # 10)%Q) by by_computation.
  assert (Hw : ((10001 # 10) - (9999 # 10) < 5 # 10)%Q) by by_computation.
  assert (Hc : 1 <= 1) by lia.
  exact (proj1 (proj1 (quick_contact_taps (in_contact 1 (9999 # 10)) (-1)
                         100 100 100 100 1000 (10001 # 10) (10001 # 10)
                         Hv eq_refl eq_refl eq_refl eq_refl Hx Hy Hq)
                  Hw Hc)).
Defined.

(** C2 as stated fails: a contact in place that lasts 0.25 s emits
    [release], not [tap]; and a quick contact within the window of a
    double tap emits [tap] alone, not [double_tap]. *)
Lemma quick_contact_not_tap :
  snd (_touch_loop init (positioned ++ contact 1 1000 (100025 # 100)))
  = [[]; []; []; [("release"%string, 100, 100)]]
  /\ snd (_touch_loop init
            (positioned ++ contact 1 1000 (10001 # 10)
                        ++ contact 2 (10002 # 10) (10003 # 10)
                        ++ contact 3 (10004 # 10) (10005 # 10)))
     = [[]; []; []; [("tap"%string, 100, 100)]; [];
        [("double_tap"%string, 100, 100); ("tap"%string, 100, 100)]; [];
        [("tap"%string, 100, 100)]].
Proof. split; reflexivity. Qed.

End TouchHandlerFacts.

(** ** Long presses *)

Module LongPressFacts.
Import Py PyFacts UxplayWrapper.

(** C3 as stated fails for the classifier of [touch_ui.py]: a contact in
    place that lasts 3 s emits [release], and no long-press. *)
Lemma held_contact_releases :
  snd (TouchHandler._touch_loop TouchHandler.init
         (TouchHandler.positioned ++ TouchHandler.contact 1 1000 1003))
  = [[]; []; []; [("release"%string, 100, 100)]].
Proof. reflexivity. Qed.

(** C3 (amended).  In the gesture loop of the UXPlay wrapper, a finger-up
    that ends a contact of more than 2.0 s with |dx| < 20 and |dy| < 20 is
    detected as a long press (the loop reports it and exits), whatever the
    tap counter and the time of the last tap are.  The classifier of
    [touch_ui.py] has no long-press gesture: whatever the event and the
    state, it never passes [long_press] to its callback. *)
Theorem long_press_detected (s : state) (sx sy lx ly : Z) (st now : Q) :
  touching s = true ->
  start_x s = Some sx -> start_y s = Some sy ->
  last_x s = Some lx -> last_y s = Some ly ->
  start_time s = Some st ->
  (2 < now - st)%Q -> Z.abs (lx - sx) < 20 -> Z.abs (ly - sy) < 20 ->
  step true s (TouchHandler.btn_touch 0) now
  = Return (set_touching s false,
            ["Long press detected - Exiting UXPlay..."%string], Break)
  /\ forall hs e t1 t2 px py,
       ~ In ("long_press"%string, px, py)
           (snd (TouchHandler.handle_event hs e t1 t2)).
Proof.
  intros Ht Hsx Hsy Hlx Hly Hst Hd Hdx Hdy. split.
  - unfold step. cbn [negb TouchHandler.btn_touch TouchHandler.ev_type
                        TouchHandler.ev_code TouchHandler.ev_value].
    change (TouchHandler.EV_KEY =? TouchHandler.EV_ABS) with false.
    change ((TouchHandler.EV_KEY =? TouchHandler.EV_KEY)
            && (TouchHandler.BTN_TOUCH =? TouchHandler.BTN_TOUCH)) with true.
    change (0 =? 1) with false. change (0 =? 0) with true.
    rewrite Ht.
    cbn [andb start_time start_x start_y last_x last_y set_touching].
    rewrite Hst, Hsx, Hlx, Hly, Hsy. unfold detect.
    assert (E3 : Qltb (now - st) (3 # 10) = false).
    { apply Qltb_ge. apply Qlt_le_weak.
      apply Qlt_trans with (y := 2%Q); [by_computation | exact Hd]. }
    assert (E2 : Qgtb (now - st) 2 = true) by (now apply Qltb_lt).
    rewrite E3, E2, !andb_false_r.
    assert (Ex : (Z.abs (lx - sx) <? 20) = true) by (apply Z.ltb_lt; lia).
    assert (Ey : (Z.abs (ly - sy) <? 20) = true) by (apply Z.ltb_lt; lia).
    now rewrite Ex, Ey.
  - intros hs e t1 t2 px py Hin.
    apply TouchHandlerFacts.handle_event_names in Hin.
    unfold TouchHandler.gesture_names in Hin. simpl in Hin.
    repeat (destruct Hin as [Hin | Hin]; [discriminate Hin |]).
    exact Hin.
Qed.

Lemma long_press_detected_witness :
  touching (holding 1 (9999 # 10)) = true
  /\ (2 < 1003 - 1000)%Q /\ Z.abs (100 - 100) < 20
  /\ step true (holding 1 (9999 # 10)) (TouchHandler.btn_touch 0) 1003
     = Return (set_touching (holding 1 (9999 # 10)) false,
               ["Long press detected - Exiting UXPlay..."%string], Break).
Proof.
  split; [reflexivity |]. split; [by_computation |]. split; [simpl; lia |].
  apply (long_press_detected (holding 1 (9999 # 10)) 100 100 100 100
           1000 1003); try reflexivity; try by_computation; simpl; lia.
Defined.

End LongPressFacts.

(** ** The canvas *)

Module ASCIICanvasFacts.
Import Py PyFacts ASCIICanvas.

Lemma index_inside (n : nat) (i : Z) :
  0 <= i < Z.of_nat n -> index n i = Return (Z.to_nat i).
Proof.
  intros H. unfold index.
  destruct (Z.leb_spec 0 i); [| lia].
  destruct (Z.ltb_spec i (Z.of_nat n)); [reflexivity | lia].
Qed.

Lemma getitem_inside {A} (l : list A) (i : Z) (a : A) :
  0 <= i -> l !! Z.to_nat i = Some a -> getitem l i = Return a.
Proof.
  intros Hi Hl. unfold getitem.
  rewrite index_inside.
  - cbn [bind]. now rewrite Hl.
  - apply lookup_lt_Some in Hl. lia.
Qed.

Lemma setitem_inside {A} (l : list A) (i : Z) (a : A) :
  0 <= i < Z.of_nat (length l) ->
  setitem l i a = Return (<[Z.to_nat i := a]> l).
Proof.
  intros Hi. unfold setitem. now rewrite index_inside.
Qed.

(** [__init__] builds a well-formed canvas, whatever the sizes. *)
Lemma init_well_formed (w h : Z) : well_formed (init w h).
Proof.
  unfold well_formed, init, blank, range; cbn [buffer old_buffer width height].
  rewrite !length_map, !length_seq, Z.sub_0_r.
  split; [reflexivity |]. split; [reflexivity |].
  apply Forall_forall. intros line Hin.
  apply list_elem_of_In, in_map_iff in Hin. destruct Hin as (k & <- & _).
  now rewrite !length_map, !length_seq, Z.sub_0_r.
Qed.

Section Drawing.
Variable c0 : canvas.

Lemma safe_store (row col : Z) (ch : cell) :
  0 <= row < height c0 -> 0 <= col < width c0 ->
  safe c0 (store row col ch).
Proof.
  intros Hrow Hcol [c log] (Hw & Hh & (Hlen & Hold & Hrows) & Hlog).
  cbn [fst snd] in *. unfold store.
  assert (Hk : (Z.to_nat row < length (buffer c))%nat) by lia.
  destruct (lookup_lt_is_Some_2 _ _ Hk) as [line Hline].
  assert (Hline_len : length line = Z.to_nat (width c))
    by exact (Forall_lookup_1 _ _ _ _ Hrows Hline).
  rewrite (getitem_inside _ _ _ (proj1 Hrow) Hline). cbn [bind].
  rewrite setitem_inside by lia. cbn [bind].
  rewrite setitem_inside by lia. cbn [bind].
  eexists. split; [reflexivity |].
  unfold in_order, well_formed; cbn [fst snd set_buffer width height buffer
                                      old_buffer].
  rewrite length_insert.
  repeat split; trivial.
  - apply Forall_insert; [exact Hrows |]. now rewrite length_insert.
  - apply Forall_app. split; [exact Hlog |].
    apply Forall_cons. split; [| apply Forall_nil; exact I].
    unfold in_grid; cbn [fst snd]. lia.
Qed.

Lemma safe_bind (f g : drawing -> outcome drawing) :
  safe c0 f -> safe c0 g -> safe c0 (fun d => bind (f d) g).
Proof.
  intros Hf Hg d Hd. destruct (Hf d Hd) as (d1 & -> & Hd1).
  cbn [bind]. exact (Hg d1 Hd1).
Qed.

Lemma safe_when (b : bool) (f : drawing -> outcome drawing) :
  (b = true -> safe c0 f) -> safe c0 (when b f).
Proof.
  intros Hf d Hd. unfold when. destruct b.
  - exact (Hf eq_refl d Hd).
  - now exists d.
Qed.

Lemma safe_for_each (l : list Z) (body : Z -> drawing -> outcome drawing) :
  (forall i, In i l -> safe c0 (body i)) -> safe c0 (for_each l body).
Proof.
  induction l as [| i l IH]; intros Hbody d Hd; cbn [for_each].
  - now exists d.
  - destruct (Hbody i (or_introl eq_refl) d Hd) as (d1 & -> & Hd1).
    cbn [bind]. apply IH; [| exact Hd1].
    intros j Hj. apply Hbody. now right.
Qed.

Lemma safe_mark_dirty : safe c0 mark_dirty.
Proof.
  intros [c log] (Hw & Hh & (Hlen & Hold & Hrows) & Hlog).
  eexists. split; [reflexivity |].
  unfold in_order, well_formed. cbn [fst snd] in *.
  now repeat split.
Qed.

Lemma safe_store_char (style : string) (k row col : Z) :
  0 <= k < 6 -> 0 <= row < height c0 -> 0 <= col < width c0 ->
  safe c0 (store_char (box_chars style) k row col).
Proof.
  intros Hk Hrow Hcol d Hd. unfold store_char.
  assert (Hlen : length (box_chars style) = 6%nat).
  { unfold box_chars.
    repeat match goal with
           | |- context [if ?b then _ else _] => destruct b
           end; reflexivity. }
  assert (Hlt : (Z.to_nat k < length (box_chars style))%nat) by lia.
  destruct (lookup_lt_is_Some_2 _ _ Hlt) as [ch Hch].
  rewrite (getitem_inside _ _ _ (proj1 Hk) Hch). cbn [bind].
  now apply safe_store.
Qed.

Lemma in_width_inside (c : canvas) (col : Z) :
  width c = width c0 -> in_width c col = true -> 0 <= col < width c0.
Proof. unfold in_width. intros <-. lia. Qed.

Lemma in_height_inside (c : canvas) (row : Z) :
  height c = height c0 -> in_height c row = true -> 0 <= row < height c0.
Proof. unfold in_height. intros <-. lia. Qed.

Lemma safe_hline_at (c : canvas) (style : string) (x w row left right : Z) :
  width c = width c0 ->
  0 <= row < height c0 -> 0 <= left < 6 -> 0 <= right < 6 ->
  safe c0 (fun d =>
    bind (when (in_width c x) (store_char (box_chars style) left row x) d)
      (fun d =>
    bind (for_each (range 1 (w - 1)) (fun i =>
            when (in_width c (x + i))
              (store_char (box_chars style) 1 row (x + i))) d) (fun d =>
    when (in_width c (x + w - 1))
      (store_char (box_chars style) right row (x + w - 1)) d))).
Proof.
  intros Hw Hrow Hl Hr.
  apply (safe_bind (when _ _)).
  { apply safe_when. intros H.
    apply safe_store_char; eauto using in_width_inside. }
  apply (safe_bind (for_each _ _)).
  { apply safe_for_each. intros i _. apply safe_when. intros H.
    apply safe_store_char; eauto using in_width_inside. lia. }
  apply safe_when. intros H.
  apply safe_store_char; eauto using in_width_inside.
Qed.

Lemma safe_hline (style : string) (x w row left right : Z) :
  0 <= row < height c0 -> 0 <= left < 6 -> 0 <= right < 6 ->
  safe c0 (hline (box_chars style) x w row left right).
Proof.
  intros Hrow Hl Hr d Hd. unfold hline.
  pose proof Hd as (Hw & _).
  exact (safe_hline_at (fst d) style x w row left right Hw Hrow Hl Hr d Hd).
Qed.

Lemma safe_draw_chars (x y : Z) (clip : bool) (text : list cell) :
  0 <= y < height c0 ->
  forall i, safe c0 (draw_chars x y clip i text).
Proof.
  intros Hy. induction text as [| char rest IH]; intros i d Hd;
    cbn [draw_chars].
  - now exists d.
  - destruct (Z.ltb_spec (x + i) 0) as [Hneg | Hpos]; [now apply IH |].
    pose proof Hd as (Hw & _).
    rewrite Z.geb_leb.
    destruct (Z.leb_spec (width (fst d)) (x + i)) as [Hbig | Hsmall].
    + destruct clip; [now exists d | now apply IH].
    + destruct (safe_store y (x + i) char Hy ltac:(lia) d Hd)
        as (d1 & -> & Hd1).
      cbn [bind]. now apply IH.
Qed.

Lemma safe_draw_text (x y : Z) (text : list cell) (clip : bool) :
  safe c0 (draw_text_from x y text clip).
Proof.
  intros d Hd. unfold draw_text_from.
  pose proof Hd as (_ & Hh & _).
  rewrite Z.geb_leb.
  destruct (Z.ltb_spec y 0) as [Hneg | Hpos]; cbn [orb].
  { now exists d. }
  destruct (Z.leb_spec (height (fst d)) y) as [Hbig | Hsmall].
  { now exists d. }
  apply (safe_bind (draw_chars x y clip 0 text) mark_dirty).
  - apply safe_draw_chars. lia.
  - apply safe_mark_dirty.
  - exact Hd.
Qed.

Lemma safe_draw_box (x y w h : Z) (style : string) (filled : bool) :
  safe c0 (draw_box_from x y w h style filled).
Proof.
  intros [c log] Hd. unfold draw_box_from.
  pose proof Hd as (Hw & Hh & _). cbn [fst] in *.
  revert Hd. generalize (c, log).
  apply (safe_bind (when filled _)).
  { apply safe_when. intros _. apply safe_for_each. intros row Hrow.
    apply safe_for_each. intros col Hcol.
    apply in_range in Hrow, Hcol. apply safe_store; lia. }
  apply (safe_bind (when (in_height c y) _)).
  { apply safe_when. intros H.
    apply safe_hline; eauto using in_height_inside; lia. }
  apply (safe_bind (for_each _ _)).
  { apply safe_for_each. intros i _. apply safe_when. intros H.
    apply (safe_bind (when _ _)).
    - apply safe_when. intros H'.
      apply safe_store_char;
        eauto using in_height_inside, in_width_inside. lia.
    - apply safe_when. intros H'.
      apply safe_store_char;
        eauto using in_height_inside, in_width_inside. lia. }
  apply (safe_bind (when (in_height c (y + h - 1)) _)).
  { apply safe_when. intros H.
    apply safe_hline; eauto using in_height_inside; lia. }
  apply safe_mark_dirty.
Qed.

End Drawing.

Lemma in_order_start (c : canvas) : well_formed c -> in_order c (c, []).
Proof.
  intros H. unfold in_order; cbn [fst snd].
  split; [reflexivity |]. split; [reflexivity |]. split; [exact H |].
  constructor.
Qed.

(** C7.  On a well-formed canvas, [draw_text] and [draw_box] return for all
    integer coordinates and sizes, every text, style and flag: no error is
    raised, every cell assignment they make names a cell of the
    width x height grid, and the canvas keeps its size and shape. *)
Theorem draws_clip (c : canvas) :
  well_formed c ->
  (forall x y text clip, exists c' log,
     draw_text c x y text clip = Return (c', log)
     /\ Forall (in_grid c) log
     /\ well_formed c' /\ width c' = width c /\ height c' = height c)
  /\ (forall x y w h style filled, exists c' log,
       draw_box c x y w h style filled = Return (c', log)
       /\ Forall (in_grid c) log
       /\ well_formed c' /\ width c' = width c /\ height c' = height c).
Proof.
  intros Hc. split.
  - intros x y text clip. unfold draw_text.
    destruct (safe_draw_text c x y text clip (c, []) (in_order_start c Hc))
      as ([c' log] & E & Hw & Hh & Hwf & Hlog).
    exists c', log. now rewrite E.
  - intros x y w h style filled. unfold draw_box.
    destruct (safe_draw_box c x y w h style filled (c, [])
                (in_order_start c Hc))
      as ([c' log] & E & Hw & Hh & Hwf & Hlog).
    exists c', log. now rewrite E.
Qed.

Lemma draws_clip_witness :
  well_formed small
  /\ (exists c' log,
        draw_text small 2 1 ["a"; "b"; "c"; "d"]%string true
          = Return (c', log)
        /\ Forall (in_grid small) log)
  /\ (exists c' log,
        draw_box small (-1) (-1) 9 3 "single" true = Return (c', log)
        /\ Forall (in_grid small) log).
Proof.
  pose proof (draws_clip small (init_well_formed 4 3)) as [Htext Hbox].
  split; [exact (init_well_formed 4 3) |]. split.
  - destruct (Htext 2 1 ["a"; "b"; "c"; "d"]%string true)
      as (c' & log & E & Hlog & _).
    now exists c', log.
  - destruct (Hbox (-1) (-1) 9 3 "single"%string true)
      as (c' & log & E & Hlog & _).
    now exists c', log.
Defined.

(** Rows [k], [k+1], ... of the range, as [render] enumerates them. *)
Lemma range_from_zero (h : Z) :
  range 0 h = map (fun k => 0 + Z.of_nat k) (seq 0 (Z.to_nat h)).
Proof. unfold range. now rewrite Z.sub_0_r. Qed.

Lemma frame_rows_all (suf pre : list (list cell)) :
  frame_rows (pre ++ suf)
    (map (fun k => 0 + Z.of_nat k) (seq (length pre) (length suf)))
  = Return (rows_from (Z.of_nat (length pre)) suf).
Proof.
  revert pre. induction suf as [| line suf IH]; intros pre; [reflexivity |].
  cbn [length seq map frame_rows rows_from].
  rewrite (getitem_inside (pre ++ line :: suf) _ line).
  - cbn [bind].
    assert (Hn : length (pre ++ [line]) = S (length pre))
      by (rewrite length_app; cbn [length]; lia).
    specialize (IH (pre ++ [line])).
    rewrite Hn, <- app_assoc in IH. cbn [app] in IH. rewrite IH. cbn [bind].
    rewrite Nat2Z.inj_succ, <- Z.add_1_r. reflexivity.
  - lia.
  - rewrite Z.add_0_l, Nat2Z.id. apply list_lookup_middle. reflexivity.
Qed.

Lemma copy_rows_all (suf pre old : list (list cell)) :
  length old = length (pre ++ suf) ->
  take (length pre) old = pre ->
  copy_rows (pre ++ suf) old
    (map (fun k => 0 + Z.of_nat k) (seq (length pre) (length suf)))
  = Return (pre ++ suf).
Proof.
  revert pre old. induction suf as [| line suf IH]; intros pre old Hlen Hpre.
  - cbn [length seq map copy_rows]. rewrite app_nil_r in *.
    f_equal. transitivity (take (length pre) old);
      [symmetry; apply take_ge; lia | exact Hpre].
  - cbn [length seq map copy_rows].
    rewrite length_app in Hlen. cbn [length] in Hlen.
    rewrite (getitem_inside (pre ++ line :: suf) _ line);
      [| lia | rewrite Z.add_0_l, Nat2Z.id; now apply list_lookup_middle].
    cbn [bind]. rewrite setitem_inside by lia. cbn [bind].
    rewrite Z.add_0_l, Nat2Z.id.
    assert (Hn : length (pre ++ [line]) = S (length pre))
      by (rewrite length_app; cbn [length]; lia).
    specialize (IH (pre ++ [line]) (<[length pre := line]> old)).
    rewrite Hn, <- app_assoc in IH. cbn [app] in IH. apply IH.
    + rewrite length_insert, length_app. cbn [length]. lia.
    + rewrite (take_S_r _ _ line).
      * rewrite take_insert_ge by lia. now rewrite Hpre.
      * apply list_lookup_insert_eq. lia.
Qed.

(** C5.  On a well-formed canvas, [render()] makes no call on the terminal
    and changes nothing when the dirty flag is false; when it is true it
    makes exactly one write, of the whole frame (cursor home, then for each
    row: position the cursor, clear the line, emit the row), followed by a
    flush, copies the current buffer into the reference buffer and clears
    the dirty flag. *)
Theorem render_writes_once (c : canvas) :
  well_formed c ->
  (dirty c = false -> render c = Return (c, []))
  /\ (dirty c = true ->
      render c =
        Return ({| width := width c; height := height c;
                   buffer := buffer c; old_buffer := buffer c;
                   dirty := false |},
                [Write (full_frame (buffer c)); Flush])).
Proof.
  intros (Hlen & Hold & _). split; intros Hd; unfold render; rewrite Hd;
    cbn [negb]; [reflexivity |].
  unfold frame. rewrite range_from_zero, <- Hlen.
  pose proof (frame_rows_all (buffer c) []) as Hf.
  pose proof (copy_rows_all (buffer c) [] (old_buffer c)) as Hc.
  cbn [app length] in Hf, Hc.
  rewrite Hf. cbn [bind]. rewrite Hc by (trivial; lia). cbn [bind].
  reflexivity.
Qed.

Lemma render_writes_once_witness :
  well_formed small
  /\ render small =
       Return ({| width := 4; height := 3;
                  buffer := buffer small; old_buffer := buffer small;
                  dirty := false |},
               [Write (full_frame (buffer small)); Flush]).
Proof.
  split; [exact (init_well_formed 4 3) |].
  exact (proj2 (render_writes_once small (init_well_formed 4 3)) eq_refl).
Defined.

End ASCIICanvasFacts.

(** ** Widgets and screens *)

Module WidgetsFacts.
Import Py PyFacts Widgets.

(** *** ScrollBar *)









(** *** Slider *)





(** *** Screen *)

Section Dispatch.
Variables (term : term_size) (event_type : string) (tx ty : Z).







End Dispatch.


(** *** Visibility *)

(** The hit test does not read the [visible] flag. *)
Lemma contains_point_ignores_visible (w : Widget) (v : bool)
    (term : term_size) (tx ty : Z) :
  contains_point (set_visible w v) term tx ty = contains_point w term tx ty.
Proof. reflexivity. Qed.

(** C6 fails on the code.  A button whose [visible] flag is false sits at
    cell (38, 11); a press at touch point (400, 240), cell (40, 12), is
    hit-tested against it and handed to it: the button becomes pressed and
    [Screen.handle_touch] returns [True]. *)
Theorem hidden_button_handles_press :
  visible (base hidden_button) = false
  /\ Screen_handle_touch [hidden_button] (80, 24) "press" 400 240
     = ([AButton {| b_base := set_visible (Widget_init 38 11 6 3) false;
                    b_text := ["O"; "K"]%string;
                    b_callback := Some "ok"%string;
                    b_pressed := true; b_style := "single" |}],
        [HitTest 0; Handle 0], Return true).
Proof. split; [reflexivity | by_computation]. Qed.

End WidgetsFacts.

(** ** Hand-off screens *)

Module HandoffFacts.
Import Handoff.



End HandoffFacts.

(** ** More about the Python arithmetic *)

Module PyMoreFacts.
Import Py PyFacts.



Lemma inject_pos (b : Z) : 0 < b -> (0 < inject_Z b)%Q.
Proof. intros H. change 0%Q with (inject_Z 0). now rewrite <- Zlt_Qlt. Qed.

(** [int(a / b)] on ints truncates the quotient toward zero. *)
Lemma int_div (a b : Z) :
  0 < b -> int (inject_Z a / inject_Z b) = Z.quot a b.
Proof.
  intros Hb. pose proof (inject_pos b Hb) as HB. unfold int.
  destruct (Z.le_gt_cases 0 a) as [Ha | Ha].
  - assert (Hq : (0 <= inject_Z a / inject_Z b)%Q).
    { apply Qle_shift_div_l; [exact HB |].
      rewrite Qmult_0_l. change 0%Q with (inject_Z 0).
      now rewrite <- Zle_Qle. }
    apply Qle_bool_iff in Hq. rewrite Hq.
    rewrite <- Zdiv_Qdiv. symmetry. now apply Z.quot_div_nonneg.
  - assert (Hq : Qle_bool 0 (inject_Z a / inject_Z b) = false).
    { apply not_true_iff_false. rewrite Qle_bool_iff. apply Qlt_not_le.
      apply Qlt_shift_div_r; [exact HB |].
      rewrite Qmult_0_l. change 0%Q with (inject_Z 0).
      now rewrite <- Zlt_Qlt. }
    rewrite Hq. unfold Qceiling.
    assert (E : - (inject_Z a / inject_Z b) == inject_Z (- a) / inject_Z b).
    { rewrite inject_Z_opp. field. intros H0. rewrite H0 in HB.
      exact (Qlt_irrefl 0 HB). }
    rewrite (Qfloor_comp _ _ E), <- Zdiv_Qdiv.
    rewrite <- (Z.quot_div_nonneg (- a) b) by lia.
    rewrite Z.quot_opp_l by lia. lia.
Qed.


End PyMoreFacts.

(** ** The wrapper loops *)

Module UxplayLoopFacts.
Import Py PyFacts UxplayWrapper UxplayLoop.

(** What a finger-up does, by the state it meets. *)
Lemma uxplay_finger_up (s : state) (now : Q) :
  step true s (TouchHandler.btn_touch 0) now =
    if touching s then
      match start_time s with
      | None => Raise TypeError
      | Some st =>
          match start_x s, last_x s with
          | Some sx, Some lx =>
              match last_y s, start_y s with
              | Some ly, Some sy =>
                  Return (detect (set_touching s false) sx sy lx ly
                            (now - st) now)
              | _, _ => Raise TypeError
              end
          | _, _ => Return (set_touching s false, [], Continue)
          end
      end
    else Return (s, [], Continue).
Proof. unfold step. cbn. now destruct (touching s). Qed.

Lemma uxplay_expire_taps_count (s : state) (t : Q) :
  tap_count (expire_taps s t) = tap_count s
  \/ tap_count (expire_taps s t) = 0.
Proof.
  unfold expire_taps. destruct (Qgtb _ _); [now right | now left].
Qed.

Lemma uxplay_detect_cases (s : state) (sx sy lx ly : Z) (d t : Q) :
  forall s' out c, detect s sx sy lx ly d t = (s', out, c) ->
  (c = Break ->
     (out = ["Double tap detected - Exiting UXPlay..."%string]
      /\ tap_count s' = tap_count s + 1 /\ 2 <= tap_count s')
     \/ (out = ["Long press detected - Exiting UXPlay..."%string]
         /\ s' = s))
  /\ (c = Continue ->
      tap_count s' = 0 \/ tap_count s' = 1 \/ tap_count s' = tap_count s
      \/ (tap_count s' = tap_count s + 1 /\ tap_count s' < 2)).
Proof.
  intros s' out c. unfold detect.
  destruct (_ && _ && Qltb d (3 # 10)).
  - destruct (Qltb (t - last_tap_time s) (6 # 10)).
    + cbn [tap_count set_tap_count].
      destruct (Z.geb_spec (tap_count s + 1) 2) as [Hge | Hlt];
        intros [= <- <- <-].
      * split; [| discriminate]. intros _. left.
        cbn [tap_count set_tap_count]. repeat split; lia.
      * split; [discriminate |]. intros _.
        destruct (uxplay_expire_taps_count
                    (set_last_tap_time (set_tap_count s (tap_count s + 1)) t)
                    t) as [-> | ->]; cbn [tap_count set_tap_count set_last_tap_time];
          [right; right; right; split; lia | now left].
    + intros [= <- <- <-]. split; [discriminate |]. intros _.
      destruct (uxplay_expire_taps_count
                  (set_last_tap_time (set_tap_count s 1) t) t) as [-> | ->];
        cbn [tap_count set_tap_count set_last_tap_time]; tauto.
  - destruct (Qgtb d 2 && _ && _).
    + intros [= <- <- <-]. split; [| discriminate]. intros _. now right.
    + intros [= <- <- <-]. split; [discriminate |]. intros _.
      destruct (uxplay_expire_taps_count s t) as [-> | ->]; tauto.
Qed.

(** What one iteration can do to the tap counter and print on leaving. *)
Lemma uxplay_step_cases (alive : bool) (s : state) (e : TouchHandler.input_event)
    (now : Q) (s' : state) (out : list string) (c : control) :
  step alive s e now = Return (s', out, c) ->
  (c = Break ->
     (exists m, out = [m] /\ In m exit_messages)
     /\ (tap_count s' = tap_count s \/
         (tap_count s' = tap_count s + 1 /\ 2 <= tap_count s')))
  /\ (c = Continue ->
      tap_count s' = 0 \/ tap_count s' = 1 \/ tap_count s' = tap_count s
      \/ (tap_count s' = tap_count s + 1 /\ tap_count s' < 2)).
Proof.
  unfold step. destruct alive; cbn [negb].
  2:{ intros [= <- <- <-]. split; [| discriminate]. intros _. split.
      - eexists. split; [reflexivity |]. unfold exit_messages. simpl. tauto.
      - now left. }
  destruct (TouchHandler.ev_type e =? TouchHandler.EV_ABS).
  { repeat match goal with
           | |- context [if ?b then _ else _] => destruct b
           end; intros [= <- <- <-]; (split; [discriminate |]); intros _;
      cbn [tap_count set_last_x set_last_y]; tauto. }
  destruct (_ && _).
  2:{ intros [= <- <- <-]. split; [discriminate |]. tauto. }
  destruct (TouchHandler.ev_value e =? 1).
  { intros [= <- <- <-]. split; [discriminate |].
    cbn [tap_count finger_down]. tauto. }
  destruct ((TouchHandler.ev_value e =? 0) && touching s).
  2:{ intros [= <- <- <-]. split; [discriminate |]. tauto. }
  cbn [start_time start_x start_y last_x last_y set_touching].
  destruct (start_time s) as [st |]; [| discriminate].
  destruct (start_x s) as [sx |], (last_x s) as [lx |];
    try (intros [= <- <- <-]; (split; [discriminate |]);
         cbn [tap_count]; tauto).
  destruct (last_y s) as [ly |], (start_y s) as [sy |]; try discriminate.
  intros [= E].
  destruct (uxplay_detect_cases _ _ _ _ _ _ _ _ _ _ E) as [Hb Hc].
  cbn [tap_count] in Hb, Hc. split; [| exact Hc].
  intros Hbreak. destruct (Hb Hbreak) as [(-> & H1 & H2) | (-> & ->)].
  - split; [| right; now split].
    eexists. split; [reflexivity |]. unfold exit_messages. simpl. tauto.
  - split; [| now left].
    eexists. split; [reflexivity |]. unfold exit_messages. simpl. tauto.
Qed.

Lemma uxplay_main_loop_cases (ticks : list tick) (s s' : state)
    (out : list string) (c : control) :
  continuing s ->
  main_loop s ticks = Return (s', out, c) ->
  (c = Break ->
     (exists pre m, out = pre ++ [m] /\ In m exit_messages)
     /\ 0 <= tap_count s' <= 2)
  /\ (c = Continue -> continuing s').
Proof.
  revert s s' out c. induction ticks as [| t rest IH];
    intros s s' out c Hs; cbn [main_loop].
  - intros [= <- <- <-]. split; [discriminate | trivial].
  - destruct (step (alive t) s (event t) (now t)) as [[[s1 out1] c1] |]
      eqn:E; cbn [bind]; [| discriminate].
    destruct (uxplay_step_cases _ _ _ _ _ _ _ E) as [Hb Hc].
    unfold continuing in *.
    destruct c1.
    + specialize (Hc eq_refl).
      assert (Hs1 : continuing s1) by (unfold continuing; lia).
      destruct (main_loop s1 rest) as [[[s2 out2] c2] |] eqn:E2;
        cbn [bind]; [| discriminate].
      intros [= <- <- <-].
      destruct (IH _ _ _ _ Hs1 E2) as [Hb2 Hc2]. split; [| exact Hc2].
      intros Hbreak. destruct (Hb2 Hbreak) as [(pre & m & -> & Hm) Hn].
      split; [| exact Hn]. exists (out1 ++ pre), m.
      now rewrite app_assoc.
    + intros [= <- <- <-]. split; [| discriminate]. intros _.
      destruct (Hb eq_refl) as [(m & -> & Hm) Hn].
      split; [now exists [], m | lia].
Qed.

(** X1.  The loop of the UXPlay wrapper, run from its initial state over
    any events, is left by [break] only after printing one of three
    messages: the process ended, a double tap, or a long press.  While it
    continues the tap counter is 0 or 1. *)
Theorem uxplay_loop_exits (ticks : list tick) (s' : state)
    (out : list string) (c : control) :
  main_loop init ticks = Return (s', out, c) ->
  (c = Break -> exists pre m, out = pre ++ [m] /\ In m exit_messages)
  /\ (c = Continue -> 0 <= tap_count s' <= 1).
Proof.
  intros E.
  assert (H0 : continuing init) by (unfold continuing, init; simpl; lia).
  destruct (uxplay_main_loop_cases ticks init s' out c H0 E) as [Hb Hc].
  split; [intros H; exact (proj1 (Hb H)) | exact Hc].
Qed.

Lemma uxplay_loop_exits_witness :
  main_loop init
    ([at_time (TouchHandler.abs_x 100) 999;
      at_time (TouchHandler.abs_y 100) 999]
     ++ tap_at 1000 ++ tap_at (10004 # 10))
  = Return ({| touching := false; start_x := Some 100; start_y := Some 100;
               last_x := Some 100; last_y := Some 100;
               start_time := Some (10004 # 10);
               last_tap_time := (1000 + (1 # 10))%Q; tap_count := 2 |},
            ["Single tap detected"%string;
             "Double tap detected - Exiting UXPlay..."%string], Break)
  /\ exists pre m,
       ["Single tap detected"%string;
        "Double tap detected - Exiting UXPlay..."%string] = pre ++ [m]
       /\ In m exit_messages.
Proof.
  assert (E : main_loop init
                ([at_time (TouchHandler.abs_x 100) 999;
                  at_time (TouchHandler.abs_y 100) 999]
                 ++ tap_at 1000 ++ tap_at (10004 # 10))
              = Return ({| touching := false; start_x := Some 100;
                           start_y := Some 100; last_x := Some 100;
                           last_y := Some 100;
                           start_time := Some (10004 # 10);
                           last_tap_time := (1000 + (1 # 10))%Q;
                           tap_count := 2 |},
                        ["Single tap detected"%string;
                         "Double tap detected - Exiting UXPlay..."%string],
                        Break)) by reflexivity.
  split; [exact E |].
  exact (proj1 (uxplay_loop_exits _ _ _ _ E) eq_refl).
Defined.

(** X2.  In the UXPlay wrapper a quick contact in place (under 0.3 s,
    |dx| < 30, |dy| < 30) that ends less than 0.6 s after the last tap,
    with a tap already counted, is a double tap: the loop reports it and
    exits.  When 0.6 s or more have passed it is a single tap: the counter
    restarts at 1, the tap time is recorded and the loop goes on. *)
Theorem uxplay_tap_or_double_tap (s : state) (sx sy lx ly : Z) (st now : Q) :
  touching s = true ->
  start_x s = Some sx -> start_y s = Some sy ->
  last_x s = Some lx -> last_y s = Some ly ->
  start_time s = Some st ->
  Z.abs (lx - sx) < 30 -> Z.abs (ly - sy) < 30 -> (now - st < 3 # 10)%Q ->
  ((now - last_tap_time s < 6 # 10)%Q -> 1 <= tap_count s ->
   step true s (TouchHandler.btn_touch 0) now
   = Return (set_tap_count (set_touching s false) (tap_count s + 1),
             ["Double tap detected - Exiting UXPlay..."%string], Break))
  /\ ((6 # 10 <= now - last_tap_time s)%Q ->
      step true s (TouchHandler.btn_touch 0) now
      = Return (set_last_tap_time (set_tap_count (set_touching s false) 1)
                  now,
                ["Single tap detected"%string], Continue)).
Proof.
  intros Ht Hsx Hsy Hlx Hly Hst Hdx Hdy Hd.
  rewrite uxplay_finger_up, Ht, Hst, Hsx, Hlx, Hly, Hsy. unfold detect.
  assert (Ex : (Z.abs (lx - sx) <? 30) = true) by (apply Z.ltb_lt; lia).
  assert (Ey : (Z.abs (ly - sy) <? 30) = true) by (apply Z.ltb_lt; lia).
  apply Qltb_lt in Hd. rewrite Ex, Ey, Hd. cbn [andb].
  cbn [last_tap_time tap_count set_touching set_tap_count].
  split.
  - intros Hw Hc. apply Qltb_lt in Hw. rewrite Hw.
    assert (E2 : (tap_count s + 1 >=? 2) = true)
      by (rewrite Z.geb_leb; apply Z.leb_le; lia).
    now rewrite E2.
  - intros Hw. apply Qltb_ge in Hw. rewrite Hw.
    unfold expire_taps, Qgtb.
    cbn [last_tap_time set_last_tap_time].
    assert (E1 : Qltb 1 (now - now) = false) by (apply Qltb_ge; lra).
    now rewrite E1.
Qed.

Lemma uxplay_tap_or_double_tap_witness :
  touching (holding 1 (9999 # 10)) = true
  /\ Z.abs (100 - 100) < 30
  /\ ((10001 # 10) - 1000 < 3 # 10)%Q
  /\ ((10001 # 10) - (9999 # 10) < 6 # 10)%Q
  /\ step true (holding 1 (9999 # 10)) (TouchHandler.btn_touch 0)
       (10001 # 10)
     = Return (set_tap_count (set_touching (holding 1 (9999 # 10)) false) 2,
               ["Double tap detected - Exiting UXPlay..."%string], Break).
Proof.
  assert (Hx : Z.abs (100 - 100) < 30) by (simpl; lia).
  assert (Hd : ((10001 # 10) - 1000 < 3 # 10)%Q) by by_computation.
  assert (Hw : ((10001 # 10) - (9999 # 10) < 6 # 10)%Q) by by_computation.
  assert (Hc : 1 <= 1) by lia.
  split; [reflexivity |]. split; [exact Hx |]. split; [exact Hd |].
  split; [exact Hw |].
  exact (proj1 (uxplay_tap_or_double_tap (holding 1 (9999 # 10))
                  100 100 100 100 1000 (10001 # 10)
                  eq_refl eq_refl eq_refl eq_refl eq_refl eq_refl
                  Hx Hx Hd) Hw Hc).
Defined.

(** X3.  Degenerate contacts in the UXPlay wrapper.  A finger-up whose
    contact has no start X or no last X is ignored.  When X is known but a
    Y position is missing (at the start or at the end), the finger-up
    raises [TypeError]: so does the run from the initial state in which
    only an X position arrives before the finger goes down and up. *)
Theorem uxplay_degenerate_contact (s : state) (st now : Q) :
  touching s = true -> start_time s = Some st ->
  ((start_x s = None \/ last_x s = None) ->
   step true s (TouchHandler.btn_touch 0) now
   = Return (set_touching s false, [], Continue))
  /\ (start_x s <> None -> last_x s <> None ->
      (start_y s = None \/ last_y s = None) ->
      step true s (TouchHandler.btn_touch 0) now = Raise TypeError)
  /\ (forall v t0 t1 t2,
        main_loop init [at_time (TouchHandler.abs_x v) t0;
                        at_time (TouchHandler.btn_touch 1) t1;
                        at_time (TouchHandler.btn_touch 0) t2]
        = Raise TypeError).
Proof.
  intros Ht Hst. rewrite uxplay_finger_up, Ht, Hst. split; [| split].
  - intros [-> | ->]; [reflexivity |]. now destruct (start_x s).
  - intros Hsx Hlx Hy.
    destruct (start_x s) as [sx |]; [| contradiction].
    destruct (last_x s) as [lx |]; [| contradiction].
    destruct Hy as [-> | ->]; [| reflexivity]. now destruct (last_y s).
  - reflexivity.
Qed.

Lemma uxplay_degenerate_contact_witness :
  touching (holding 0 0) = true
  /\ step true (set_last_x (holding 0 0) None) (TouchHandler.btn_touch 0)
       1001
     = Return (set_touching (set_last_x (holding 0 0) None) false, [],
               Continue).
Proof.
  split; [reflexivity |].
  exact (proj1 (uxplay_degenerate_contact (set_last_x (holding 0 0) None)
                  1000 1001 eq_refl eq_refl) (or_intror eq_refl)).
Defined.

End UxplayLoopFacts.

Module FfplayWrapperFacts.
Import Py PyFacts FfplayWrapper.

Lemma ffplay_finger_up (s : state) (now : Q) :
  step true s (TouchHandler.btn_touch 0) now =
    let s := expire_taps s now in
    if touching s then
      match start_time s with
      | None => Raise TypeError
      | Some st =>
          match start_x s, last_x s with
          | Some _, Some _ =>
              Return (detect (set_touching s false)
                        (delta (last_x s) (start_x s))
                        (delta (last_y s) (start_y s)) (now - st) now)
          | _, _ => Return (set_touching s false, [], Continue)
          end
      end
    else Return (s, [], Continue).
Proof. unfold step. cbn. now destruct (touching (expire_taps s now)). Qed.

Lemma ffplay_expire_taps_keeps (s : state) (t : Q) :
  continuing s -> continuing (expire_taps s t).
Proof.
  unfold expire_taps, continuing. destruct (Qgtb _ _); trivial.
  cbn [consecutive_taps touching start_time set_consecutive_taps].
  intros [_ H]. split; [lia | exact H].
Qed.

Lemma ffplay_detect_keeps (s : state) (dx dy : Z) (d t : Q) :
  0 <= consecutive_taps s <= 3 -> touching s = false ->
  0 <= consecutive_taps (fst (fst (detect s dx dy d t))) <= 4
  /\ (snd (detect s dx dy d t) = Continue ->
      continuing (fst (fst (detect s dx dy d t)))).
Proof.
  intros Hn Ht. unfold detect, continuing.
  destruct (_ && _ && Qltb d (3 # 10)).
  - cbn [consecutive_taps set_consecutive_taps set_last_tap_time].
    destruct (Z.geb_spec (consecutive_taps s + 1) 4);
      cbn [fst snd consecutive_taps touching start_time
           set_consecutive_taps set_last_tap_time];
      (split; [lia |]); try discriminate.
    intros _. rewrite Ht. split; [lia | discriminate].
  - destruct (Qgtb d 2 && _ && _); cbn [fst snd]; (split; [try lia |]);
      try discriminate;
      cbn [consecutive_taps touching start_time set_consecutive_taps];
      try lia.
    intros _. rewrite Ht. split; [lia | discriminate].
Qed.

(** One iteration from a continuing state returns, and either leaves the
    loop or gives a continuing state. *)
Lemma ffplay_step_keeps (alive : bool) (s : state) (e : TouchHandler.input_event)
    (now : Q) :
  continuing s ->
  exists s' out c,
    step alive s e now = Return (s', out, c)
    /\ 0 <= consecutive_taps s' <= 4
    /\ (c = Continue -> continuing s').
Proof.
  intros Hs. unfold step. destruct alive; cbn [negb].
  2:{ eexists _, _, _. split; [reflexivity |].
      split; [destruct Hs; lia | discriminate]. }
  pose proof (ffplay_expire_taps_keeps s now Hs) as He.
  set (s1 := expire_taps s now) in *. destruct He as [Hn Hst].
  destruct (TouchHandler.ev_type e =? TouchHandler.EV_ABS).
  { repeat match goal with
           | |- context [if ?b then _ else _] => destruct b
           end; eexists _, _, _; (split; [reflexivity |]);
      (split; [cbn; lia |]); intros _; now split. }
  destruct (_ && _).
  2:{ eexists _, _, _. split; [reflexivity |]. split; [lia |].
      intros _; now split. }
  destruct (TouchHandler.ev_value e =? 1).
  { eexists _, _, _. split; [reflexivity |]. split; [cbn; lia |].
    intros _; split; [cbn; lia | discriminate]. }
  destruct (TouchHandler.ev_value e =? 0); cbn [andb].
  2:{ eexists _, _, _. split; [reflexivity |]. split; [lia |].
      intros _; now split. }
  destruct (touching s1) eqn:Ht.
  2:{ eexists _, _, _. split; [reflexivity |]. split; [lia |].
      intros _. split; [exact Hn | rewrite Ht; discriminate]. }
  cbn [start_time start_x last_x set_touching].
  destruct (start_time s1) as [st |] eqn:Est; [| now destruct (Hst eq_refl)].
  destruct (start_x s1) as [sx |], (last_x s1) as [lx |];
    try (eexists _, _, _; (split; [reflexivity |]); (split; [cbn; lia |]);
         intros _; split; [cbn; lia | discriminate]).
  match goal with |- context [detect ?a ?b ?c ?d ?t] =>
    pose proof (ffplay_detect_keeps a b c d t) as Hd;
    destruct (detect a b c d t) as [[s' out] c']
  end.
  cbn [fst snd consecutive_taps touching set_touching] in Hd.
  destruct (Hd Hn eq_refl) as [H1 H2].
  now exists s', out, c'.
Qed.

Lemma ffplay_main_loop_keeps (ticks : list tick) (s : state) :
  continuing s ->
  exists s' out c,
    main_loop s ticks = Return (s', out, c)
    /\ 0 <= consecutive_taps s' <= 4
    /\ (c = Continue -> continuing s').
Proof.
  revert s. induction ticks as [| t rest IH]; intros s Hs; cbn [main_loop].
  - exists s, [], Continue. split; [reflexivity |].
    split; [destruct Hs; lia | trivial].
  - destruct (ffplay_step_keeps (alive t) s (event t) (now t) Hs)
      as (s1 & out1 & c1 & -> & Hn & Hc). cbn [bind].
    destruct c1; [| now exists s1, out1, Break].
    destruct (IH s1 (Hc eq_refl)) as (s2 & out2 & c2 & -> & Hn2 & Hc2).
    cbn [bind]. now exists s2, (out1 ++ out2), c2.
Qed.

(** X4.  The loop of the FFplay wrapper, run from its initial state over
    any events, never raises: every contact that is lifted has its start
    time.  While the loop continues at most three taps are counted. *)
Theorem ffplay_loop_returns (ticks : list tick) :
  exists s' out c,
    main_loop init ticks = Return (s', out, c)
    /\ (c = Continue -> 0 <= consecutive_taps s' <= 3).
Proof.
  assert (H0 : continuing init).
  { unfold continuing, init; cbn. split; [lia | discriminate]. }
  destruct (ffplay_main_loop_keeps ticks init H0) as (s' & out & c & E & _ & Hc).
  exists s', out, c. split; [exact E |].
  intros H. exact (proj1 (Hc H)).
Qed.

(** X5.  In the FFplay wrapper the fourth tap exits: a quick contact in
    place (under 0.3 s, deltas under 30) that ends at most 1 s after the
    third counted tap prints "Tap 4/4" and leaves the loop.  After more
    than 1 s without a tap the count restarts: the same contact is then
    tap 1 and the loop goes on. *)
Theorem ffplay_fourth_tap_exits (s : state) (sx lx : Z) (st now : Q) :
  touching s = true ->
  start_x s = Some sx -> last_x s = Some lx -> start_time s = Some st ->
  Z.abs (lx - sx) < 30 -> delta (last_y s) (start_y s) < 30 ->
  (now - st < 3 # 10)%Q ->
  consecutive_taps s = 3 ->
  ((now - last_tap_time s <= 1)%Q ->
   step true s (TouchHandler.btn_touch 0) now
   = Return (set_last_tap_time
               (set_consecutive_taps (set_touching s false) 4) now,
             ["Tap 4/4"%string; "4 taps detected - Exiting FFplay..."%string],
             Break))
  /\ ((1 < now - last_tap_time s)%Q ->
      step true s (TouchHandler.btn_touch 0) now
      = Return (set_last_tap_time
                  (set_consecutive_taps (set_touching s false) 1) now,
                ["Tap 1/4"%string], Continue)).
Proof.
  intros Ht Hsx Hlx Hst Hdx Hdy Hd Hn.
  rewrite ffplay_finger_up. unfold expire_taps, Qgtb, tap_timeout.
  assert (Ex : (Z.abs (lx - sx) <? 30) = true) by (apply Z.ltb_lt; lia).
  assert (Ey : (delta (last_y s) (start_y s) <? 30) = true)
    by (apply Z.ltb_lt; lia).
  apply Qltb_lt in Hd.
  split; intros Hw.
  - apply Qltb_ge in Hw. rewrite Hw. cbv zeta.
    rewrite Ht, Hst, Hsx, Hlx. unfold detect.
    cbn [delta]. rewrite Ex, Ey, Hd. cbn [andb].
    cbn [consecutive_taps set_consecutive_taps set_last_tap_time
         set_touching]. rewrite Hn. reflexivity.
  - apply Qltb_lt in Hw. rewrite Hw. cbv zeta.
    cbn [touching start_time start_x last_x start_y last_y
         set_consecutive_taps].
    rewrite Ht, Hst, Hsx, Hlx. unfold detect.
    cbn [delta]. rewrite Ex, Ey, Hd. cbn [andb].
    reflexivity.
Qed.

Lemma ffplay_fourth_tap_exits_witness :
  touching (holding 3 (9999 # 10)) = true
  /\ Z.abs (100 - 100) < 30
  /\ ((10001 # 10) - 1000 < 3 # 10)%Q
  /\ ((10001 # 10) - (9999 # 10) <= 1)%Q
  /\ step true (holding 3 (9999 # 10)) (TouchHandler.btn_touch 0)
       (10001 # 10)
     = Return (set_last_tap_time
                 (set_consecutive_taps
                    (set_touching (holding 3 (9999 # 10)) false) 4)
                 (10001 # 10),
               ["Tap 4/4"%string;
                "4 taps detected - Exiting FFplay..."%string], Break).
Proof.
  assert (Hx : Z.abs (100 - 100) < 30) by (simpl; lia).
  assert (Hd : ((10001 # 10) - 1000 < 3 # 10)%Q) by by_computation.
  assert (Hw : ((10001 # 10) - (9999 # 10) <= 1)%Q) by by_computation.
  split; [reflexivity |]. split; [exact Hx |]. split; [exact Hd |].
  split; [exact Hw |].
  exact (proj1 (ffplay_fourth_tap_exits (holding 3 (9999 # 10)) 100 100
                  1000 (10001 # 10) eq_refl eq_refl eq_refl eq_refl
                  Hx Hx Hd eq_refl) Hw).
Defined.

(** X6.  In the FFplay wrapper a contact held for more than 2.0 s with
    deltas under 20 leaves the loop as a long press, whatever the tap
    count; a Y position that was never reported counts as no vertical
    movement (no error is raised, unlike in the UXPlay wrapper). *)
Theorem ffplay_long_press_exits (s : state) (sx lx : Z) (st now : Q) :
  touching s = true ->
  start_x s = Some sx -> last_x s = Some lx -> start_time s = Some st ->
  Z.abs (lx - sx) < 20 ->
  (last_y s = None \/ start_y s = None
   \/ delta (last_y s) (start_y s) < 20) ->
  (2 < now - st)%Q ->
  step true s (TouchHandler.btn_touch 0) now
  = Return (set_touching (expire_taps s now) false,
            ["Long press detected - Exiting FFplay..."%string], Break).
Proof.
  intros Ht Hsx Hlx Hst Hdx Hy Hd.
  assert (Hdy : delta (last_y s) (start_y s) < 20).
  { destruct Hy as [-> | [-> | H]]; trivial; cbn [delta]; try lia.
    destruct (last_y s); cbn; lia. }
  rewrite ffplay_finger_up. cbv zeta.
  assert (Hkeep : forall t,
            touching (expire_taps s t) = touching s
            /\ start_time (expire_taps s t) = start_time s
            /\ start_x (expire_taps s t) = start_x s
            /\ last_x (expire_taps s t) = last_x s
            /\ start_y (expire_taps s t) = start_y s
            /\ last_y (expire_taps s t) = last_y s).
  { intros t. unfold expire_taps. now destruct (Qgtb _ _). }
  destruct (Hkeep now) as (E1 & E2 & E3 & E4 & E5 & E6).
  rewrite E1, E2, E3, E4, E5, E6, Ht, Hst, Hsx, Hlx. unfold detect.
  cbn [delta].
  assert (E3' : Qltb (now - st) (3 # 10) = false).
  { apply Qltb_ge. lra. }
  assert (E2' : Qgtb (now - st) 2 = true) by (now apply Qltb_lt).
  assert (Ex : (Z.abs (lx - sx) <? 20) = true) by (apply Z.ltb_lt; lia).
  assert (Ey : (delta (last_y s) (start_y s) <? 20) = true)
    by (apply Z.ltb_lt; lia).
  rewrite E3', E2', Ex, Ey, !andb_false_r. reflexivity.
Qed.

Lemma ffplay_long_press_exits_witness :
  touching (holding 2 (9999 # 10)) = true
  /\ Z.abs (100 - 100) < 20 /\ (2 < 1003 - 1000)%Q
  /\ step true (set_last_y (holding 2 (9999 # 10)) None)
       (TouchHandler.btn_touch 0) 1003
     = Return (set_touching
                 (expire_taps (set_last_y (holding 2 (9999 # 10)) None) 1003)
                 false,
               ["Long press detected - Exiting FFplay..."%string], Break).
Proof.
  assert (Hx : Z.abs (100 - 100) < 20) by (simpl; lia).
  assert (Hd : (2 < 1003 - 1000)%Q) by by_computation.
  split; [reflexivity |]. split; [exact Hx |]. split; [exact Hd |].
  exact (ffplay_long_press_exits (set_last_y (holding 2 (9999 # 10)) None)
           100 100 1000 1003 eq_refl eq_refl eq_refl eq_refl Hx
           (or_introl eq_refl) Hd).
Defined.

End FfplayWrapperFacts.

Module MpvWrapperFacts.
Import Py PyFacts PyMoreFacts MpvWrapper.


Lemma mpv_send_commands (cmd cmd' : list json) (sent : bool)
    (rest : list output) :
  (forall c, In (Send c) rest -> c = cmd) ->
  In (Send cmd') (mpv_send cmd sent ++ rest) -> cmd' = cmd.
Proof.
  intros Hrest. unfold mpv_send. rewrite in_app_iff.
  destruct sent; cbn [In]; intros [[H | H] | H];
    try (now injection H); try contradiction; try (now apply Hrest);
    destruct H as [H | H]; try discriminate; contradiction.
Qed.

Lemma prints_no_command (cmd : list json) (m : string) :
  forall c, In (Send c) [Print m] -> c = cmd.
Proof. intros c [H | []]. discriminate. Qed.

Lemma mpv_volume_cases (s : state) (dy : Z) (t : Q) (sent : bool) :
  snd (volume s dy t sent) = Continue
  /\ forall cmd, In (Send cmd) (snd (fst (volume s dy t sent))) ->
       cmd = [JStr "add"; JStr "volume"; JInt 5]
       \/ cmd = [JStr "add"; JStr "volume"; JInt (-5)].
Proof.
  unfold volume. destruct (Qltb _ _); [now split |].
  destruct (Z.abs dy <? 20); [now split |].
  cbv zeta.
  destruct sent; (destruct (dy <? _); [| destruct (dy >? _)]);
    cbn [fst snd]; (split; [reflexivity |]); intros cmd Hin;
    try contradiction;
    ((left; revert Hin; apply mpv_send_commands, prints_no_command)
     || (right; revert Hin; apply mpv_send_commands, prints_no_command)).
Qed.

Lemma mpv_detect_cases (width : Z) (s : state) (dx dy : Z) (d t : Q)
    (sent : bool) (s' : state) (out : list output) (c : control) :
  detect width s dx dy d t sent = Return (s', out, c) ->
  (forall cmd, In (Send cmd) out -> known_command cmd)
  /\ (c = Break <-> In (Send [JStr "quit"]) out).
Proof.
  unfold detect, known_command.
  destruct (_ && _ && Qltb d (3 # 10)).
  { intros [= <- <- <-]. split.
    - intros cmd Hin. left. rewrite <- (app_nil_r (mpv_send _ _)) in Hin.
      revert Hin. apply mpv_send_commands. intros ? [].
    - split; [discriminate |]. intros Hin.
      rewrite <- (app_nil_r (mpv_send _ _)) in Hin.
      apply mpv_send_commands in Hin; [discriminate | intros ? []]. }
  destruct (Qgtb d 1 && _ && _).
  { intros [= <- <- <-]. split.
    - intros cmd Hin. right; left.
      rewrite <- (app_nil_r (mpv_send _ _)) in Hin.
      revert Hin. apply mpv_send_commands. intros ? [].
    - split; [| reflexivity]. intros _. unfold mpv_send.
      destruct sent; now left. }
  destruct (Z.abs dx >? Z.abs dy).
  { destruct (truediv dx width) as [q |]; cbn [bind]; [| discriminate].
    destruct (Z.eqb_spec (int (q * 120)) 0) as [E0 | Hne]; cbn [negb];
      intros [= <- <- <-].
    - split; [intros ? [] |]. split; [discriminate | intros []].
    - split.
      + intros cmd Hin. right; right; left. exists (int (q * 120)).
        split; [exact Hne |].
        rewrite <- (app_nil_r (mpv_send _ _)) in Hin.
        revert Hin. apply mpv_send_commands. intros ? [].
      + split; [discriminate |]. intros Hin.
        rewrite <- (app_nil_r (mpv_send _ _)) in Hin.
        apply mpv_send_commands in Hin; [discriminate | intros ? []]. }
  intros [= E]. destruct (mpv_volume_cases s dy t sent) as [Hc Hv].
  rewrite E in Hc, Hv. cbn [fst snd] in Hc, Hv. split.
  - intros cmd Hin. destruct (Hv cmd Hin) as [-> | ->]; tauto.
  - rewrite Hc. split; [discriminate |]. intros Hin.
    destruct (Hv _ Hin); discriminate.
Qed.

(** X7.  Whatever the state, the event, the clock and the display width,
    an iteration of the mpv wrapper's loop that returns hands to
    [mpv_send] only commands of four kinds: cycle pause, quit, a relative
    seek by a non-zero amount, and a volume change of exactly +5 or -5.
    It leaves the loop exactly when it has sent quit. *)
Theorem mpv_commands (width : Z) (s : state) (e : TouchHandler.input_event)
    (t1 t2 : Q) (sent : bool) (s' : state) (out : list output)
    (c : control) :
  step width s e t1 t2 sent = Return (s', out, c) ->
  (forall cmd, In (Send cmd) out -> known_command cmd)
  /\ (c = Break <-> In (Send [JStr "quit"]) out).
Proof.
  unfold step.
  assert (Hidle : forall s0 : state,
            Return (s0, @nil output, Continue) = Return (s', out, c) ->
            (forall cmd, In (Send cmd) out -> known_command cmd)
            /\ (c = Break <-> In (Send [JStr "quit"]) out)).
  { intros s0 [= <- <- <-]. split; [intros ? [] |].
    split; [discriminate | intros []]. }
  destruct (TouchHandler.ev_type e =? TouchHandler.EV_ABS).
  { repeat match goal with
           | |- context [if ?b then _ else _] => destruct b
           end; apply Hidle. }
  destruct (_ && _); [| apply Hidle].
  destruct (TouchHandler.ev_value e =? 1); [apply Hidle |].
  destruct ((TouchHandler.ev_value e =? 0) && touching s); [| apply Hidle].
  cbn [start_time start_x start_y last_x last_y set_touching].
  destruct (start_time s) as [st |]; [| discriminate].
  destruct (start_x s) as [sx |], (last_x s) as [lx |]; try apply Hidle.
  destruct (last_y s) as [ly |], (start_y s) as [sy |]; try discriminate.
  apply mpv_detect_cases.
Qed.

Lemma mpv_commands_witness :
  step 800 (dragging 100 100 0) (TouchHandler.btn_touch 0) 1002 1002 true
  = Return (set_touching (dragging 100 100 0) false,
            [Send [JStr "quit"]], Break)
  /\ (Break = Break <-> In (Send [JStr "quit"]) [Send [JStr "quit"]]).
Proof.
  assert (E : step 800 (dragging 100 100 0) (TouchHandler.btn_touch 0)
                1002 1002 true
              = Return (set_touching (dragging 100 100 0) false,
                        [Send [JStr "quit"]], Break)) by reflexivity.
  split; [exact E |].
  exact (proj2 (mpv_commands _ _ _ _ _ _ _ _ _ E)).
Defined.





End MpvWrapperFacts.

(** ** More about the gesture classifier *)

Module TouchHandlerMoreFacts.
Import Py PyFacts TouchHandler TouchHandlerFacts.

Lemma classify_tap_count (s : state) (px py sx sy : Z) (st t1 t2 : Q) :
  0 <= tap_count s <= 1 ->
  0 <= tap_count (fst (classify s px py sx sy st t1 t2)) <= 1.
Proof.
  intros H. unfold classify.
  destruct (Qltb (t1 - st) (2 # 10)); [| exact H].
  destruct (Qltb (t2 - last_tap_time s) (5 # 10)).
  - cbn [tap_count set_tap_count].
    destruct (Z.geb_spec (tap_count s + 1) 2);
      destruct (moved_far _ _); cbn; lia.
  - destruct (moved_far _ _); cbn; lia.
Qed.

Lemma handle_event_tap_count (s : state) (e : input_event) (t1 t2 : Q) :
  0 <= tap_count s <= 1 ->
  0 <= tap_count (fst (handle_event s e t1 t2)) <= 1.
Proof.
  intros H. unfold handle_event.
  cbn [x y touching touch_callback swipe_start set_touching set_swipe_start].
  destruct (touch_callback s), (touching s),
    (x s) as [qx |], (y s) as [qy |];
    repeat match goal with
           | |- context [if ?b then _ else _] => destruct b
           end;
    cbn [fst tap_count set_x set_y set_touching set_swipe_start
         set_current_touch]; trivial;
    (destruct (swipe_start s) as [[[sx sy] st] |];
     [| cbn [fst tap_count set_touching set_swipe_start]; exact H]);
    pose proof (classify_tap_count (set_touching s false) qx qy sx sy st
                  t1 t2 H) as Hc;
    destruct (classify _ _ _ _ _ _ _ _) as [s' out];
    exact Hc.
Qed.

(** X10.  Whatever events and clock readings the loop of [TouchHandler]
    meets from its initial state, its tap counter is 0 or 1 afterwards:
    the second tap of a double tap resets it, so taps never accumulate. *)
Theorem tap_count_stays_small (evs : list timed_event) :
  0 <= tap_count (fst (_touch_loop init evs)) <= 1.
Proof.
  assert (H : forall s, 0 <= tap_count s <= 1 ->
                        0 <= tap_count (fst (_touch_loop s evs)) <= 1).
  { induction evs as [| te rest IH]; intros s Hs; cbn [_touch_loop];
      [exact Hs |].
    destruct (running s); [| exact Hs].
    pose proof (handle_event_tap_count s (ev te) (clock1 te) (clock2 te) Hs)
      as H1.
    destruct (handle_event _ _ _ _) as [s1 out].
    specialize (IH s1 H1).
    destruct (_touch_loop s1 rest) as [s2 outs]. exact IH. }
  apply H. cbn. lia.
Qed.

Lemma swipe_gesture_direction (dx dy : Z) :
  moved_far dx dy = true ->
  (swipe_gesture dx dy = "swipe_right"%string -> Z.abs dy < Z.abs dx /\ 0 < dx)
  /\ (swipe_gesture dx dy = "swipe_left"%string -> Z.abs dy < Z.abs dx /\ dx < 0)
  /\ (swipe_gesture dx dy = "swipe_down"%string -> Z.abs dx <= Z.abs dy /\ 0 < dy)
  /\ (swipe_gesture dx dy = "swipe_up"%string -> Z.abs dx <= Z.abs dy /\ dy < 0).
Proof.
  intros Hfar. apply moved_far_iff in Hfar. unfold swipe_gesture.
  rewrite !Z.gtb_ltb.
  destruct (Z.ltb_spec (Z.abs dy) (Z.abs dx));
    [destruct (Z.ltb_spec 0 dx) | destruct (Z.ltb_spec 0 dy)];
    repeat split; try discriminate; lia.
Qed.

Lemma classify_swipe (s : state) (px py sx sy : Z) (st t1 t2 : Q)
    (g : string) (qx qy : Z) :
  In (g, qx, qy) (snd (classify s px py sx sy st t1 t2)) ->
  g <> "release"%string -> g <> "tap"%string -> g <> "double_tap"%string ->
  qx = px /\ qy = py /\ (t1 - st < 2 # 10)%Q
  /\ moved_far (px - sx) (py - sy) = true
  /\ g = swipe_gesture (px - sx) (py - sy).
Proof.
  unfold classify. intros Hin Hr Ht Hd.
  destruct (Qltb_cases (t1 - st) (2 # 10)) as [[E Hq] | [E Hq]];
    rewrite E in Hin.
  2:{ destruct Hin as [[= <- <- <-] | []]. now destruct Hr. }
  assert (Hlast : In (g, qx, qy)
                    [(if moved_far (px - sx) (py - sy)
                      then swipe_gesture (px - sx) (py - sy)
                      else "tap"%string, px, py)]).
  { destruct (Qltb (t2 - last_tap_time s) (5 # 10));
      [destruct (tap_count (set_tap_count s (tap_count s + 1)) >=? 2) |];
      destruct (moved_far _ _); cbn [snd app In] in Hin |- *;
      repeat (destruct Hin as [Hin | Hin]; try contradiction);
      try (injection Hin as <- <- <-); try (now destruct Hd);
      try (now destruct Ht); now left. }
  destruct Hlast as [Hlast | []].
  destruct (moved_far (px - sx) (py - sy)); injection Hlast as <- <- <-.
  - now repeat split.
  - now destruct Ht.
Qed.

(** X11.  Every swipe the classifier emits follows the movement of the
    contact: it comes from a contact shorter than 0.2 s that moved by more
    than 80 horizontally or 48 vertically since its start, is reported at
    the last position, and its direction is that of the larger delta
    (horizontal only when |dx| > |dy|), right or down for a positive
    delta, left or up for a negative one. *)
Theorem swipe_follows_movement (s : state) (e : input_event) (t1 t2 : Q)
    (g : string) (px py : Z) :
  In (g, px, py) (snd (handle_event s e t1 t2)) ->
  In g ["swipe_left"; "swipe_right"; "swipe_up"; "swipe_down"]%string ->
  exists sx sy st,
    swipe_start s = Some (sx, sy, st)
    /\ x s = Some px /\ y s = Some py
    /\ (t1 - st < 2 # 10)%Q
    /\ (80 < Z.abs (px - sx) \/ 48 < Z.abs (py - sy))
    /\ (g = "swipe_right"%string ->
        Z.abs (py - sy) < Z.abs (px - sx) /\ sx < px)
    /\ (g = "swipe_left"%string ->
        Z.abs (py - sy) < Z.abs (px - sx) /\ px < sx)
    /\ (g = "swipe_down"%string ->
        Z.abs (px - sx) <= Z.abs (py - sy) /\ sy < py)
    /\ (g = "swipe_up"%string ->
        Z.abs (px - sx) <= Z.abs (py - sy) /\ py < sy).
Proof.
  intros Hin Hg.
  assert (Hr : g <> "release"%string /\ g <> "tap"%string
               /\ g <> "double_tap"%string /\ g <> "press"%string).
  { cbn [In] in Hg. repeat (destruct Hg as [<- | Hg]; [easy |]).
    contradiction. }
  destruct Hr as (Hr & Ht & Hd & Hp).
  revert Hin. unfold handle_event.
  cbn [x y touching touch_callback swipe_start set_touching set_swipe_start].
  destruct (touch_callback s), (touching s),
    (x s) as [qx |], (y s) as [qy |];
    repeat match goal with
           | |- context [if ?b then _ else _] => destruct b
           end;
    cbn [snd In]; try contradiction;
    try (intros [[= <- <- <-] | []]; exfalso; (now apply Hp) || (now apply Hr));
    (destruct (swipe_start s) as [[[sx sy] st] |]; cbn [snd In];
     [| contradiction]);
    (destruct (classify _ _ _ _ _ _ _ _) as [s' out] eqn:E; cbn [snd];
     intros Hin;
     assert (Hc : In (g, px, py)
                    (snd (classify (set_touching s false) qx qy sx sy st
                            t1 t2))) by (now rewrite E);
     destruct (classify_swipe _ _ _ _ _ _ _ _ _ _ _ Hc Hr Ht Hd)
       as (-> & -> & Hq & Hfar & Hdir);
     destruct (swipe_gesture_direction _ _ Hfar) as (H1 & H2 & H3 & H4);
     exists sx, sy, st;
     (split; [reflexivity |]); (split; [reflexivity |]);
     (split; [reflexivity |]); (split; [exact Hq |]);
     (split; [now apply moved_far_iff |]);
     rewrite Hdir;
     (split; [intros H; specialize (H1 H); lia |]);
     (split; [intros H; specialize (H2 H); lia |]);
     (split; [intros H; specialize (H3 H); lia |]);
     intros H; specialize (H4 H); lia).
Qed.

Lemma swipe_follows_movement_witness :
  In ("swipe_right"%string, 300, 100)
     (snd (handle_event (set_x (in_contact 0 0) (Some 300)) (tracking (-1))
             (10001 # 10) (10001 # 10)))
  /\ exists sx sy st,
       swipe_start (set_x (in_contact 0 0) (Some 300)) = Some (sx, sy, st)
       /\ sx < 300.
Proof.
  assert (Hin : In ("swipe_right"%string, 300, 100)
                  (snd (handle_event (set_x (in_contact 0 0) (Some 300))
                          (tracking (-1)) (10001 # 10) (10001 # 10))))
    by (vm_compute; now left).
  split; [exact Hin |].
  destruct (swipe_follows_movement _ _ _ _ _ _ _ Hin
              (or_intror (or_introl eq_refl)))
    as (sx & sy & st & E & _ & _ & _ & _ & Hright & _).
  exists sx, sy, st. split; [exact E |].
  exact (proj2 (Hright eq_refl)).
Defined.

End TouchHandlerMoreFacts.

(** ** The application and its screens *)

Module ApplicationFacts.
Import Application.


Lemma truthy_known (a : app) (c : string) :
  known a EmptyString = false -> known a c = true ->
  truthy (Some c) = Some c.
Proof.
  intros He Hc. destruct c; [| reflexivity]. congruence.
Qed.





(** X13.  A switch to a name that is not in the registry, from a settled
    application: the outgoing screen is exited all the same, the unknown
    name becomes the current screen and [KeyError] is raised; from then on
    every switch and every touch raises that [KeyError] again and calls
    nothing. *)
Theorem unknown_screen_sticks (a : app) (name : string) :
  known a name = false -> name <> EmptyString ->
  known a EmptyString = false ->
  (forall c, current_screen a = Some c -> known a c = true) ->
  let r := switch_screen a name in
  snd r = KeyError name
  /\ snd (fst r) = match current_screen a with
                   | Some c => [Exit c]
                   | None => []
                   end
  /\ current_screen (fst (fst r)) = Some name
  /\ forall req, serve (fst (fst r)) req = (fst (fst r), [], KeyError name).
Proof.
  intros Hn Hne He Hc r. subst r. unfold switch_screen.
  assert (Ht : truthy (Some name) = Some name) by (now destruct name).
  assert (Hstuck : forall req,
            serve (set_current_screen a (Some name)) req
            = (set_current_screen a (Some name), [], KeyError name)).
  { intros [n | e tx ty]; cbn [serve]; unfold switch_screen, _handle_touch;
      cbn [current_screen set_current_screen]; rewrite Ht;
      unfold known in *; cbn [screens set_current_screen];
      now rewrite Hn. }
  destruct (current_screen a) as [c |] eqn:Ec.
  - rewrite (truthy_known a c He (Hc c eq_refl)), (Hc c eq_refl).
    unfold known in *. cbn [screens set_current_screen]. rewrite Hn.
    cbn [fst snd]. now repeat split.
  - cbn [truthy]. unfold known in *. cbn [screens set_current_screen].
    rewrite Hn. cbn [fst snd]. now repeat split.
Qed.

Lemma unknown_screen_sticks_witness :
  known init "nowhere" = false
  /\ snd (switch_screen (fst (fst (switch_screen init "main"))) "nowhere")
     = KeyError "nowhere"
  /\ snd (fst (switch_screen (fst (fst (switch_screen init "main")))
                 "nowhere"))
     = [Exit "main"%string].
Proof.
  split; [reflexivity |].
  assert (Hne : "nowhere"%string <> EmptyString) by discriminate.
  assert (Hc : forall c,
            current_screen (fst (fst (switch_screen init "main"))) = Some c ->
            known (fst (fst (switch_screen init "main"))) c = true)
    by (intros c [= <-]; reflexivity).
  destruct (unknown_screen_sticks (fst (fst (switch_screen init "main")))
              "nowhere"%string eq_refl Hne eq_refl Hc) as (H1 & H2 & _).
  split; [exact H1 | exact H2].
Defined.

End ApplicationFacts.

(** ** More about widgets *)

Module WidgetsMoreFacts.
Import Py PyFacts PyMoreFacts Widgets WidgetsMore.


(** *** Buttons *)

Lemma Button_touch_count (b : Button) (e : string) (tx ty : Z) :
  (length (snd (fst (Button_handle_touch b e tx ty)))
   + (if b_pressed (fst (fst (Button_handle_touch b e tx ty)))
      then 1 else 0)
   <= (if is_press e then 1 else 0) + (if b_pressed b then 1 else 0))%nat.
Proof.
  unfold Button_handle_touch, fire.
  destruct (is_press e); [cbn; lia |].
  destruct (is_release_or_tap e); cbn [fst snd b_pressed Button_set_pressed].
  - destruct (b_pressed b), (b_callback b); cbn; lia.
  - cbn. lia.
Qed.

(** X15.  A button calls its callback at most once per press: over any
    run of gestures on a button that starts unpressed, the number of
    callback calls is at most the number of press gestures in the run.
    In particular a run without a press (taps and releases only) calls
    nothing. *)
Theorem button_fires_after_press (events : list (string * Z * Z))
    (b : Button) :
  b_pressed b = false ->
  (length (snd (Button_touches b events)) <= presses events)%nat
  /\ (presses events = 0%nat -> snd (Button_touches b events) = []).
Proof.
  intros Hb.
  assert (H : forall evs b0,
            (length (snd (Button_touches b0 evs))
             <= presses evs + (if b_pressed b0 then 1 else 0))%nat).
  { induction evs as [| [[e tx] ty] rest IH]; intros b0;
      cbn [Button_touches]; [cbn; lia |].
    pose proof (Button_touch_count b0 e tx ty) as H1.
    destruct (Button_handle_touch b0 e tx ty) as [[b1 calls] r].
    specialize (IH b1).
    destruct (Button_touches b1 rest) as [b2 calls2].
    cbn [fst snd] in *. rewrite length_app. unfold presses in *.
    cbn [List.filter fst]. destruct (is_press e); cbn [length] in *; lia. }
  specialize (H events b). rewrite Hb in H.
  split; [lia |].
  intros H0. rewrite H0 in H. destruct (snd (Button_touches b events));
    [reflexivity | cbn in H; lia].
Qed.

Lemma button_fires_after_press_witness :
  b_pressed (Button_init 10 5 ["O"; "K"]%string (Some "ok"%string) "single")
  = false
  /\ snd (Button_touches
            (Button_init 10 5 ["O"; "K"]%string (Some "ok"%string) "single")
            [("tap"%string, 100, 100); ("release"%string, 100, 100)])
     = [].
Proof.
  split; [reflexivity |].
  exact (proj2 (button_fires_after_press
                  [("tap"%string, 100, 100); ("release"%string, 100, 100)]
                  (Button_init 10 5 ["O"; "K"]%string (Some "ok"%string)
                     "single") eq_refl) eq_refl).
Defined.

(** *** Sliders *)





(** What [_update_value] computes when the track has a width. *)
Lemma update_value_returns (s : Slider) (cols rows : Z) (touch_x : Z) :
  3 < width (sl_base s) ->
  exists n,
    n == Qmax 0 (Qmin 1 (inject_Z (to_term touch_x cols 800
                                     - x (sl_base s) - 1)
                           / inject_Z (width (sl_base s) - 3)))
    /\ _update_value s (cols, rows) touch_x
       = (set_value s (int (inject_Z (min_val s)
                            + n * inject_Z (max_val s - min_val s))),
          notify (sl_callback s)
            (int (inject_Z (min_val s)
                  + n * inject_Z (max_val s - min_val s))),
          Return tt).
Proof.
  intros Hw. unfold _update_value, truediv.
  destruct (Z.eqb_spec (width (sl_base s) - 3) 0) as [E | _]; [lia |].
  eexists. split; [reflexivity |]. reflexivity.
Qed.



Lemma brightness_range (v : Z) :
  0 <= v <= 100 -> 0 <= brightness v <= 255.
Proof.
  intros H. unfold brightness. rewrite int_div by lia. split.
  - apply Z.quot_pos; lia.
  - apply Z.quot_le_upper_bound; lia.
Qed.

(** X17.  The brightness written by the settings screen: for a slider
    from 0 to 100 (width above 3), every callback call made by
    [handle_touch] carries the slider's new value, which lies between 0
    and 100, and [update_brightness] turns it into a brightness between 0
    and 255; the ends 0 and 100 give 0 and 255. *)
Theorem settings_brightness (s : Slider) (term : term_size)
    (event_type : string) (tx ty : Z) (f : callback) (a : arg) :
  min_val s = 0 -> max_val s = 100 -> 3 < width (sl_base s) ->
  In (f, a) (snd (fst (Slider_handle_touch s term event_type tx ty))) ->
  (exists v,
     a = IntArg v
     /\ v = value (fst (fst (Slider_handle_touch s term event_type tx ty)))
     /\ 0 <= v <= 100 /\ 0 <= brightness v <= 255)
  /\ brightness 0 = 0 /\ brightness 100 = 255.
Proof.
  intros Hmin Hmax Hw Hin. split; [| split; by_computation].
  revert Hin. unfold Slider_handle_touch.
  destruct (is_press_or_tap event_type).
  2:{ destruct (is_release event_type); intros []. }
  destruct term as [cols rows].
  destruct (update_value_returns (set_sl_dragging s true) cols rows tx Hw)
    as (n & Hn & ->).
  cbn [fst snd value set_value sl_callback set_sl_dragging min_val max_val].
  rewrite Hmin, Hmax.
  set (v := int (inject_Z 0 + n * inject_Z (100 - 0))).
  assert (Hv : 0 <= v <= 100).
  { destruct (clamp_unit (inject_Z (to_term tx cols 800
                                     - x (sl_base (set_sl_dragging s true))
                                     - 1)
                          / inject_Z (width (sl_base
                                               (set_sl_dragging s true))
                                      - 3))) as [H0 H1].
    rewrite <- Hn in H0, H1. subst v. apply int_between.
    - change (inject_Z 0) with 0%Q. change (inject_Z (100 - 0)) with 100%Q in *.
      lra.
    - change (inject_Z 0) with 0%Q. change (inject_Z (100 - 0)) with 100%Q.
      change (inject_Z 100) with 100%Q. lra. }
  unfold notify. destruct (sl_callback s) as [cb |]; [| intros []].
  intros [[= <- <-] | []]. exists v.
  split; [reflexivity |]. split; [reflexivity |].
  split; [exact Hv | now apply brightness_range].
Qed.

Lemma settings_brightness_witness :
  3 < 40
  /\ In ("update_brightness"%string, IntArg 54)
       (snd (fst (Slider_handle_touch (brightness_slider 80) (80, 24)
                    "press" 410 200)))
  /\ exists v, IntArg 54 = IntArg v /\ 0 <= brightness v <= 255.
Proof.
  assert (Hw : 3 < 40) by lia.
  assert (Hin : In ("update_brightness"%string, IntArg 54)
                  (snd (fst (Slider_handle_touch (brightness_slider 80)
                               (80, 24) "press" 410 200))))
    by (vm_compute; now left).
  split; [exact Hw |]. split; [exact Hin |].
  destruct (settings_brightness (brightness_slider 80) (80, 24)
              "press"%string 410 200 _ _ eq_refl eq_refl Hw Hin)
    as [(v & Ea & _ & _ & Hb) _].
  now exists v.
Defined.

(** *** Scrollbars *)




(** *** Errors of the dispatch *)

Lemma handle_touch_sound (w : widget) (term : term_size) (e : string)
    (tx ty : Z) :
  sound w ->
  exists w' calls b,
    handle_touch w term e tx ty = (w', calls, Return b) /\ sound w'.
Proof.
  intros Hs. destruct w as [w | b | v | m | s | s]; cbn [handle_touch].
  - now eexists _, _, _.
  - destruct (Button_handle_touch b e tx ty) as [[b' calls] r].
    now eexists _, _, _.
  - destruct (VideoButton_handle_touch v e tx ty) as [[v' calls] r].
    now eexists _, _, _.
  - destruct (MainMenuButton_handle_touch m e tx ty) as [[m' calls] r].
    now eexists _, _, _.
  - cbn [sound] in Hs. unfold ScrollBar_handle_touch.
    destruct (is_press_or_tap e).
    + unfold _update_position, truediv. destruct term as [cols rows].
      cbn [s_base set_s_dragging].
      destruct (Z.eqb_spec (height (s_base s)) 0) as [E | _];
        [contradiction |].
      now eexists _, _, _.
    + destruct (is_release e); now eexists _, _, _.
  - cbn [sound] in Hs. unfold Slider_handle_touch.
    destruct (is_press_or_tap e).
    + unfold _update_value, truediv. destruct term as [cols rows].
      cbn [sl_base set_sl_dragging].
      destruct (Z.eqb_spec (width (sl_base s) - 3) 0) as [E | _];
        [contradiction |].
      now eexists _, _, _.
    + destruct (is_release e); now eexists _, _, _.
Qed.

Lemma visit_sound (term : term_size) (e : string) (tx ty : Z) (k : nat)
    (widgets : list widget) :
  (k <= length widgets)%nat -> Forall sound widgets ->
  exists widgets' actions b,
    visit k widgets term e tx ty = (widgets', actions, Return b)
    /\ Forall sound widgets' /\ length widgets' = length widgets.
Proof.
  revert widgets. induction k as [| i IH]; intros widgets Hk Hs;
    cbn [visit]; [now eexists _, _, _ |].
  destruct (lookup_lt_is_Some_2 widgets i ltac:(lia)) as [w Hw].
  rewrite Hw. pose proof (Forall_lookup_1 _ _ _ _ Hs Hw) as Hsw.
  destruct (contains_point (base w) term tx ty).
  - destruct (handle_touch_sound w term e tx ty Hsw)
      as (w' & calls & b & -> & Hsw').
    assert (Hs' : Forall sound (<[i := w']> widgets))
      by (now apply Forall_insert).
    assert (Hl : length (<[i := w']> widgets) = length widgets)
      by apply length_insert.
    destruct b; [now eexists _, _, _ |].
    destruct (IH (<[i := w']> widgets) ltac:(lia) Hs')
      as (ws & acts & b & -> & H1 & H2).
    eexists _, _, _. split; [reflexivity |]. split; [exact H1 | lia].
  - destruct (IH widgets ltac:(lia) Hs) as (ws & acts & b & -> & H1 & H2).
    now eexists _, _, _.
Qed.





End WidgetsMoreFacts.

(** ** The testing screen *)

Module TestingScreenFacts.
Import Py Widgets WidgetsMore TestingScreen.

Lemma deque_append_last (d : list string) (x : string) :
  (length d <= maxlen)%nat ->
  deque_append d x = drop (length (d ++ [x]) - maxlen) (d ++ [x])
  /\ (length (deque_append d x) <= maxlen)%nat.
Proof.
  intros H. unfold deque_append. rewrite length_app. cbn [length].
  destruct (Nat.ltb_spec (length d) maxlen) as [Hlt | Hge].
  - replace (length d + 1 - maxlen)%nat with 0%nat by lia.
    cbn [drop]. split; [reflexivity |]. rewrite length_app. cbn [length]. lia.
  - replace (length d + 1 - maxlen)%nat with 1%nat by lia.
    assert (Hd : d <> []) by (destruct d; [cbn in Hge; unfold maxlen in Hge; lia | discriminate]).
    destruct d as [| y d]; [contradiction |]. cbn [drop app length] in *.
    rewrite drop_0. split; [reflexivity |].
    rewrite length_app. cbn [length]. lia.
Qed.

Lemma history_invariant (term : term_size)
    (events : list (string * Z * Z)) (s : screen) :
  Forall sound (widgets s) ->
  (length (touch_history s) <= maxlen)%nat ->
  let all :=
    touch_history s
      ++ map (fun e => describe (fst (fst e)) (snd (fst e)) (snd e)) events in
  touch_history (handle_touches s term events)
  = drop (length all - maxlen) all
  /\ (events <> [] ->
      last_touch (handle_touches s term events) = last events).
Proof.
  revert s. induction events as [| [[e tx] ty] rest IH]; intros s Hs Hl all;
    subst all.
  - cbn [handle_touches map]. rewrite app_nil_r.
    replace (length (touch_history s) - maxlen)%nat with 0%nat by lia.
    split; [reflexivity | congruence].
  - cbn [handle_touches map fst snd]. unfold handle_touch.
    unfold Screen_handle_touch.
    destruct (WidgetsMoreFacts.visit_sound term e tx ty
                (length (widgets s)) (widgets s) (le_n _) Hs)
      as (ws & acts & b & -> & Hs' & _).
    destruct (deque_append_last (touch_history s) (describe e tx ty) Hl)
      as [Eh Hl'].
    match goal with |- context [handle_touches ?s1 term rest] =>
      specialize (IH s1 Hs' Hl'); cbv zeta in IH;
      cbn [touch_history last_touch widgets] in IH;
      destruct IH as [IH1 IH2]
    end.
    split.
    + rewrite IH1, Eh.
      set (x := describe e tx ty) in *.
      set (h := touch_history s) in *.
      set (r := map _ rest) in *.
      replace (h ++ x :: r) with ((h ++ [x]) ++ r)
        by (now rewrite <- app_assoc).
      set (L0 := h ++ [x]) in *.
      rewrite <- (drop_app_le L0 r (length L0 - maxlen)) by lia.
      rewrite drop_drop. f_equal.
      rewrite length_drop, (length_app L0 r). lia.
    + intros _. destruct rest as [| e2 rest'].
      * reflexivity.
      * rewrite IH2 by discriminate. reflexivity.
Qed.

(** X21.  The testing screen keeps the last five touches: after any run
    of gestures, [touch_history] holds the descriptions
    ["event: (x, y)"] of the last five gestures of the run (all of them
    when there were fewer), oldest first, and [last_touch] is the last
    gesture. *)
Theorem history_keeps_last_five (term_width term_height : Z)
    (term : term_size) (events : list (string * Z * Z)) :
  let s := handle_touches (init term_width term_height) term events in
  let all :=
    map (fun e => describe (fst (fst e)) (snd (fst e)) (snd e)) events in
  touch_history s = drop (length events - 5) all
  /\ (length (touch_history s) <= 5)%nat
  /\ (events <> [] -> last_touch s = last events).
Proof.
  intros s all. subst s all.
  assert (Hs : Forall sound (widgets (init term_width term_height)))
    by (repeat constructor).
  destruct (history_invariant term events (init term_width term_height) Hs
              ltac:(cbn; lia)) as [H1 H2].
  cbn [touch_history init app] in H1. rewrite length_map in H1.
  change maxlen with 5%nat in H1.
  split; [exact H1 |]. split; [| exact H2].
  rewrite H1, length_drop, length_map. lia.
Qed.

End TestingScreenFacts.

(** ** More about the canvas *)

Module CanvasMoreFacts.
Import Py PyFacts ASCIICanvas ASCIICanvasFacts CanvasMore.

(** What one cell assignment does to the buffer. *)
Lemma store_at (c : canvas) (log : list (Z * Z)) (row col : Z) (ch : cell)
    (line : list cell) :
  0 <= row -> buffer c !! Z.to_nat row = Some line ->
  0 <= col < Z.of_nat (length line) ->
  store row col ch (c, log)
  = Return (set_buffer c
              (<[Z.to_nat row := <[Z.to_nat col := ch]> line]> (buffer c)),
            log ++ [(row, col)]).
Proof.
  intros Hrow Hline Hcol. unfold store.
  pose proof (lookup_lt_Some _ _ _ Hline) as Hlt.
  rewrite (getitem_inside _ _ _ Hrow Hline). cbn [bind].
  rewrite setitem_inside by lia. cbn [bind].
  rewrite setitem_inside by lia. reflexivity.
Qed.

(** *** The clip flag *)

Lemma draw_chars_beyond (x y : Z) (clip : bool) (text : list cell) :
  forall (i : Z) (d : drawing),
  width (fst d) <= x + i -> draw_chars x y clip i text d = Return d.
Proof.
  induction text as [| char rest IH]; intros i d Hw; cbn [draw_chars];
    [reflexivity |].
  destruct (x + i <? 0); [apply IH; lia |].
  rewrite Z.geb_leb. destruct (Z.leb_spec (width (fst d)) (x + i)); [| lia].
  destruct clip; [reflexivity | apply IH; lia].
Qed.

Lemma draw_chars_clip (x y : Z) (text : list cell) :
  forall (i : Z) (d : drawing),
  draw_chars x y true i text d = draw_chars x y false i text d.
Proof.
  induction text as [| char rest IH]; intros i d; cbn [draw_chars];
    [reflexivity |].
  destruct (x + i <? 0); [apply IH |].
  rewrite Z.geb_leb. destruct (Z.leb_spec (width (fst d)) (x + i)).
  - symmetry. apply draw_chars_beyond. lia.
  - destruct (store y (x + i) char d) as [d1 |]; cbn [bind];
      [apply IH | reflexivity].
Qed.

(** X22.  The [clip] flag of [draw_text] changes nothing: with [clip]
    true the loop stops at the first character past the right edge, with
    [clip] false it goes on, but every later character is past the edge
    too; canvas, cell assignments and errors are the same. *)
Theorem clip_flag_is_idle (c : canvas) (x y : Z) (text : list cell) :
  draw_text c x y text true = draw_text c x y text false.
Proof.
  unfold draw_text, draw_text_from.
  destruct ((y <? 0) || (y >=? height (fst (c, [])))); [reflexivity |].
  now rewrite draw_chars_clip.
Qed.

(** *** The cells [draw_text] writes *)

Lemma cell_at_insert (b : list (list cell)) (r k : nat) (ch : cell)
    (line : list cell) (row col : Z) :
  b !! r = Some line -> (k < length line)%nat ->
  cell_at (<[r := <[k := ch]> line]> b) row col
  = if (Z.to_nat row =? r)%nat && (Z.to_nat col =? k)%nat
    then Some ch else cell_at b row col.
Proof.
  intros Hline Hk. unfold cell_at.
  pose proof (lookup_lt_Some _ _ _ Hline) as Hr.
  destruct (Nat.eqb_spec (Z.to_nat row) r) as [-> | Hne]; cbn [andb].
  - rewrite list_lookup_insert_eq by exact Hr. rewrite Hline.
    destruct (Nat.eqb_spec (Z.to_nat col) k) as [-> | Hne].
    + now apply list_lookup_insert_eq.
    + apply list_lookup_insert_ne. congruence.
  - rewrite list_lookup_insert_ne by congruence. reflexivity.
Qed.

Lemma text_index (char : cell) (rest : list cell) (n : Z) :
  1 <= n -> (char :: rest) !! Z.to_nat n = rest !! Z.to_nat (n - 1).
Proof.
  intros H. replace (Z.to_nat n) with (S (Z.to_nat (n - 1))) by lia.
  reflexivity.
Qed.

Lemma draw_chars_cells (x y : Z) (clip : bool) (text : list cell) :
  forall (i : Z) (c : canvas) (log : list (Z * Z)),
  well_formed c -> 0 <= y < height c ->
  exists c' log',
    draw_chars x y clip i text (c, log) = Return (c', log')
    /\ well_formed c' /\ width c' = width c /\ height c' = height c
    /\ old_buffer c' = old_buffer c /\ dirty c' = dirty c
    /\ forall row col, 0 <= row -> 0 <= col < width c ->
         cell_at (buffer c') row col
         = if (row =? y) && (x + i <=? col)
              && (col <? x + i + Z.of_nat (length text))
           then text !! Z.to_nat (col - x - i)
           else cell_at (buffer c) row col.
Proof.
  induction text as [| char rest IH]; intros i c log Hwf Hy;
    cbn [draw_chars fst].
  - exists c, log. repeat (split; [reflexivity || exact Hwf |]).
    intros row col Hrow Hcol. cbn [length].
    destruct (row =? y), (Z.leb_spec (x + i) col),
      (Z.ltb_spec col (x + i + Z.of_nat 0)); cbn [andb]; trivial; lia.
  - assert (Hshift : forall row col, 0 <= row -> 0 <= col < width c ->
              x + i <> col ->
              (if (row =? y) && (x + (i + 1) <=? col)
                  && (col <? x + (i + 1) + Z.of_nat (length rest))
               then rest !! Z.to_nat (col - x - (i + 1))
               else cell_at (buffer c) row col)
              = (if (row =? y) && (x + i <=? col)
                    && (col <? x + i + Z.of_nat (length (char :: rest)))
                 then (char :: rest) !! Z.to_nat (col - x - i)
                 else cell_at (buffer c) row col)).
    { intros row col Hrow Hcol Hne. cbn [length].
      destruct (row =? y), (Z.leb_spec (x + (i + 1)) col),
        (Z.ltb_spec col (x + (i + 1) + Z.of_nat (length rest))),
        (Z.leb_spec (x + i) col),
        (Z.ltb_spec col (x + i + Z.of_nat (S (length rest))));
        cbn [andb]; trivial; try lia.
      rewrite text_index by lia. f_equal. lia. }
    destruct (Z.ltb_spec (x + i) 0) as [Hneg | Hpos].
    { destruct (IH (i + 1) c log Hwf Hy)
        as (c' & log' & E & H1 & H2 & H3 & H4 & H5 & Hcells).
      exists c', log'. repeat (split; [assumption |]).
      intros row col Hrow Hcol. rewrite (Hcells row col Hrow Hcol).
      apply Hshift; trivial. lia. }
    rewrite Z.geb_leb.
    destruct (Z.leb_spec (width c) (x + i)) as [Hbig | Hsmall].
    { assert (Hnone : forall row col, 0 <= row -> 0 <= col < width c ->
                cell_at (buffer c) row col
                = (if (row =? y) && (x + i <=? col)
                      && (col <? x + i + Z.of_nat (length (char :: rest)))
                   then (char :: rest) !! Z.to_nat (col - x - i)
                   else cell_at (buffer c) row col)).
      { intros row col Hrow Hcol.
        destruct (row =? y), (Z.leb_spec (x + i) col); cbn [andb];
          trivial; lia. }
      destruct clip.
      - exists c, log. repeat (split; [reflexivity || exact Hwf |]).
        exact Hnone.
      - destruct (IH (i + 1) c log Hwf Hy)
          as (c' & log' & E & H1 & H2 & H3 & H4 & H5 & Hcells).
        exists c', log'. repeat (split; [assumption |]).
        intros row col Hrow Hcol. rewrite (Hcells row col Hrow Hcol).
        apply Hshift; trivial. lia. }
    destruct Hwf as (Hlen & Hold & Hrows).
    assert (Hk : (Z.to_nat y < length (buffer c))%nat) by lia.
    destruct (lookup_lt_is_Some_2 _ _ Hk) as [line Hline].
    assert (Hline_len : length line = Z.to_nat (width c))
      by exact (Forall_lookup_1 _ _ _ _ Hrows Hline).
    rewrite (store_at c log y (x + i) char line) by (trivial; lia).
    cbn [bind].
    set (c1 := set_buffer c _).
    assert (Hwf1 : well_formed c1).
    { unfold well_formed, c1;
        cbn [buffer old_buffer width height set_buffer].
      rewrite length_insert. split; [exact Hlen |]. split; [exact Hold |].
      apply Forall_insert; [exact Hrows |]. now rewrite length_insert. }
    destruct (IH (i + 1) c1 (log ++ [(y, x + i)]) Hwf1 Hy)
      as (c' & log' & E & H1 & H2 & H3 & H4 & H5 & Hcells).
    exists c', log'. split; [exact E |].
    repeat (split; [assumption |]).
    intros row col Hrow Hcol.
    rewrite (Hcells row col Hrow Hcol). unfold c1 at 1. cbn [buffer set_buffer].
    rewrite (cell_at_insert (buffer c) _ _ char line row col Hline)
      by lia.
    destruct (Z.eq_dec (x + i) col) as [<- | Hne].
    + cbn [length].
      destruct (Z.eqb_spec row y) as [-> | Hrow_ne]; cbn [andb].
      * destruct (Z.leb_spec (x + (i + 1)) (x + i)); [lia |].
        destruct (Z.leb_spec (x + i) (x + i)); [| lia].
        destruct (Z.ltb_spec (x + i) (x + i + Z.of_nat (S (length rest))));
          [| lia].
        cbn [andb]. rewrite !Nat.eqb_refl. cbn [andb].
        replace (x + i - x - i) with 0 by lia. reflexivity.
      * destruct (Nat.eqb_spec (Z.to_nat row) (Z.to_nat y)); [lia |].
        reflexivity.
    + rewrite <- (Hshift row col Hrow Hcol Hne).
      destruct ((row =? y) && (x + (i + 1) <=? col)
                && (col <? x + (i + 1) + Z.of_nat (length rest)));
        [reflexivity |].
      destruct (Nat.eqb_spec (Z.to_nat col) (Z.to_nat (x + i)));
        [lia |]. now rewrite andb_false_r.
Qed.

(** X23.  What [draw_text] writes.  On a well-formed canvas and a row
    [y] of the grid, [draw_text(x, y, text)] returns with the dirty flag
    set and, for every cell of the grid, character number [col - x] of
    the text at [(y, col)] when [x <= col < x + len(text)], and the former
    content everywhere else.  For a row outside the grid the canvas is
    returned as it was: not even the dirty flag is set. *)
Theorem draw_text_cells (c : canvas) (x y : Z) (text : list cell)
    (clip : bool) :
  well_formed c ->
  (0 <= y < height c ->
   exists c' log,
     draw_text c x y text clip = Return (c', log)
     /\ dirty c' = true /\ old_buffer c' = old_buffer c
     /\ forall row col, 0 <= row -> 0 <= col < width c ->
          cell_at (buffer c') row col
          = if (row =? y) && (x <=? col)
               && (col <? x + Z.of_nat (length text))
            then text !! Z.to_nat (col - x)
            else cell_at (buffer c) row col)
  /\ (~ 0 <= y < height c -> draw_text c x y text clip = Return (c, [])).
Proof.
  intros Hwf. unfold draw_text, draw_text_from. cbn [fst].
  rewrite Z.geb_leb.
  destruct (Z.ltb_spec y 0) as [Hneg | Hpos];
    [split; [lia | reflexivity] |].
  destruct (Z.leb_spec (height c) y) as [Hbig | Hsmall];
    [split; [lia | reflexivity] |].
  cbn [orb]. split; [| lia]. intros Hy.
  destruct (draw_chars_cells x y clip text 0 c [] Hwf Hy)
    as (c' & log' & -> & _ & _ & _ & Hold & _ & Hcells).
  cbn [bind mark_dirty fst snd].
  eexists _, _. split; [reflexivity |]. split; [reflexivity |].
  split; [exact Hold |].
  intros row col Hrow Hcol. cbn [buffer set_dirty fst].
  rewrite (Hcells row col Hrow Hcol).
  rewrite !Z.add_0_r, Z.sub_0_r. reflexivity.
Qed.

Lemma draw_text_cells_witness :
  well_formed small /\ 0 <= 1 < height small
  /\ exists c' log,
       draw_text small 2 1 ["a"; "b"; "c"; "d"]%string true
       = Return (c', log)
       /\ cell_at (buffer c') 1 3 = Some "b"%string.
Proof.
  assert (Hy : 0 <= 1 < height small) by (cbn; lia).
  split; [exact (init_well_formed 4 3) |]. split; [exact Hy |].
  destruct (proj1 (draw_text_cells small 2 1 ["a"; "b"; "c"; "d"]%string
                     true (init_well_formed 4 3)) Hy)
    as (c' & log & E & _ & _ & Hcells).
  exists c', log. split; [exact E |].
  exact (Hcells 1 3 ltac:(lia) ltac:(cbn; lia)).
Defined.

(** *** [clear] *)

Lemma range_in (lo hi i : Z) : lo <= i < hi -> In i (range lo hi).
Proof.
  intros H. unfold range. apply in_map_iff. exists (Z.to_nat (i - lo)).
  split; [lia |]. apply in_seq. lia.
Qed.

Lemma cell_at_store (c : canvas) (r k : Z) (ch : cell) (line : list cell)
    (row col : Z) :
  0 <= r -> 0 <= row -> 0 <= col ->
  buffer c !! Z.to_nat r = Some line -> 0 <= k < Z.of_nat (length line) ->
  cell_at (<[Z.to_nat r := <[Z.to_nat k := ch]> line]> (buffer c)) row col
  = if (row =? r) && (col =? k) then Some ch
    else cell_at (buffer c) row col.
Proof.
  intros Hr Hrow Hcol Hline Hk.
  rewrite (cell_at_insert _ _ _ ch line row col Hline) by lia.
  destruct (Z.eqb_spec row r), (Z.eqb_spec col k),
    (Nat.eqb_spec (Z.to_nat row) (Z.to_nat r)),
    (Nat.eqb_spec (Z.to_nat col) (Z.to_nat k)); cbn [andb]; trivial; lia.
Qed.

(** One row filled with a character, column by column. *)
Lemma fill_row (y : Z) (ch : cell) :
  forall (l : list Z) (c : canvas) (log : list (Z * Z)),
  well_formed c -> 0 <= y < height c ->
  (forall k, In k l -> 0 <= k < width c) ->
  exists c' log',
    for_each l (fun x => store y x ch) (c, log) = Return (c', log')
    /\ well_formed c' /\ width c' = width c /\ height c' = height c
    /\ old_buffer c' = old_buffer c /\ dirty c' = dirty c
    /\ forall row col, 0 <= row -> 0 <= col ->
         (row = y -> In col l -> cell_at (buffer c') row col = Some ch)
         /\ (~ (row = y /\ In col l) ->
             cell_at (buffer c') row col = cell_at (buffer c) row col).
Proof.
  induction l as [| k rest IH]; intros c log Hwf Hy Hl; cbn [for_each].
  - exists c, log. repeat (split; [reflexivity || exact Hwf |]).
    intros row col _ _. split; [intros _ [] | reflexivity].
  - assert (Hk : 0 <= k < width c) by (apply Hl; now left).
    pose proof Hwf as (Hlen & Hold & Hrows).
    assert (Hlt : (Z.to_nat y < length (buffer c))%nat) by lia.
    destruct (lookup_lt_is_Some_2 _ _ Hlt) as [line Hline].
    assert (Hline_len : length line = Z.to_nat (width c))
      by exact (Forall_lookup_1 _ _ _ _ Hrows Hline).
    rewrite (store_at c log y k ch line) by (trivial; lia).
    cbn [bind].
    set (c1 := set_buffer c _).
    assert (Hwf1 : well_formed c1).
    { unfold well_formed, c1;
        cbn [buffer old_buffer width height set_buffer].
      rewrite length_insert. split; [exact Hlen |]. split; [exact Hold |].
      apply Forall_insert; [exact Hrows |]. now rewrite length_insert. }
    destruct (IH c1 (log ++ [(y, k)]) Hwf1 Hy
                (fun j Hj => Hl j (or_intror Hj)))
      as (c' & log' & E & H1 & H2 & H3 & H4 & H5 & Hcells).
    exists c', log'. split; [exact E |].
    repeat (split; [assumption |]).
    intros row col Hrow Hcol.
    destruct (Hcells row col Hrow Hcol) as [Hin Hout].
    assert (Hone : cell_at (buffer c1) row col
                   = if (row =? y) && (col =? k) then Some ch
                     else cell_at (buffer c) row col).
    { unfold c1. cbn [buffer set_buffer].
      apply cell_at_store; trivial; lia. }
    split.
    + intros -> Hmem.
      destruct (in_dec Z.eq_dec col rest) as [Hr | Hr]; [now apply Hin |].
      rewrite Hout by tauto. rewrite Hone.
      destruct Hmem as [<- | Hmem]; [| contradiction].
      now rewrite !Z.eqb_refl.
    + intros Hnot.
      rewrite Hout by (intros [-> Hmem]; apply Hnot; split; [| right];
                       trivial).
      rewrite Hone.
      destruct (Z.eqb_spec row y) as [-> |]; [| reflexivity].
      destruct (Z.eqb_spec col k) as [-> |]; [| reflexivity].
      exfalso. apply Hnot. split; [reflexivity | now left].
Qed.

(** Several rows filled with blanks, row by row. *)
Lemma fill_rows (w : Z) :
  forall (l : list Z) (c : canvas) (log : list (Z * Z)),
  well_formed c -> width c = w ->
  (forall k, In k l -> 0 <= k < height c) ->
  exists c' log',
    for_each l (fun y =>
        for_each (range 0 w) (fun x => store y x " "%string)) (c, log)
    = Return (c', log')
    /\ well_formed c' /\ width c' = width c /\ height c' = height c
    /\ old_buffer c' = old_buffer c /\ dirty c' = dirty c
    /\ forall row col, 0 <= row -> 0 <= col < w ->
         (In row l -> cell_at (buffer c') row col = Some " "%string)
         /\ (~ In row l ->
             cell_at (buffer c') row col = cell_at (buffer c) row col).
Proof.
  induction l as [| k rest IH]; intros c log Hwf Hw Hl; cbn [for_each].
  - exists c, log. repeat (split; [reflexivity || exact Hwf |]).
    intros row col _ _. split; [intros [] | reflexivity].
  - assert (Hk : 0 <= k < height c) by (apply Hl; now left).
    destruct (fill_row k " "%string (range 0 w) c log Hwf Hk)
      as (c1 & log1 & -> & Hwf1 & Hw1 & Hh1 & Ho1 & Hd1 & Hcells1).
    { intros j Hj. apply in_range in Hj. lia. }
    cbn [bind].
    destruct (IH c1 log1 Hwf1 (eq_trans Hw1 Hw))
      as (c' & log' & E & H1 & H2 & H3 & H4 & H5 & Hcells).
    { intros j Hj. rewrite Hh1. apply Hl. now right. }
    exists c', log'. split; [exact E |].
    repeat (split; [congruence || assumption |]).
    intros row col Hrow Hcol.
    destruct (Hcells row col Hrow Hcol) as [Hin Hout].
    destruct (Hcells1 row col Hrow (proj1 Hcol)) as [Hin1 Hout1].
    split.
    + intros Hmem.
      destruct (in_dec Z.eq_dec row rest) as [Hr | Hr]; [now apply Hin |].
      rewrite Hout by exact Hr.
      destruct Hmem as [<- | Hmem]; [| contradiction].
      apply Hin1; [reflexivity | now apply range_in].
    + intros Hnot. rewrite Hout by (intros Hmem; apply Hnot; now right).
      apply Hout1. intros [-> _]. apply Hnot. now left.
Qed.

(** X24.  [clear] on a well-formed canvas returns, leaves every cell of
    the grid blank and sets the dirty flag; sizes and the copy of the
    frame last rendered ([old_buffer]) are untouched, so the next
    [render] still has something to write. *)
Theorem clear_blanks_every_cell (c : canvas) :
  well_formed c ->
  exists c' log,
    clear c = Return (c', log)
    /\ well_formed c' /\ dirty c' = true
    /\ width c' = width c /\ height c' = height c
    /\ old_buffer c' = old_buffer c
    /\ forall row col, 0 <= row < height c -> 0 <= col < width c ->
         cell_at (buffer c') row col = Some " "%string.
Proof.
  intros Hwf. unfold clear.
  destruct (fill_rows (width c) (range 0 (height c)) c [] Hwf eq_refl)
    as (c' & log' & -> & Hwf' & Hw & Hh & Ho & Hd & Hcells).
  { intros k Hk. apply in_range in Hk. lia. }
  cbn [bind mark_dirty fst snd].
  eexists _, _. split; [reflexivity |].
  split; [exact Hwf' |]. split; [reflexivity |].
  split; [exact Hw |]. split; [exact Hh |]. split; [exact Ho |].
  intros row col Hrow Hcol. cbn [buffer set_dirty fst].
  apply (Hcells row col (proj1 Hrow) Hcol). now apply range_in.
Qed.

Lemma clear_blanks_every_cell_witness :
  well_formed small
  /\ exists c' log,
       clear small = Return (c', log)
       /\ cell_at (buffer c') 2 3 = Some " "%string.
Proof.
  split; [exact (init_well_formed 4 3) |].
  destruct (clear_blanks_every_cell small (init_well_formed 4 3))
    as (c' & log & E & _ & _ & _ & _ & _ & Hcells).
  exists c', log. split; [exact E |].
  exact (Hcells 2 3 ltac:(cbn; lia) ltac:(cbn; lia)).
Defined.

End CanvasMoreFacts.

(** ** The video player screen *)

Module VideoPlayerScreenFacts.
Import Py PyFacts PyMoreFacts Widgets WidgetsFacts WidgetsMoreFacts.
Import VideoPlayerScreen.












Lemma run_callbacks_handled (i : nat) (calls : list (callback * arg))
    (rest : list action) (s : screen) :
  run_callbacks (HitTest i :: Handle i :: callbacks calls ++ rest) s
  = run_callbacks (callbacks calls ++ rest) s.
Proof. reflexivity. Qed.









End VideoPlayerScreenFacts.

(** ** Drawing the widgets *)

Module DrawFacts.
Import Py PyFacts ASCIICanvas ASCIICanvasFacts CanvasMore Widgets Draw.

Lemma safe_text (c0 : canvas) (x y : Z) (t : list cell) :
  safe c0 (text x y t).
Proof. apply safe_draw_text. Qed.













(** X29.  The degenerate widgets raise when drawn: a visible slider with
    [max_val = min_val] draws its track and then raises
    [ZeroDivisionError]; so does a visible scrollbar with no item and a
    negative number of visible items, after its track.  A widget that is
    not visible draws nothing and raises nothing. *)
Theorem degenerate_draws_raise (c : canvas) :
  well_formed c ->
  (forall s, visible (sl_base s) = true -> max_val s = min_val s ->
     Slider_draw s (c, []) = Raise ZeroDivisionError)
  /\ (forall s, visible (s_base s) = true -> total_items s = 0 ->
        visible_items s < 0 ->
        ScrollBar_draw s (c, []) = Raise ZeroDivisionError)
  /\ (forall w d, visible (base w) = false -> draw w d = Return d).
Proof.
  intros Hc. split; [| split].
  - intros s Hv Hm. unfold Slider_draw. rewrite Hv. cbn [negb].
    destruct (safe_text c (x (sl_base s)) (y (sl_base s) + 1)
                (["├"%string] ++ times "─"%string
                                   (Widgets.width (sl_base s) - 2)
                 ++ ["┤"%string]) (c, []) (in_order_start c Hc))
      as (d & -> & _).
    cbn [bind]. unfold truediv.
    destruct (Z.eqb_spec (max_val s - min_val s) 0); [reflexivity | lia].
  - intros s Hv Ht Hn. unfold ScrollBar_draw. rewrite Hv. cbn [negb orb].
    destruct (Z.leb_spec (total_items s) (visible_items s)); [lia |].
    destruct (safe_for_each c (range 0 (Widgets.height (s_base s)))
                (fun i => text (x (s_base s)) (y (s_base s) + i)
                            ["│"%string])
                (fun i _ => safe_text c _ _ _) (c, [])
                (in_order_start c Hc))
      as (d & -> & _).
    cbn [bind]. unfold truediv. rewrite Ht. reflexivity.
  - intros w d Hv. destruct w; cbn [draw base] in *; trivial.
    + unfold Button_draw. now rewrite Hv.
    + unfold VideoButton_draw. now rewrite Hv.
    + unfold MainMenuButton_draw. now rewrite Hv.
    + unfold ScrollBar_draw. now rewrite Hv.
    + unfold Slider_draw. now rewrite Hv.
Qed.

Lemma degenerate_draws_raise_witness :
  well_formed small
  /\ Slider_draw (Slider_init 1 0 8 50 50 50 None) (small, [])
     = Raise ZeroDivisionError.
Proof.
  split; [exact (init_well_formed 4 3) |].
  exact (proj1 (degenerate_draws_raise small (init_well_formed 4 3))
           (Slider_init 1 0 8 50 50 50 None) eq_refl eq_refl).
Defined.

End DrawFacts.
